(** * Relay and command correlation of the Figma MCP bridge

    A shallow embedding of
    - [src/talk_to_figma_mcp/utils/websocket-server.ts] (the relay server,
      module [Server]) and
    - [src/talk_to_figma_mcp/utils/websocket.ts] (the relay client,
      module [Client]),
    followed by the properties of the channel registry, the broadcast
    primitive, the pending request table and the auto-connect controller. *)

From Stdlib Require Import ZArith String List Bool Lia.
From Stdlib Require Import DecimalString.
From stdpp Require Import base option list strings gmap.

Local Open Scope string_scope.
Local Open Scope list_scope.
Set Warnings "-register-all".

(** ** JavaScript values

    Both handlers work on whatever [JSON.parse] returns, so frames are
    modelled as untyped values.  Numbers are integers here: the relay only
    tests them for truthiness and passes them on. *)
Module Js.

Inductive value : Type :=
| VUndefined
| VNull
| VBool (b : bool)
| VNum (n : Z)
| VStr (s : string)
| VArr (items : list value)
| VObj (fields : list (string * value)).

(** An [Error] object; [err.message] is all the code ever reads. *)
Record Error := mkError { name : string; message : string }.

Definition SyntaxError (m : string) : Error := mkError "SyntaxError" m.
Definition TypeError (m : string) : Error := mkError "TypeError" m.
Definition new_Error (m : string) : Error := mkError "Error" m.

(** Completion of an expression: a value or a thrown error. *)
Inductive completion (A : Type) : Type :=
| Normal (a : A)
| Abrupt (e : Error).
Arguments Normal {A} a.
Arguments Abrupt {A} e.

(** What [JSON.parse(data)] did with an inbound frame. *)
Inductive frame : Type :=
| Unparseable (reason : string)   (* JSON.parse throws SyntaxError(reason) *)
| Parsed (v : value).

Definition JSON_parse (f : frame) : completion value :=
  match f with
  | Unparseable reason => Abrupt (SyntaxError reason)
  | Parsed v => Normal v
  end.

(** ToBoolean. *)
Definition truthy (v : value) : bool :=
  match v with
  | VUndefined | VNull => false
  | VBool b => b
  | VNum n => negb (n =? 0)%Z
  | VStr s => negb (String.eqb s "")
  | VArr _ | VObj _ => true
  end.

Fixpoint assoc (k : string) (fields : list (string * value)) : option value :=
  match fields with
  | [] => None
  | (k', v) :: rest => if String.eqb k k' then Some v else assoc k rest
  end.

(** Property read [v.k].  Reading a property of [undefined] or [null]
    throws; a missing property reads as [undefined].  None of the names the
    relay reads ([type], [id], [channel], [message], [data], [result],
    [error], [commandType], [progress]) exists on the prototypes of
    strings, numbers, booleans or arrays. *)
Definition get (v : value) (k : string) : completion value :=
  match v with
  | VUndefined =>
      Abrupt (TypeError ("Cannot read properties of undefined (reading '" +:+ k +:+ "')"))
  | VNull =>
      Abrupt (TypeError ("Cannot read properties of null (reading '" +:+ k +:+ "')"))
  | VObj fields => Normal (default VUndefined (assoc k fields))
  | _ => Normal VUndefined
  end.

(** [v === VStr s]. *)
Definition is_str (v : value) (s : string) : bool :=
  match v with
  | VStr s' => String.eqb s' s
  | _ => false
  end.

Definition string_of_Z (n : Z) : string := NilZero.string_of_int (Z.to_int n).

(** ToString, as used by template literals and [new Error(v)]. *)
Fixpoint to_string (v : value) : string :=
  match v with
  | VUndefined => "undefined"
  | VNull => "null"
  | VBool true => "true"
  | VBool false => "false"
  | VNum n => string_of_Z n
  | VStr s => s
  | VArr items =>
      (fix join (l : list value) : string :=
         match l with
         | [] => ""
         | x :: rest =>
             let sx := match x with
                       | VUndefined | VNull => ""
                       | _ => to_string x
                       end in
             match rest with
             | [] => sx
             | _ => sx +:+ "," +:+ join rest
             end
         end) items
  | VObj _ => "[object Object]"
  end.

(** [Array.prototype.join] on an array of strings. *)
Fixpoint join (sep : string) (l : list string) : string :=
  match l with
  | [] => ""
  | [x] => x
  | x :: rest => x +:+ sep +:+ join sep rest
  end.

(** [readyState] of a WebSocket. *)
Inductive ReadyState : Type := CONNECTING | OPEN | CLOSING | CLOSED.

Definition is_open (r : ReadyState) : bool :=
  match r with OPEN => true | _ => false end.

End Js.

(** ** Handlers run in a state monad with exceptions

    A handler either finishes, or an exception escapes it, or it meets a
    frame this embedding does not cover ([IllTyped], used by the server
    only, see [Server.as_string]).  The state reached so far is kept in all
    three cases. *)
Module Eff.
Import Js.

Inductive result (A : Type) : Type :=
| Ret (a : A)
| Throw (e : Error)
| IllTyped.
Arguments Ret {A} a.
Arguments Throw {A} e.
Arguments IllTyped {A}.

Definition M (S A : Type) : Type := S -> result A * S.

Section Monad.
Context {S : Type}.

Definition ret {A : Type} (a : A) : M S A := fun s => (Ret a, s).

Definition bind {A B : Type} (m : M S A) (k : A -> M S B) : M S B :=
  fun s =>
    match m s with
    | (Ret a, s') => k a s'
    | (Throw e, s') => (Throw e, s')
    | (IllTyped, s') => (IllTyped, s')
    end.

Definition lift {A : Type} (c : completion A) : M S A :=
  fun s => match c with Normal a => (Ret a, s) | Abrupt e => (Throw e, s) end.

Definition throw {A : Type} (e : Error) : M S A := fun s => (Throw e, s).

Definition gets {A : Type} (f : S -> A) : M S A := fun s => (Ret (f s), s).

Definition modify (f : S -> S) : M S unit := fun s => (Ret tt, f s).

(** [try { body } catch (err) { handler(err) }] *)
Definition try_catch {A : Type} (body : M S A) (handler : Error -> M S A) : M S A :=
  fun s =>
    match body s with
    | (Throw e, s') => handler e s'
    | r => r
    end.

End Monad.

Declare Scope relay_scope.
Delimit Scope relay_scope with relay.
Notation "x <- m ;; k" := (bind m (fun x => k))
  (at level 20, m at level 99, k at level 200) : relay_scope.
Notation "m ;; k" := (bind m (fun _ => k))
  (at level 100, k at level 200, right associativity) : relay_scope.

End Eff.

(** ** The relay server: [websocket-server.ts] *)
Module Server.
Import Js Eff.

(** A [ServerWebSocket] handle. *)
Definition conn : Type := nat.

(** [const stats = {...}] *)
Record Stats : Type := mkStats {
  totalConnections : Z;
  activeConnections : Z;
  messagesSent : Z;
  messagesReceived : Z;
  errors : Z
}.

(** The module-level variables.  [channels] is a JS [Map] from channel name
    to a JS [Set] of sockets; both keep insertion order, so they are lists
    without repeated keys (members).  [wire] is not a variable of the module:
    it records, in order, every call [c.send(JSON.stringify(v))] as [(c, v)]. *)
Record state : Type := mkState {
  channels : list (string * list conn);
  wsServer : option Z;
  currentChannel : option string;
  stats : Stats;
  wire : list (conn * value)
}.

Definition initial : state :=
  mkState [] None None (mkStats 0 0 0 0 0) [].

(** *** [Map] and [Set] operations *)

Fixpoint map_get {V : Type} (k : string) (m : list (string * V)) : option V :=
  match m with
  | [] => None
  | (k', v) :: rest => if String.eqb k k' then Some v else map_get k rest
  end.

Definition map_has {V : Type} (k : string) (m : list (string * V)) : bool :=
  match map_get k m with Some _ => true | None => false end.

(** [m.set(k, v)]: an existing key keeps its place, a new one goes last. *)
Fixpoint map_set {V : Type} (k : string) (v : V) (m : list (string * V))
  : list (string * V) :=
  match m with
  | [] => [(k, v)]
  | (k', v') :: rest =>
      if String.eqb k k' then (k, v) :: rest else (k', v') :: map_set k v rest
  end.

Fixpoint map_delete {V : Type} (k : string) (m : list (string * V))
  : list (string * V) :=
  match m with
  | [] => []
  | (k', v') :: rest =>
      if String.eqb k k' then rest else (k', v') :: map_delete k rest
  end.

Definition map_keys {V : Type} (m : list (string * V)) : list string :=
  List.map fst m.

Definition set_has (c : conn) (s : list conn) : bool := existsb (Nat.eqb c) s.

Definition set_add (c : conn) (s : list conn) : list conn :=
  if set_has c s then s else s ++ [c].

(** [s.delete(c)] leaves [set_delete c s] and returns [set_has c s]. *)
Definition set_delete (c : conn) (s : list conn) : list conn :=
  List.filter (fun x => negb (Nat.eqb c x)) s.

(** [channels.get(k)] for an arbitrary value [k]: every key of the registry
    is a string, so only a string can be found. *)
Definition chan_get (k : value) (m : list (string * list conn)) : option (list conn) :=
  match k with
  | VStr name => map_get name m
  | _ => None
  end.

(** *** Field updates *)

Definition set_channels (f : list (string * list conn) -> list (string * list conn))
  (s : state) : state :=
  mkState (f (channels s)) (wsServer s) (currentChannel s) (stats s) (wire s).

Definition set_stats (f : Stats -> Stats) (s : state) : state :=
  mkState (channels s) (wsServer s) (currentChannel s) (f (stats s)) (wire s).

Definition log_send (c : conn) (v : value) (s : state) : state :=
  mkState (channels s) (wsServer s) (currentChannel s) (stats s) (wire s ++ [(c, v)]).

Definition inc_totalConnections (t : Stats) : Stats :=
  mkStats (totalConnections t + 1) (activeConnections t) (messagesSent t)
          (messagesReceived t) (errors t).
Definition inc_activeConnections (t : Stats) : Stats :=
  mkStats (totalConnections t) (activeConnections t + 1) (messagesSent t)
          (messagesReceived t) (errors t).
Definition dec_activeConnections (t : Stats) : Stats :=
  mkStats (totalConnections t) (activeConnections t - 1) (messagesSent t)
          (messagesReceived t) (errors t).
Definition inc_messagesSent (t : Stats) : Stats :=
  mkStats (totalConnections t) (activeConnections t) (messagesSent t + 1)
          (messagesReceived t) (errors t).
Definition inc_messagesReceived (t : Stats) : Stats :=
  mkStats (totalConnections t) (activeConnections t) (messagesSent t)
          (messagesReceived t + 1) (errors t).
Definition inc_errors (t : Stats) : Stats :=
  mkStats (totalConnections t) (activeConnections t) (messagesSent t)
          (messagesReceived t) (errors t + 1).

Abbreviation M := (Eff.M state).

(** A channel name stored in the registry has to be a string: the registry
    is declared [Map<string, ...>], and a [join] whose channel is truthy but
    not a string would store a key of another type. *)
Definition as_string (v : value) : M string :=
  fun s => match v with VStr x => (Ret x, s) | _ => (IllTyped, s) end.

Definition error_envelope (m : string) : value :=
  VObj [("type", VStr "error"); ("message", VStr m)].

(** *** The handlers

    The environment of one handler run: the [readyState] of every socket and
    whether a [send] on it throws (and what). *)
Section Handlers.
Variable readyState : conn -> ReadyState.
Variable send_error : conn -> option Error.

Local Open Scope relay_scope.

(** [c.send(JSON.stringify(v))] *)
Definition send (c : conn) (v : value) : M unit :=
  fun s =>
    match send_error c with
    | Some e => (Throw e, log_send c v s)
    | None => (Ret tt, log_send c v s)
    end.

(** The body of [clients.forEach] in [broadcastToChannel]. *)
Definition broadcast_one (message : value) (excludeClient : option conn)
  (s : state) (client : conn) : state :=
  if negb (bool_decide (Some client = excludeClient))
     && is_open (readyState client)
  then
    match send client message s with
    | (Ret _, s') => set_stats inc_messagesSent s'
    | (_, s') => set_stats inc_errors s'
    end
  else s.

Definition broadcastToChannel (channelName : value) (message : value)
  (excludeClient : option conn) : M unit :=
  fun s =>
    match chan_get channelName (channels s) with
    | None => (Ret tt, s)
    | Some clients =>
        (Ret tt, fold_left (broadcast_one message excludeClient) clients s)
    end.

(** [websocket.open] *)
Definition open (ws : conn) : M unit :=
  modify (set_stats inc_totalConnections) ;;
  modify (set_stats inc_activeConnections) ;;
  try_catch
    (send ws (VObj [("type", VStr "system");
                    ("message", VStr "Connected to Figma MCP server")]))
    (fun _ => modify (set_stats inc_errors)).

(** [if (data.type === "join") { ... return; }] *)
Definition join_branch (ws : conn) (data : value) : M unit :=
  channelName <- lift (get data "channel") ;;
  if negb (truthy channelName) then
    send ws (error_envelope "Channel name is required")
  else
    name <- as_string channelName ;;
    has <- gets (fun s => map_has name (channels s)) ;;
    (if negb has then modify (set_channels (map_set name [])) else ret tt) ;;
    modify (set_channels (fun m =>
      match map_get name m with
      | Some clients => map_set name (set_add ws clients) m
      | None => m
      end)) ;;
    id <- lift (get data "id") ;;
    send ws (VObj [("type", VStr "system");
                   ("message", VObj [("id", id);
                                     ("result", VStr ("Connected to channel: " +:+ name))]);
                   ("channel", VStr name)]) ;;
    modify (set_stats inc_messagesSent) ;;
    broadcastToChannel (VStr name)
      (VObj [("type", VStr "system");
             ("message", VStr "A new client has joined the channel");
             ("channel", VStr name)])
      (Some ws).

(** [if (data.type === "message") { ... }]; the result tells whether control
    falls through to the next [if] ([false] after a [return]). *)
Definition message_branch (ws : conn) (data : value) : M bool :=
  channelName <- lift (get data "channel") ;;
  if negb (truthy channelName) then
    send ws (error_envelope "Channel name is required") ;; ret false
  else
    channelClients <- gets (fun s => chan_get channelName (channels s)) ;;
    if negb (match channelClients with
             | Some clients => set_has ws clients
             | None => false
             end)
    then
      send ws (error_envelope "You must join the channel first") ;; ret false
    else
      payload <- lift (get data "message") ;;
      broadcastToChannel channelName
        (VObj [("type", VStr "broadcast");
               ("message", payload);
               ("channel", channelName)])
        None ;;
      ret true.

(** [if (data.type === "progress_update") { ... }] *)
Definition progress_branch (data : value) : M unit :=
  channelName <- lift (get data "channel") ;;
  channelClients <- gets (fun s => chan_get channelName (channels s)) ;;
  match channelClients with
  | Some _ => broadcastToChannel channelName data None
  | None => ret tt
  end.

(** [websocket.message].  [clientId] only feeds the log.  [data.type] is
    read once here and three times in the source; the reads are pure. *)
Definition message (ws : conn) (m : frame) : M unit :=
  try_catch
    (modify (set_stats inc_messagesReceived) ;;
     data <- lift (JSON_parse m) ;;
     type <- lift (get data "type") ;;
     if is_str type "join" then join_branch ws data
     else
       continue <- (if is_str type "message" then message_branch ws data
                    else ret true) ;;
       if (continue : bool) then
         if is_str type "progress_update" then progress_branch data else ret tt
       else ret tt)
    (fun err =>
       modify (set_stats inc_errors) ;;
       send ws (error_envelope ("Error processing message: " +:+ Js.message err))).

(** One visit of [channels.forEach] in [websocket.close]. *)
Definition close_visit (ws : conn) (m : list (string * list conn))
  (channelName : string) : list (string * list conn) :=
  match map_get channelName m with
  | Some clients =>
      if set_has ws clients then
        let clients' := set_delete ws clients in
        if (length clients' =? 0)%nat
        then map_delete channelName m
        else map_set channelName clients' m
      else m
  | None => m
  end.

(** [websocket.close].  [forEach] visits every entry present when it is
    reached; a visit deletes at most the entry it is at. *)
Definition close (ws : conn) : M unit :=
  modify (set_channels (fun m => fold_left (close_visit ws) (map_keys m) m)) ;;
  modify (set_stats dec_activeConnections).

End Handlers.

(** *** Runs of the server

    What the runtime delivers to the three listeners, each time with the
    environment of that moment. *)
Inductive event : Type :=
| Opened (ws : conn)
| Received (ws : conn) (m : frame)
| Closed (ws : conn).

Record occurrence : Type := mkOccurrence {
  at_readyState : conn -> ReadyState;
  at_send_error : conn -> option Error;
  happened : event
}.

Definition step (s : state) (o : occurrence) : state :=
  match happened o with
  | Opened ws => snd (open (at_send_error o) ws s)
  | Received ws m => snd (message (at_readyState o) (at_send_error o) ws m s)
  | Closed ws => snd (close ws s)
  end.

Definition run (os : list occurrence) (s : state) : state := fold_left step os s.

(** The channel a frame asks to join, if it is a [join] with a non-empty
    string as channel. *)
Definition join_target (m : frame) : option string :=
  match m with
  | Parsed data =>
      match get data "type", get data "channel" with
      | Normal type, Normal (VStr name) =>
          if is_str type "join" && negb (String.eqb name "") then Some name else None
      | _, _ => None
      end
  | Unparseable _ => None
  end.

(** The frames covered by the embedding: all but a [join] whose channel is
    truthy and not a string. *)
Definition in_scope (m : frame) : bool :=
  match m with
  | Parsed data =>
      match get data "type", get data "channel" with
      | Normal type, Normal channelName =>
          if is_str type "join" && truthy channelName
          then match channelName with VStr _ => true | _ => false end
          else true
      | _, _ => true
      end
  | Unparseable _ => true
  end.




(** What [join] does to the registry, and what [close] does to it when no
    key is repeated. *)
Definition joins (ws : conn) (name : string) (m : list (string * list conn))
  : list (string * list conn) :=
  let m1 := if map_has name m then m else map_set name [] m in
  match map_get name m1 with
  | Some clients => map_set name (set_add ws clients) m1
  | None => m1
  end.

Definition leaves_entry (ws : conn) (e : string * list conn)
  : option (string * list conn) :=
  if set_has ws (snd e) then
    if (length (set_delete ws (snd e)) =? 0)%nat
    then None
    else Some (fst e, set_delete ws (snd e))
  else Some e.

Definition leaves (ws : conn) (m : list (string * list conn))
  : list (string * list conn) :=
  omap (leaves_entry ws) m.

(** The shape of the registry in every run: no key twice, no empty name,
    no channel without members, no member twice. *)
Definition registry_ok (m : list (string * list conn)) : Prop :=
  NoDup (map_keys m) ∧
  Forall (fun e : string * list conn => fst e ≠ "" ∧ snd e ≠ [] ∧ NoDup (snd e)) m.

(** A computation that leaves the registry alone. *)
Definition keeps_registry {A : Type} (m : M A) : Prop :=
  ∀ s, channels (snd (m s)) = channels s.

Definition member_in (c : conn) (name : string) (m : list (string * list conn)) : bool :=
  match map_get name m with
  | Some clients => set_has c clients
  | None => false
  end.

Definition is_member (c : conn) (name : string) (s : state) : bool :=
  member_in c name (channels s).

(** *** The exported functions *)

(** [startWebSocketServer(port)]; [serve] is what [Bun.serve] does.  The
    result is [wsServer] afterwards. *)
Definition startWebSocketServer (port : Z) (serve : completion unit) (s : state)
  : option Z * state :=
  match wsServer s with
  | Some running => (Some running, s)
  | None =>
      match serve with
      | Normal _ =>
          (Some port, mkState (channels s) (Some port) (currentChannel s) (stats s) (wire s))
      | Abrupt _ => (None, s)
      end
  end.

Definition stopWebSocketServer (s : state) : state :=
  match wsServer s with
  | Some _ => mkState [] None None (stats s) (wire s)
  | None => s
  end.

Definition getActiveChannels (s : state) : list string := map_keys (channels s).

Definition getChannelClientCount (channelName : string) (s : state) : nat :=
  match map_get channelName (channels s) with
  | Some clients => length clients
  | None => 0
  end.

Definition getCurrentChannel (s : state) : option string := currentChannel s.

Definition setCurrentChannel (channel : option string) (s : state) : state :=
  mkState (channels s) (wsServer s) channel (stats s) (wire s).

Definition isServerRunning (s : state) : bool :=
  match wsServer s with Some _ => true | None => false end.

(** [getServerStats()]: the counters, [channelCount] and [isRunning]. *)
Record ServerStats : Type := mkServerStats {
  counters : Stats;
  channelCount : nat;
  isRunning : bool
}.

Definition getServerStats (s : state) : ServerStats :=
  mkServerStats (stats s) (length (channels s)) (isServerRunning s).

End Server.

(** ** The relay client: [websocket.ts] *)
Module Client.
Import Js Eff.

(** Handles of promises and of timers ([setTimeout]'s return value). *)
Definition promise : Type := nat.
Definition timer : Type := nat.

Inductive settlement : Type :=
| Pending
| Fulfilled (v : value)
| Rejected (e : Error).

(** [PendingRequest]: [resolve] and [reject] are the two functions of one
    promise, named by its handle. *)
Record PendingRequest : Type := mkPendingRequest {
  resolve : promise;
  reject : promise;
  timeout : timer;
  lastActivity : Z
}.

(** The closures handed to [setTimeout], with the variables they capture. *)
Inductive callback : Type :=
| ConnectionTimeout                                    (* connectToFigma, 10000 *)
| TryAutoConnect                                       (* 'open' listener, 1000 *)
| Reconnect (port : Z)                                 (* 'close' listener and catch *)
| CommandTimeout (id : string) (reject : promise)      (* sendCommandToFigma *)
| ProgressTimeout (requestId : string) (reject : promise). (* progress_update branch *)

Record Timeout : Type := mkTimeout { delay : Z; action : callback }.

(** The module-level variables ([ws], [currentChannel], [autoConnectEnabled],
    [pendingRequests]), the state of the relay server living in the same
    process, and the runtime's stores: armed timers and promises by handle
    (a cleared or fired timer leaves [None]), and the frames handed to
    [ws.send].  Of the socket object only [readyState] is read. *)
Record state : Type := mkState {
  relay : Server.state;
  ws : option ReadyState;
  currentChannel : option string;
  autoConnectEnabled : bool;
  pendingRequests : gmap string PendingRequest;
  timers : list (option Timeout);
  promises : list settlement;
  outbox : list value
}.

Definition initial : state :=
  mkState Server.initial None None true ∅ [] [] [].

Abbreviation M := (Eff.M state).

(** *** Field updates *)

Definition set_relay (f : Server.state -> Server.state) (s : state) : state :=
  mkState (f (relay s)) (ws s) (currentChannel s) (autoConnectEnabled s)
          (pendingRequests s) (timers s) (promises s) (outbox s).
Definition set_ws (w : option ReadyState) (s : state) : state :=
  mkState (relay s) w (currentChannel s) (autoConnectEnabled s)
          (pendingRequests s) (timers s) (promises s) (outbox s).
Definition set_currentChannel (c : option string) (s : state) : state :=
  mkState (relay s) (ws s) c (autoConnectEnabled s)
          (pendingRequests s) (timers s) (promises s) (outbox s).
Definition set_pendingRequests
  (f : gmap string PendingRequest -> gmap string PendingRequest) (s : state) : state :=
  mkState (relay s) (ws s) (currentChannel s) (autoConnectEnabled s)
          (f (pendingRequests s)) (timers s) (promises s) (outbox s).
Definition set_timers (f : list (option Timeout) -> list (option Timeout))
  (s : state) : state :=
  mkState (relay s) (ws s) (currentChannel s) (autoConnectEnabled s)
          (pendingRequests s) (f (timers s)) (promises s) (outbox s).
Definition set_promises (f : list settlement -> list settlement) (s : state) : state :=
  mkState (relay s) (ws s) (currentChannel s) (autoConnectEnabled s)
          (pendingRequests s) (timers s) (f (promises s)) (outbox s).
Definition ws_send (v : value) (s : state) : state :=
  mkState (relay s) (ws s) (currentChannel s) (autoConnectEnabled s)
          (pendingRequests s) (timers s) (promises s) (outbox s ++ [v]).

(** *** Timers and promises *)

(** [setTimeout(cb, ms)]: a fresh handle. *)
Definition setTimeout (cb : callback) (ms : Z) (s : state) : timer * state :=
  (length (timers s), set_timers (fun t => t ++ [Some (mkTimeout ms cb)]) s).

(** [clearTimeout(h)]; nothing happens for a handle that is not armed. *)
Definition clearTimeout (h : timer) (s : state) : state :=
  set_timers (fun t => <[h := None]> t) s.

Definition armed (h : timer) (s : state) : option Timeout :=
  match timers s !! h with
  | Some (Some t) => Some t
  | _ => None
  end.

(** [new Promise(...)]: a fresh pending promise. *)
Definition new_Promise (s : state) : promise * state :=
  (length (promises s), set_promises (fun ps => ps ++ [Pending]) s).

Definition promise_state (p : promise) (s : state) : settlement :=
  default Pending (promises s !! p).

(** Calling [resolve] or [reject] of promise [p]: only the first call
    settles it. *)
Definition settle (p : promise) (o : settlement) (s : state) : state :=
  match promises s !! p with
  | Some Pending => set_promises (fun ps => <[p := o]> ps) s
  | _ => s
  end.

(** [pendingRequests.get(k)] for an arbitrary value [k]: the keys are
    strings, so only a string can be found. *)
Definition table_get (k : value) (s : state) : option PendingRequest :=
  match k with
  | VStr id => pendingRequests s !! id
  | _ => None
  end.

(** ToBoolean of [currentChannel : string | null]. *)
Definition joined (c : option string) : bool :=
  match c with
  | Some name => negb (String.eqb name "")
  | None => false
  end.

Definition channel_value (c : option string) : value :=
  match c with Some name => VStr name | None => VNull end.

(** The body shared by the two request timers:
    [if (pendingRequests.has(id)) { pendingRequests.delete(id); reject(...) }] *)
Definition request_timed_out (id : string) (rej : promise) (s : state) : state :=
  match pendingRequests s !! id with
  | Some _ =>
      settle rej (Rejected (new_Error "Request to Figma timed out"))
        (set_pendingRequests (delete id) s)
  | None => s
  end.

(** An [async] function call: it has returned, it has thrown, or it is
    suspended at the [await] of promise [p]. *)
Inductive async (A : Type) : Type :=
| Returned (a : A)
| Failed (e : Error)
| Suspended (p : promise).
Arguments Returned {A} a.
Arguments Failed {A} e.
Arguments Suspended {A} p.

Record AutoConnectResult : Type := mkAutoConnectResult {
  success : bool;
  channel : option string;
  message : string;
  availableChannels : option (list string)
}.

Record DisconnectResult : Type := mkDisconnectResult {
  disconnected : bool;         (* success *)
  notice : string              (* message *)
}.

Record ConnectionStatus : Type := mkConnectionStatus {
  serverRunning : bool;
  connected : bool;
  statusChannel : option string;      (* currentChannel *)
  statusChannels : list string;       (* availableChannels *)
  serverStats : Server.ServerStats    (* stats *)
}.

Definition is_OPEN (w : option ReadyState) : bool :=
  match w with Some OPEN => true | _ => false end.

Section Config.
(** [reconnectInterval] and [defaultPort] are constants of [config/config]. *)
Variable reconnectInterval : Z.
Variable defaultPort : Z.

Local Open Scope relay_scope.

(** [Math.min(30000, reconnectInterval * Math.pow(1.5, k))] for
    [k = Math.floor(Math.random() * 5)], in whole milliseconds. *)
Definition backoff (k : Z) : Z :=
  Z.min 30000 (reconnectInterval * 3 ^ k / 2 ^ k).

(** [connectToFigma(port)]; [ctor] is what [new WebSocket(wsUrl)] does.
    The listeners registered on the new socket are the functions [on_open],
    [on_message] and [on_close] below; they capture [connectionTimeout] (the
    handle returned here by [setTimeout]) and [port]. *)
Definition connectToFigma (port : Z) (ctor : completion unit) (s : state) : state :=
  match ws s with
  | Some OPEN => s
  | Some CONNECTING => s
  | stale =>
      let s := match stale with
               | Some _ => set_ws None s      (* removeAllListeners(); ws = null *)
               | None => s
               end in
      match ctor with
      | Normal _ =>
          snd (setTimeout ConnectionTimeout 10000 (set_ws (Some CONNECTING) s))
      | Abrupt _ =>
          snd (setTimeout (Reconnect port) reconnectInterval s)
      end
  end.

(** [ws.on('open', ...)] *)
Definition on_open (connectionTimeout : timer) (s : state) : state :=
  let s := clearTimeout connectionTimeout s in
  let s := set_currentChannel None s in
  if autoConnectEnabled s then snd (setTimeout TryAutoConnect 1000 s) else s.

(** The [progress_update] branch of the message listener, once
    [requestId && pendingRequests.has(requestId)] holds. *)
Definition extend_deadline (now : Z) (requestId : string) (request : PendingRequest)
  (s : state) : state :=
  let s := clearTimeout (timeout request) s in
  let '(h, s) := setTimeout (ProgressTimeout requestId (reject request)) 120000 s in
  set_pendingRequests
    (insert requestId (mkPendingRequest (resolve request) (reject request) h now)) s.

(** The response branch, once
    [myResponse.id && pendingRequests.has(myResponse.id) && myResponse.result]
    holds. *)
Definition settle_request (id : string) (request : PendingRequest)
  (result error : value) (s : state) : state :=
  let s := clearTimeout (timeout request) s in
  let s := if truthy error
           then settle (reject request) (Rejected (new_Error (to_string error))) s
           else if truthy result
                then settle (resolve request) (Fulfilled result) s
                else s in
  set_pendingRequests (delete id) s.

Definition message_body (now : Z) (data : frame) : M unit :=
  json <- lift (JSON_parse data) ;;
  type <- lift (get json "type") ;;
  if is_str type "progress_update" then
    message <- lift (get json "message") ;;
    progressData <- lift (get message "data") ;;
    id <- lift (get json "id") ;;
    let requestId := if truthy id then id else VStr "" in
    found <- gets (table_get requestId) ;;
    match requestId, found with
    | VStr key, Some request =>
        if truthy requestId then
          modify (extend_deadline now key request) ;;
          (* the log line reads [progressData.commandType] *)
          _ <- lift (get progressData "commandType") ;;
          ret tt
        else ret tt
    | _, _ => ret tt
    end
  else
    myResponse <- lift (get json "message") ;;
    id <- lift (get myResponse "id") ;;
    result <- lift (get myResponse "result") ;;
    error <- lift (get myResponse "error") ;;
    found <- gets (table_get id) ;;
    match id, found with
    | VStr key, Some request =>
        if truthy id && truthy result then
          modify (settle_request key request result error)
        else ret tt
    | _, _ => ret tt
    end.

(** [ws.on("message", ...)]: the [catch] only logs, so the listener leaves
    the state its body reached. *)
Definition on_message (now : Z) (data : frame) (s : state) : state :=
  snd (message_body now data s).

(** One round of the loop of the close listener. *)
Definition reject_closed (s : state) (entry : string * PendingRequest) : state :=
  let '(id, request) := entry in
  let s := clearTimeout (timeout request) s in
  let s := settle (reject request) (Rejected (new_Error "Connection closed")) s in
  set_pendingRequests (delete id) s.

(** [ws.on('close', ...)]; [k] is [Math.floor(Math.random() * 5)]. *)
Definition on_close (connectionTimeout : timer) (port : Z) (k : Z) (s : state) : state :=
  let s := clearTimeout connectionTimeout s in
  let s := set_ws None s in
  let s := fold_left reject_closed (map_to_list (pendingRequests s)) s in
  snd (setTimeout (Reconnect port) (backoff k) s).

(** [sendCommandToFigma(command, params, timeoutMs)]: the promise it
    returns and the state after its executor ran.  [id] is [uuidv4()],
    [now] is [Date.now()]. *)
Definition sendCommandToFigma (command : string) (params : list (string * value))
  (timeoutMs : Z) (id : string) (now : Z) (ctor : completion unit) (s : state)
  : promise * state :=
  let '(p, s) := new_Promise s in
  if negb (is_OPEN (ws s)) then
    let s := connectToFigma defaultPort ctor s in
    (p, settle p (Rejected (new_Error
           "Not connected to WebSocket server. Attempting to connect...")) s)
  else
    let requiresChannel := negb (String.eqb command "join") in
    if requiresChannel && negb (joined (currentChannel s)) then
      (p, settle p (Rejected (new_Error
             "Must join a channel before sending commands. Use auto_connect or join_channel.")) s)
    else
      let request :=
        VObj [("id", VStr id);
              ("type", VStr (if String.eqb command "join" then "join" else "message"));
              ("channel", if String.eqb command "join"
                          then default VUndefined (assoc "channel" params)
                          else channel_value (currentChannel s));
              ("message",
               VObj [("id", VStr id);
                     ("command", VStr command);
                     ("params", VObj (Server.map_set "commandId" (VStr id) params))])] in
      let '(h, s) := setTimeout (CommandTimeout id p) timeoutMs s in
      let s := set_pendingRequests (insert id (mkPendingRequest p p h now)) s in
      (p, ws_send request s).

(** [joinChannel(channelName)] up to its [await]. *)
Definition joinChannel (channelName : string) (id : string) (now : Z)
  (ctor : completion unit) (s : state) : async unit * state :=
  if negb (is_OPEN (ws s)) then
    (Failed (new_Error "Not connected to WebSocket server"), s)
  else
    let '(p, s) :=
      sendCommandToFigma "join" [("channel", VStr channelName)] 60000 id now ctor s in
    (Suspended p, s).

(** [joinChannel(channelName)] from its [await] on, run when the awaited
    promise has settled. *)
Definition joinChannel_resume (channelName : string) (p : promise) (s : state)
  : async unit * state :=
  match promise_state p s with
  | Fulfilled _ =>
      (Returned tt,
       set_relay (Server.setCurrentChannel (Some channelName))
         (set_currentChannel (Some channelName) s))
  | Rejected e => (Failed e, s)
  | Pending => (Suspended p, s)
  end.

(** [tryAutoConnect()] *)
Definition tryAutoConnect (id : string) (now : Z) (ctor : completion unit)
  (s : state) : async unit * state :=
  match Server.getActiveChannels (relay s) with
  | [] => (Returned tt, s)
  | [only] =>
      if negb (joined (currentChannel s)) then
        match joinChannel only id now ctor s with
        | (Failed _, s) => (Returned tt, s)
        | r => r
        end
      else (Returned tt, s)
  | _ => (Returned tt, s)
  end.

Definition tryAutoConnect_resume (channelName : string) (p : promise) (s : state)
  : async unit * state :=
  match joinChannel_resume channelName p s with
  | (Failed _, s) => (Returned tt, s)
  | r => r
  end.

Definition join_succeeded (channelName : string) : AutoConnectResult :=
  mkAutoConnectResult true (Some channelName)
    ("Connected to channel: " +:+ channelName) None.

Definition join_failed (e : Error) : AutoConnectResult :=
  mkAutoConnectResult false None ("Failed to connect: " +:+ Js.message e) None.

(** [autoConnect()] up to the [await] of [joinChannel]. *)
Definition autoConnect (id : string) (now : Z) (ctor : completion unit)
  (s : state) : async AutoConnectResult * state :=
  let channels := Server.getActiveChannels (relay s) in
  if (length channels =? 0)%nat then
    (Returned (mkAutoConnectResult false None
       "No Figma plugins connected. Please run the Figma plugin first." None), s)
  else if joined (currentChannel s) then
    (Returned (mkAutoConnectResult true (currentChannel s)
       ("Already connected to channel: " +:+ default "" (currentChannel s)) None), s)
  else if (length channels =? 1)%nat then
    let first := default "" (head channels) in
    match joinChannel first id now ctor s with
    | (Returned _, s) => (Returned (join_succeeded first), s)
    | (Failed e, s) => (Returned (join_failed e), s)
    | (Suspended p, s) => (Suspended p, s)
    end
  else
    (Returned (mkAutoConnectResult false None
       ("Multiple channels available. Please use join_channel with one of: "
          +:+ join ", " channels)
       (Some channels)), s).

(** [autoConnect()] from the [await] on; [channelName] is [channels[0]]. *)
Definition autoConnect_resume (channelName : string) (p : promise) (s : state)
  : async AutoConnectResult * state :=
  match joinChannel_resume channelName p s with
  | (Returned _, s) => (Returned (join_succeeded channelName), s)
  | (Failed e, s) => (Returned (join_failed e), s)
  | (Suspended p, s) => (Suspended p, s)
  end.

(** [disconnect()] *)
Definition disconnect (s : state) : DisconnectResult * state :=
  if negb (joined (currentChannel s)) then
    (mkDisconnectResult false "Not connected to any channel", s)
  else
    let previousChannel := default "" (currentChannel s) in
    (mkDisconnectResult true ("Disconnected from channel: " +:+ previousChannel),
     set_relay (Server.setCurrentChannel None) (set_currentChannel None s)).

(** [getConnectionStatus()] *)
Definition getConnectionStatus (s : state) : ConnectionStatus :=
  mkConnectionStatus
    (Server.isServerRunning (relay s))
    (match currentChannel s with Some _ => true | None => false end)
    (currentChannel s)
    (Server.getActiveChannels (relay s))
    (Server.getServerStats (relay s)).

Definition getCurrentChannel (s : state) : option string := currentChannel s.

Definition setAutoConnect (enabled : bool) (s : state) : state :=
  mkState (relay s) (ws s) (currentChannel s) enabled
          (pendingRequests s) (timers s) (promises s) (outbox s).

(** [initializeWebSocket(port)] *)
Definition initializeWebSocket (port : Z) (serve ctor : completion unit) (s : state)
  : state :=
  let '(server, srv) := Server.startWebSocketServer port serve (relay s) in
  let s := set_relay (fun _ => srv) s in
  match server with
  | Some _ => connectToFigma port ctor s
  | None => s
  end.

(** A timer fires: the runtime disarms it and calls its closure.
    [ws.terminate()] on a connecting socket leaves it [CLOSING]. *)
Definition fire (h : timer) (id : string) (now : Z) (ctor : completion unit)
  (s : state) : async unit * state :=
  match armed h s with
  | None => (Returned tt, s)
  | Some t =>
      let s := set_timers (fun ts => <[h := None]> ts) s in
      match action t with
      | ConnectionTimeout =>
          (Returned tt,
           match ws s with
           | Some CONNECTING => set_ws (Some CLOSING) s
           | _ => s
           end)
      | TryAutoConnect => tryAutoConnect id now ctor s
      | Reconnect port => (Returned tt, connectToFigma port ctor s)
      | CommandTimeout id rej => (Returned tt, request_timed_out id rej s)
      | ProgressTimeout requestId rej => (Returned tt, request_timed_out requestId rej s)
      end
  end.

(** *** What can happen to the client

    The handle [connectionTimeout] captured by the listeners of a socket is
    the one [connectToFigma] got for its [ConnectionTimeout] closure: if that
    timer is still armed, this is its closure. *)
Definition connection_timer (h : timer) (s : state) : Prop :=
  ∀ t, armed h s = Some t → action t = ConnectionTimeout.

(** One step of the process: a call of an exported function, an event of
    the socket, a timer firing, or an event of the relay server.  Ids come
    from [uuidv4()] and are not in use.  [joinChannel_resume] is also the
    state change of [autoConnect_resume] and [tryAutoConnect_resume]. *)
Inductive step : state → state → Prop :=
| step_initialize (port : Z) (serve ctor : completion unit) (s : state) :
    step s (initializeWebSocket port serve ctor s)
| step_connect (port : Z) (ctor : completion unit) (s : state) :
    step s (connectToFigma port ctor s)
| step_readyState (r : ReadyState) (s : state) :
    ws s ≠ None → step s (set_ws (Some r) s)
| step_open (connectionTimeout : timer) (s : state) :
    connection_timer connectionTimeout s →
    step s (on_open connectionTimeout s)
| step_message (now : Z) (data : frame) (s : state) :
    step s (on_message now data s)
| step_close (connectionTimeout : timer) (port k : Z) (s : state) :
    connection_timer connectionTimeout s →
    step s (on_close connectionTimeout port k s)
| step_send (command : string) (params : list (string * value)) (timeoutMs : Z)
    (id : string) (now : Z) (ctor : completion unit) (s : state) :
    pendingRequests s !! id = None →
    step s (snd (sendCommandToFigma command params timeoutMs id now ctor s))
| step_join (channelName id : string) (now : Z) (ctor : completion unit) (s : state) :
    pendingRequests s !! id = None →
    step s (snd (joinChannel channelName id now ctor s))
| step_join_resume (channelName : string) (p : promise) (s : state) :
    step s (snd (joinChannel_resume channelName p s))
| step_autoConnect (id : string) (now : Z) (ctor : completion unit) (s : state) :
    pendingRequests s !! id = None →
    step s (snd (autoConnect id now ctor s))
| step_disconnect (s : state) :
    step s (snd (disconnect s))
| step_setAutoConnect (enabled : bool) (s : state) :
    step s (setAutoConnect enabled s)
| step_fire (h : timer) (id : string) (now : Z) (ctor : completion unit) (s : state) :
    pendingRequests s !! id = None →
    step s (snd (fire h id now ctor s))
| step_relay (o : Server.occurrence) (s : state) :
    step s (set_relay (fun r => Server.step r o) s).

Definition reachable (s : state) : Prop := rtc step initial s.

End Config.

(** *** Notions used to state the properties of the client *)

(** [cb] is the timeout closure of request [id] with promise [p]. *)
Definition request_timer (cb : callback) (id : string) (p : promise) : Prop :=
  cb = CommandTimeout id p ∨ cb = ProgressTimeout id p.

(** The table, the timers and the promises fit together: every entry waits
    on a pending promise with its own timer armed, every armed request timer
    belongs to an entry, and no two entries share a promise. *)
Definition consistent (s : state) : Prop :=
  (∀ id r, pendingRequests s !! id = Some r →
     resolve r = reject r ∧
     promises s !! reject r = Some Pending ∧
     ∃ t, armed (timeout r) s = Some t ∧ request_timer (action t) id (reject r)) ∧
  (∀ h t id p, armed h s = Some t → request_timer (action t) id p →
     ∃ r, pendingRequests s !! id = Some r ∧ timeout r = h ∧ reject r = p) ∧
  (∀ id r id' r', pendingRequests s !! id = Some r → pendingRequests s !! id' = Some r' →
     reject r = reject r' → id = id').

(** Does an inbound frame address request [id]: a [progress_update] whose
    top-level id is [id], or any other envelope whose embedded message id
    is [id]? *)
Definition addresses (id : string) (data : frame) : bool :=
  match data with
  | Unparseable _ => false
  | Parsed json =>
      match get json "type" with
      | Normal type =>
          if is_str type "progress_update"
          then match get json "id" with
               | Normal requestId => is_str requestId id
               | Abrupt _ => false
               end
          else match get json "message" with
               | Normal myResponse =>
                   match get myResponse "id" with
                   | Normal k => is_str k id
                   | Abrupt _ => false
                   end
               | Abrupt _ => false
               end
      | Abrupt _ => false
      end
  end.

(** Is an inbound frame an answer to request [id], one the listener acts
    on: a [progress_update] with that top-level id whose [message.data] can
    be read, or any other envelope whose embedded message carries that id
    and a truthy [result]?  A frame can address a request without answering
    it: the relay's echo of the command, a reply with an [error] and no
    [result], a [progress_update] without a [message]. *)
Definition answers (id : string) (data : frame) : bool :=
  match data with
  | Unparseable _ => false
  | Parsed json =>
      match get json "type" with
      | Normal type =>
          if is_str type "progress_update"
          then match get json "message" with
               | Normal message =>
                   match get message "data", get json "id" with
                   | Normal _, Normal requestId => is_str requestId id
                   | _, _ => false
                   end
               | Abrupt _ => false
               end
          else match get json "message" with
               | Normal myResponse =>
                   match get myResponse "id", get myResponse "result" with
                   | Normal k, Normal result => is_str k id && truthy result
                   | _, _ => false
                   end
               | Abrupt _ => false
               end
      | Abrupt _ => false
      end
  end.

(** Events of the relay server, as seen in the state of the process. *)
Definition relay_run (os : list Server.occurrence) (s : state) : state :=
  fold_left (fun s o => set_relay (fun r => Server.step r o) s) os s.

(** The message listener run on a sequence of frames, each with the time
    it arrives at. *)
Definition receive_all (frames : list (Z * frame)) (s : state) : state :=
  fold_left (fun s nf => on_message (fst nf) (snd nf) s) frames s.

(** Handles stored in the table have been handed out by the runtime. *)
Definition well_formed (s : state) : Prop :=
  ∀ id request, pendingRequests s !! id = Some request →
    (timeout request < length (timers s))%nat ∧
    (resolve request < length (promises s))%nat ∧
    (reject request < length (promises s))%nat.

(** Request [id] waits on promise [p] with timer [h], and no other entry
    shares either. *)
Definition waits_alone (id : string) (p : promise) (h : timer) (s : state) : Prop :=
  (∃ request, pendingRequests s !! id = Some request ∧
              resolve request = p ∧ reject request = p ∧ timeout request = h) ∧
  promises s !! p = Some Pending ∧
  (∀ id' request', id' ≠ id → pendingRequests s !! id' = Some request' →
     timeout request' ≠ h ∧ resolve request' ≠ p ∧ reject request' ≠ p).

End Client.

(** ** A session of the bridge

    Concrete frames and states.  The relay client is connection 1 of its
    own relay server, the Figma plugin is connection 2, and every socket is
    open and writable. *)
Module Scenario.
Import Js.

Definition reconnectInterval : Z := 2000.
Definition defaultPort : Z := 3055.

Definition all_open : Server.conn → ReadyState := fun _ => OPEN.
Definition no_send_error : Server.conn → option Error := fun _ => None.

Definition at_rest (e : Server.event) : Server.occurrence :=
  Server.mkOccurrence all_open no_send_error e.

Definition join_frame (channel id : string) : frame :=
  Parsed (VObj [("id", VStr id); ("type", VStr "join"); ("channel", VStr channel)]).

Definition message_frame (channel : string) (payload : value) : frame :=
  Parsed (VObj [("type", VStr "message"); ("channel", VStr channel);
                ("message", payload)]).

Definition untyped_frame : frame :=
  Parsed (VObj [("channel", VStr "design"); ("message", VStr "hello")]).

(** *** The relay on its own *)

(** The plugin has joined channel [design]. *)
Definition relay_with_plugin : Server.state :=
  Server.run [at_rest (Server.Opened 2);
              at_rest (Server.Received 2 (join_frame "design" "p1"))]
             Server.initial.

(** Connection 1 has joined it too. *)
Definition relay_after_join : Server.state :=
  Server.run [at_rest (Server.Opened 1);
              at_rest (Server.Received 1 (join_frame "design" "u1"))]
             relay_with_plugin.

(** *** The whole process *)

(** The process starts its relay and connects to it. *)
Definition started : Client.state :=
  Client.initializeWebSocket reconnectInterval defaultPort (Normal tt) (Normal tt)
    Client.initial.

(** The relay accepts the client; the socket of the client opens. *)
Definition opened : Client.state :=
  Client.on_open 0
    (Client.set_ws (Some OPEN)
       (Client.relay_run [at_rest (Server.Opened 1)] started)).

(** The plugin connects and joins [design]; the client has joined
    nothing. *)
Definition connected : Client.state :=
  Client.relay_run [at_rest (Server.Opened 2);
                    at_rest (Server.Received 2 (join_frame "design" "p1"))]
                   opened.

(** [autoConnect()] writes a [join] and waits for promise 0. *)
Definition joining : Client.state :=
  snd (Client.autoConnect reconnectInterval defaultPort "u1" 10 (Normal tt) connected).

(** The relay handles that [join], the last frame of the client's outbox. *)
Definition join_delivered : Client.state :=
  Client.relay_run
    [at_rest (Server.Received 1 (Parsed (default VNull (last (Client.outbox joining)))))]
    joining.

(** What the relay has written to connection 1 by then: the welcome and the
    confirmation of the join. *)
Definition inbox : list (Z * frame) :=
  List.map (fun e => (20%Z, Parsed (snd e)))
    (List.filter (fun e => Nat.eqb (fst e) 1)
       (Server.wire (Client.relay join_delivered))).

(** The client receives them and the suspended [joinChannel] resumes. *)
Definition confirmed : Client.state := Client.receive_all inbox join_delivered.

Definition joined_design : Client.state :=
  snd (Client.joinChannel_resume "design" 0 confirmed).

(** A command is sent at time 100 with a timeout of 100 ms: promise 1,
    timer 3. *)
Definition command_sent : Client.state :=
  snd (Client.sendCommandToFigma reconnectInterval defaultPort
         "get_document_info" [] 100 "r1" 100 (Normal tt) joined_design).

Definition response (id : string) (fields : list (string * value)) : frame :=
  Parsed (VObj [("type", VStr "broadcast");
                ("message", VObj (("id", VStr id) :: fields));
                ("channel", VStr "design")]).

Definition error_only_response : frame :=
  response "r1" [("error", VStr "Node not found")].

(** What the relay writes back to the client for its own command [r1]:
    the broadcast of the command's message. *)
Definition echoed_command : frame :=
  response "r1" [("command", VStr "get_document_info");
                 ("params", VObj [("commandId", VStr "r1")])].

Definition result_response : frame :=
  response "r1" [("result", VObj [("name", VStr "Document")])].


Definition progress_frame (id : string) : frame :=
  Parsed (VObj [("type", VStr "progress_update"); ("id", VStr id);
                ("channel", VStr "design");
                ("message", VObj [("data", VObj [("commandType", VStr "scan");
                                                 ("progress", VNum 40);
                                                 ("message", VStr "scanning")])])]).

Definition progress_without_message : frame :=
  Parsed (VObj [("type", VStr "progress_update"); ("id", VStr "r1");
                ("channel", VStr "design")]).

(** Both transports close: the client runs its close listener, the relay
    drops both connections from [design]. *)
Definition after_close : Client.state :=
  Client.relay_run [at_rest (Server.Closed 2); at_rest (Server.Closed 1)]
    (Client.on_close reconnectInterval 0 defaultPort 2 joined_design).

End Scenario.

(** ** The HTTP surface of the relay: [fetch] in [startWebSocketServer] *)
Module Http.
Import Js Server.

(** Of the request, [req.method] and [new URL(req.url).pathname] are read. *)
Record Request : Type := mkRequest { method : string; pathname : string }.

(** What [server.upgrade(req, ...)] does: it returns [true], it returns
    [false], or it throws. *)
Inductive upgrade : Type :=
| Upgraded
| Declined
| UpgradeThrows (e : Error).

Inductive body : Type :=
| NoBody                     (* new Response(null, ...) *)
| JsonBody (v : value)       (* new Response(JSON.stringify(v), ...) *)
| TextBody (t : string).

Record Response : Type := mkResponse {
  status : Z;
  content : body;
  headers : list (string * string)
}.

Definition stats_value (t : Stats) : value :=
  VObj [("totalConnections", VNum (totalConnections t));
        ("activeConnections", VNum (activeConnections t));
        ("messagesSent", VNum (messagesSent t));
        ("messagesReceived", VNum (messagesReceived t));
        ("errors", VNum (errors t))].

Definition channel_value (c : option string) : value :=
  match c with Some name => VStr name | None => VNull end.

Definition channels_value (s : state) : value :=
  VArr (List.map VStr (getActiveChannels s)).

Definition json_headers : list (string * string) :=
  [("Content-Type", "application/json"); ("Access-Control-Allow-Origin", "*")].

(** [fetch(req, server)]: the response ([None] when the handler returns
    nothing after a successful upgrade) and the state.  [uptime] is
    [process.uptime()]. *)
Definition fetch (req : Request) (uptime : value) (up : upgrade) (s : state)
  : option Response * state :=
  if String.eqb (method req) "OPTIONS" then
    (Some (mkResponse 200 NoBody
             [("Access-Control-Allow-Origin", "*");
              ("Access-Control-Allow-Methods", "GET, POST, OPTIONS");
              ("Access-Control-Allow-Headers", "Content-Type, Authorization")]), s)
  else if String.eqb (pathname req) "/status" then
    (Some (mkResponse 200
             (JsonBody (VObj [("status", VStr "running");
                              ("uptime", uptime);
                              ("channels", channels_value s);
                              ("currentChannel", channel_value (currentChannel s));
                              ("stats", stats_value (stats s))]))
             json_headers), s)
  else if String.eqb (pathname req) "/channels" then
    (Some (mkResponse 200
             (JsonBody (VObj [("channels", channels_value s);
                              ("currentChannel", channel_value (currentChannel s))]))
             json_headers), s)
  else
    match up with
    | Upgraded => (None, s)
    | UpgradeThrows _ =>
        (Some (mkResponse 500 (TextBody "Failed to upgrade to WebSocket") []),
         set_stats inc_errors s)
    | Declined =>
        (Some (mkResponse 200 (TextBody "Figma MCP WebSocket server running.")
                 [("Content-Type", "text/plain"); ("Access-Control-Allow-Origin", "*")]),
         s)
    end.

End Http.

(** ** The connection tools: [tools/connection-tools.ts]

    Each tool answers with one text item; the handlers are modelled by that
    text. *)
Module Tools.
Import Js Client.

Definition newline : string := String (Ascii.ascii_of_nat 10) "".

(** The text of [auto_connect] for a result of [autoConnect()]. *)
Definition auto_connect_text (result : AutoConnectResult) : string :=
  if success result then message result
  else match availableChannels result with
       | Some channels =>
           message result +:+ newline +:+ "Available channels: " +:+ join ", " channels
       | None => message result
       end.

Section Config.
Variable reconnectInterval : Z.
Variable defaultPort : Z.

(** [auto_connect], up to the [await]. *)
Definition auto_connect (id : string) (now : Z) (ctor : completion unit) (s : state)
  : async string * state :=
  match autoConnect reconnectInterval defaultPort id now ctor s with
  | (Returned result, s) => (Returned (auto_connect_text result), s)
  | (Failed e, s) => (Returned ("Error during auto-connect: " +:+ Js.message e), s)
  | (Suspended p, s) => (Suspended p, s)
  end.

(** [join_channel({ channel })], up to the [await]. *)
Definition join_channel (channel : string) (id : string) (now : Z)
  (ctor : completion unit) (s : state) : async string * state :=
  if bool_decide (getCurrentChannel s = Some channel) then
    (Returned ("Already connected to channel: " +:+ channel), s)
  else
    match joinChannel reconnectInterval defaultPort channel id now ctor s with
    | (Returned _, s) => (Returned ("Successfully joined channel: " +:+ channel), s)
    | (Failed e, s) => (Returned ("Error joining channel: " +:+ Js.message e), s)
    | (Suspended p, s) => (Suspended p, s)
    end.

End Config.

Definition auto_connect_resume (channelName : string) (p : promise) (s : state)
  : async string * state :=
  match autoConnect_resume channelName p s with
  | (Returned result, s) => (Returned (auto_connect_text result), s)
  | (Failed e, s) => (Returned ("Error during auto-connect: " +:+ Js.message e), s)
  | (Suspended p, s) => (Suspended p, s)
  end.

Definition join_channel_resume (channel : string) (p : promise) (s : state)
  : async string * state :=
  match joinChannel_resume channel p s with
  | (Returned _, s) => (Returned ("Successfully joined channel: " +:+ channel), s)
  | (Failed e, s) => (Returned ("Error joining channel: " +:+ Js.message e), s)
  | (Suspended p, s) => (Suspended p, s)
  end.

(** [disconnect_figma] *)
Definition disconnect_figma (s : state) : string * state :=
  (notice (fst (disconnect s)), snd (disconnect s)).

Definition yes_no (b : bool) : string := if b then "Yes" else "No".

(** [get_connection_status]: the five lines of [statusText]. *)
Definition status_lines (s : state) : list string :=
  let status := getConnectionStatus s in
  ["Server Running: " +:+ yes_no (serverRunning status);
   "Connected: " +:+ yes_no (connected status);
   "Current Channel: " +:+ (if joined (statusChannel status)
                            then default "" (statusChannel status) else "None");
   "Available Channels: " +:+ (if (0 <? length (statusChannels status))%nat
                               then join ", " (statusChannels status) else "None");
   "Active Connections: " +:+
     string_of_Z (Server.activeConnections (Server.counters (serverStats status)))].

Definition get_connection_status (s : state) : string :=
  join newline (status_lines s).

End Tools.

(** ** Notions used to state further properties *)
Module Tally.
Import Js Eff Server.

(** A computation that leaves a reading [f] of the state as it was. *)
Definition keeps {A B : Type} (f : state → B) (m : M A) : Prop :=
  ∀ s, f (snd (m s)) = f s.




(** The members a broadcast writes to. *)
Definition eligible (readyState : conn → ReadyState) (excludeClient : option conn)
  (client : conn) : bool :=
  negb (bool_decide (Some client = excludeClient)) && is_open (readyState client).

Definition send_ok (send_error : conn → option Error) (c : conn) : bool :=
  match send_error c with None => true | Some _ => false end.

End Tally.

(** ** More of the session *)
Module Scenario2.
Import Js Scenario.

(** The socket of the plugin (connection 2) refuses writes. *)
Definition plugin_stuck : Server.conn → option Error :=
  fun c => if Nat.eqb c 2 then Some (new_Error "socket write failed") else None.

(** Connection 3 joins [design] as well. *)
Definition relay_three : Server.state :=
  Server.run [at_rest (Server.Opened 3);
              at_rest (Server.Received 3 (join_frame "design" "q1"))]
             relay_after_join.

End Scenario2.

(** * Properties of the relay server *)
Section ServerFacts.
Import Js Eff Server.

(** ** The registry as a map *)


Lemma map_get_None_key {V : Type} (k : string) (m : list (string * V)) :
  map_get k m = None ↔ k ∉ map_keys m.
Proof.
  induction m as [|[k' v'] m IH]; simpl.
  - split; [intros _; apply not_elem_of_nil | done].
  - rewrite not_elem_of_cons. destruct (String.eqb_spec k k') as [->|Hne].
    + split; [done | intros [? _]; done].
    + rewrite IH. tauto.
Qed.

Lemma map_get_app_r {V : Type} (k : string) (pre rest : list (string * V)) :
  k ∉ map_keys pre → map_get k (pre ++ rest) = map_get k rest.
Proof.
  induction pre as [|[k' v'] pre IH]; simpl; [done|].
  rewrite not_elem_of_cons. intros [Hne Hnin].
  destruct (String.eqb_spec k k'); [done | by apply IH].
Qed.

Lemma map_delete_app_r {V : Type} (k : string) (pre rest : list (string * V)) :
  k ∉ map_keys pre → map_delete k (pre ++ rest) = pre ++ map_delete k rest.
Proof.
  induction pre as [|[k' v'] pre IH]; simpl; [done|].
  rewrite not_elem_of_cons. intros [Hne Hnin].
  destruct (String.eqb_spec k k'); [done | by rewrite IH].
Qed.

Lemma map_set_app_r {V : Type} (k : string) (v : V) (pre rest : list (string * V)) :
  k ∉ map_keys pre → map_set k v (pre ++ rest) = pre ++ map_set k v rest.
Proof.
  induction pre as [|[k' v'] pre IH]; simpl; [done|].
  rewrite not_elem_of_cons. intros [Hne Hnin].
  destruct (String.eqb_spec k k'); [done | by rewrite IH].
Qed.

Lemma map_keys_app {V : Type} (a b : list (string * V)) :
  map_keys (a ++ b) = map_keys a ++ map_keys b.
Proof. apply List.map_app. Qed.

Lemma map_get_set {V : Type} (k k' : string) (v : V) (m : list (string * V)) :
  map_get k' (map_set k v m) = if String.eqb k' k then Some v else map_get k' m.
Proof.
  induction m as [|[k0 v0] m IH]; simpl.
  - by destruct (String.eqb_spec k' k).
  - destruct (String.eqb_spec k k0) as [->|Hne]; simpl.
    + by destruct (String.eqb_spec k' k0).
    + destruct (String.eqb_spec k' k0) as [->|Hne'].
      * destruct (String.eqb_spec k0 k); congruence.
      * apply IH.
Qed.



Lemma set_has_elem (c : conn) (l : list conn) : set_has c l = true ↔ c ∈ l.
Proof.
  unfold set_has. rewrite existsb_exists. split.
  - intros (x & Hin & ->%Nat.eqb_eq). by apply list_elem_of_In.
  - intros H. exists c. split; [by apply list_elem_of_In | apply Nat.eqb_refl].
Qed.

Lemma set_delete_elem (c x : conn) (l : list conn) :
  x ∈ set_delete c l ↔ x ∈ l ∧ x ≠ c.
Proof.
  unfold set_delete. rewrite !list_elem_of_In, filter_In, negb_true_iff, Nat.eqb_neq.
  intuition congruence.
Qed.

Lemma set_delete_NoDup (c : conn) (l : list conn) : NoDup l → NoDup (set_delete c l).
Proof.
  unfold set_delete. rewrite !NoDup_ListNoDup. apply List.NoDup_filter.
Qed.

Lemma set_add_elem (c x : conn) (l : list conn) :
  x ∈ set_add c l ↔ x = c ∨ x ∈ l.
Proof.
  unfold set_add. destruct (set_has c l) eqn:E.
  - apply set_has_elem in E. split; [tauto | intros [->|?]; done].
  - rewrite elem_of_app, list_elem_of_singleton. tauto.
Qed.



(** ** Leaving: the loop of the close handler *)

Lemma close_visit_fold (ws : conn) (rest pre : list (string * list conn)) :
  NoDup (map_keys (pre ++ rest)) →
  fold_left (close_visit ws) (map_keys rest) (pre ++ rest) = pre ++ leaves ws rest.
Proof.
  revert pre. induction rest as [|[k cl] rest IH]; intros pre Hnd; simpl.
  - done.
  - assert (Hk : k ∉ map_keys pre).
    { rewrite map_keys_app in Hnd. apply NoDup_app in Hnd as (_ & Hd & _).
      intros Hin. apply (Hd k Hin). simpl. apply list_elem_of_here. }
    unfold close_visit at 2. rewrite map_get_app_r by done. simpl.
    rewrite String.eqb_refl. unfold leaves_entry. simpl.
    destruct (set_has ws cl) eqn:Hhas.
    + destruct (length (set_delete ws cl) =? 0)%nat eqn:Hlen.
      * rewrite map_delete_app_r by done. simpl. rewrite String.eqb_refl.
        apply IH. rewrite map_keys_app in *. simpl in Hnd.
        apply NoDup_app in Hnd as (H1 & H2 & H3). apply NoDup_cons in H3 as [H3 H4].
        apply NoDup_app. split_and!; [done | | done].
        intros x Hx Hx'. apply (H2 x Hx). by apply list_elem_of_further.
      * rewrite map_set_app_r by done. simpl. rewrite String.eqb_refl.
        rewrite (cons_middle _ pre rest), app_assoc, IH.
        -- by rewrite <- app_assoc.
        -- rewrite <- app_assoc. simpl.
           rewrite map_keys_app in *. exact Hnd.
    + rewrite (cons_middle _ pre rest), app_assoc, IH.
      * by rewrite <- app_assoc.
      * by rewrite <- app_assoc.
Qed.

Lemma close_channels (ws : conn) (s : state) :
  NoDup (map_keys (channels s)) →
  channels (snd (close ws s)) = leaves ws (channels s).
Proof.
  intros Hnd. unfold close, bind, modify. simpl.
  apply (close_visit_fold ws (channels s) []). exact Hnd.
Qed.

Lemma leaves_keys_incl (ws : conn) (m : list (string * list conn)) (k : string) :
  k ∈ map_keys (leaves ws m) → k ∈ map_keys m.
Proof.
  induction m as [|[k0 cl] m IH]; simpl; [done|].
  unfold leaves_entry. simpl.
  destruct (set_has ws cl); [destruct (length _ =? 0)%nat|]; simpl;
    rewrite ?elem_of_cons; intuition.
Qed.

Lemma leaves_get (ws : conn) (m : list (string * list conn)) (k : string) :
  NoDup (map_keys m) →
  map_get k (leaves ws m) =
    match map_get k m with
    | Some cl => snd <$> leaves_entry ws (k, cl)
    | None => None
    end.
Proof.
  induction m as [|[k0 cl] m IH]; simpl; [done|].
  intros [Hk0 Hnd]%NoDup_cons.
  destruct (String.eqb_spec k k0) as [->|Hne].
  - unfold leaves_entry. simpl.
    destruct (set_has ws cl); [destruct (length _ =? 0)%nat eqn:E|]; simpl;
      rewrite ?String.eqb_refl; try done.
    apply map_get_None_key. intros Hin. apply Hk0. by eapply leaves_keys_incl.
  - unfold leaves_entry at 1. simpl.
    destruct (set_has ws cl); [destruct (length _ =? 0)%nat|]; simpl;
      rewrite ?(proj2 (String.eqb_neq k k0) Hne); by apply IH.
Qed.

Lemma leaves_ok (ws : conn) (m : list (string * list conn)) :
  registry_ok m → registry_ok (leaves ws m).
Proof.
  intros [Hnd Hall]. split.
  - clear Hall. induction m as [|[k0 cl] m IH]; simpl; [constructor|].
    apply NoDup_cons in Hnd as [Hk0 Hnd]. specialize (IH Hnd).
    unfold leaves_entry. simpl.
    destruct (set_has ws cl); [destruct (length _ =? 0)%nat|]; simpl; try done;
      (apply NoDup_cons; split; [|done]); intros Hin; apply Hk0;
      by eapply leaves_keys_incl.
  - clear Hnd. induction Hall as [|[k0 cl] m (Hk & Hcl & Hndc) Hall IH]; simpl;
      [constructor|].
    unfold leaves_entry. simpl in *.
    destruct (set_has ws cl); [destruct (length _ =? 0)%nat eqn:E|]; simpl; try done.
    + constructor; [|done]. simpl. split_and!; [done | | by apply set_delete_NoDup].
      intros Heq. rewrite Heq in E. done.
    + constructor; [|done]. done.
Qed.


(** ** Membership after a join and after a leave *)

Lemma set_has_add (c ws : conn) (l : list conn) :
  set_has c (set_add ws l) = Nat.eqb c ws || set_has c l.
Proof.
  apply eq_true_iff_eq. rewrite orb_true_iff, !set_has_elem, set_add_elem, Nat.eqb_eq.
  done.
Qed.

Lemma set_has_delete (c ws : conn) (l : list conn) :
  set_has c (set_delete ws l) = set_has c l && negb (Nat.eqb c ws).
Proof.
  apply eq_true_iff_eq.
  rewrite andb_true_iff, negb_true_iff, !set_has_elem, set_delete_elem, Nat.eqb_neq.
  done.
Qed.

Lemma member_in_joins (c ws : conn) (C name : string) (m : list (string * list conn)) :
  member_in c C (joins ws name m) =
    (String.eqb C name && Nat.eqb c ws) || member_in c C m.
Proof.
  unfold member_in, joins, map_has.
  destruct (map_get name m) as [cl|] eqn:Hget.
  - rewrite Hget, map_get_set.
    destruct (String.eqb_spec C name) as [->|Hne]; simpl; [|done].
    by rewrite Hget, set_has_add.
  - rewrite map_get_set, String.eqb_refl, !map_get_set.
    destruct (String.eqb_spec C name) as [->|Hne]; simpl.
    + rewrite Hget. unfold set_add. simpl. by rewrite orb_false_r.
    + done.
Qed.

Lemma member_in_leaves (c ws : conn) (C : string) (m : list (string * list conn)) :
  NoDup (map_keys m) →
  member_in c C (leaves ws m) = member_in c C m && negb (Nat.eqb c ws).
Proof.
  intros Hnd. unfold member_in. rewrite leaves_get by done.
  destruct (map_get C m) as [cl|]; [|done].
  unfold leaves_entry. simpl.
  destruct (set_has ws cl) eqn:Hws.
  - destruct (length (set_delete ws cl) =? 0)%nat eqn:Hlen; simpl.
    + apply Nat.eqb_eq, nil_length_inv in Hlen.
      rewrite <- set_has_delete, Hlen. done.
    + apply set_has_delete.
  - simpl. destruct (Nat.eqb_spec c ws) as [->|Hne]; simpl.
    + by rewrite Hws.
    + by rewrite andb_true_r.
Qed.




(** ** What the handlers do to the registry *)

Lemma broadcast_fold_channels rs se (msg : value) (ex : option conn)
  (clients : list conn) (s : state) :
  channels (fold_left (broadcast_one rs se msg ex) clients s) = channels s.
Proof.
  revert s. induction clients as [|c clients IH]; intros s; simpl; [done|].
  rewrite IH. unfold broadcast_one, send.
  destruct (negb _ && _); [|done]. by destruct (se c).
Qed.

Lemma broadcastToChannel_channels rs se (name msg : value) (ex : option conn) (s : state) :
  channels (snd (broadcastToChannel rs se name msg ex s)) = channels s.
Proof.
  unfold broadcastToChannel. destruct (chan_get name (channels s)); simpl; [|done].
  apply broadcast_fold_channels.
Qed.

Lemma broadcastToChannel_returns rs se (name msg : value) (ex : option conn) (s : state) :
  fst (broadcastToChannel rs se name msg ex s) = Ret tt.
Proof. unfold broadcastToChannel. by destruct (chan_get name (channels s)). Qed.


Lemma keeps_ret {A : Type} (a : A) : keeps_registry (ret a).
Proof. done. Qed.

Lemma keeps_gets {A : Type} (f : state → A) : keeps_registry (gets f).
Proof. done. Qed.

Lemma keeps_stats (f : Stats → Stats) : keeps_registry (modify (set_stats f)).
Proof. done. Qed.

Lemma keeps_send se (c : conn) (v : value) : keeps_registry (send se c v).
Proof. intros s. unfold send. by destruct (se c). Qed.

Lemma keeps_broadcast rs se (name msg : value) (ex : option conn) :
  keeps_registry (broadcastToChannel rs se name msg ex).
Proof. intros s. apply broadcastToChannel_channels. Qed.

Lemma keeps_bind {A B : Type} (m : M A) (k : A → M B) :
  keeps_registry m → (∀ a, keeps_registry (k a)) → keeps_registry (bind m k).
Proof.
  intros Hm Hk s. unfold bind. specialize (Hm s).
  destruct (m s) as [[a|e|] s']; simpl in *; [|done..].
  by rewrite Hk.
Qed.

Lemma keeps_lift_bind {A B : Type} (c : completion A) (k : A → M B) :
  (∀ a, c = Normal a → keeps_registry (k a)) → keeps_registry (bind (lift c) k).
Proof.
  intros Hk s. unfold bind, lift. destruct c as [a|e]; simpl; [|done].
  by apply Hk.
Qed.

Lemma keeps_try_catch {A : Type} (body : M A) (handler : Error → M A) :
  keeps_registry body → (∀ e, keeps_registry (handler e)) →
  keeps_registry (try_catch body handler).
Proof.
  intros Hb Hh s. unfold try_catch. specialize (Hb s).
  destruct (body s) as [[a|e|] s']; simpl in *; [done| |done].
  by rewrite Hh.
Qed.

Lemma keeps_message_branch rs se (ws : conn) (data : value) :
  keeps_registry (message_branch rs se ws data).
Proof.
  unfold message_branch. apply keeps_lift_bind. intros channelName _.
  destruct (negb (truthy channelName)).
  { apply keeps_bind; [apply keeps_send | intros; apply keeps_ret]. }
  apply keeps_bind; [apply keeps_gets|]. intros clients.
  destruct (negb _).
  { apply keeps_bind; [apply keeps_send | intros; apply keeps_ret]. }
  apply keeps_lift_bind. intros payload _.
  apply keeps_bind; [apply keeps_broadcast | intros; apply keeps_ret].
Qed.

Lemma keeps_progress_branch rs se (data : value) :
  keeps_registry (progress_branch rs se data).
Proof.
  unfold progress_branch. apply keeps_lift_bind. intros channelName _.
  apply keeps_bind; [apply keeps_gets|]. intros [clients|].
  - apply keeps_broadcast.
  - apply keeps_ret.
Qed.

Lemma keeps_error_reply se (ws : conn) (e : Error) :
  keeps_registry
    (bind (modify (set_stats inc_errors))
       (fun _ => send se ws (error_envelope ("Error processing message: " +:+ Js.message e)))).
Proof. apply keeps_bind; [apply keeps_stats | intros; apply keeps_send]. Qed.

(** Only a [join] changes the registry. *)
Lemma message_keeps_registry rs se (ws : conn) (f : frame) :
  join_target f = None → in_scope f = true →
  keeps_registry (message rs se ws f).
Proof.
  intros Htarget Hscope. unfold message.
  apply keeps_try_catch; [|apply keeps_error_reply].
  apply keeps_bind; [apply keeps_stats|]. intros _.
  apply keeps_lift_bind. intros data Hdata.
  destruct f as [|data']; [done|]. simpl in Hdata. injection Hdata as ->.
  apply keeps_lift_bind. intros type Htype.
  simpl in Htarget, Hscope. rewrite Htype in Htarget, Hscope.
  destruct (is_str type "join") eqn:Hjoin.
  - unfold join_branch. apply keeps_lift_bind. intros channelName Hchan.
    rewrite Hchan in Htarget, Hscope. simpl in *.
    destruct (truthy channelName) eqn:Htruthy; simpl.
    + destruct channelName; try done. simpl in *. by rewrite Htruthy in Htarget.
    + apply keeps_send.
  - apply keeps_bind.
    + destruct (is_str type "message"); [apply keeps_message_branch | apply keeps_ret].
    + intros [|]; [|apply keeps_ret].
      destruct (is_str type "progress_update");
        [apply keeps_progress_branch | apply keeps_ret].
Qed.

Lemma message_joins rs se (ws : conn) (f : frame) (name : string) (s : state) :
  join_target f = Some name →
  channels (snd (message rs se ws f s)) = joins ws name (channels s).
Proof.
  intros Htarget. destruct f as [|data]; [done|]. simpl in Htarget.
  destruct data as [| |b|n|str|items|fields]; try done. simpl in Htarget.
  set (type := default VUndefined (assoc "type" fields)) in *.
  destruct (default VUndefined (assoc "channel" fields)) as [| |b|n|name'|items|fs] eqn:Hchan;
    try done.
  destruct (is_str type "join") eqn:Hjoin; [|done]. simpl in Htarget.
  destruct (negb (name' =? "")) eqn:Hname; [|done]. injection Htarget as ->.
  unfold message, try_catch, bind, modify, lift. simpl. fold type. rewrite Hjoin.
  unfold join_branch, bind, lift, gets, modify, ret, as_string. simpl.
  rewrite Hchan. simpl. rewrite Hname. simpl.
  unfold joins, send.
  destruct (map_has name (channels s)) eqn:Hhas; simpl;
    destruct (se ws); simpl; try done;
    match goal with
    | |- context [broadcastToChannel ?a ?b ?c ?d ?e ?f] =>
        pose proof (broadcastToChannel_returns a b c d e f) as Hret;
        pose proof (broadcastToChannel_channels a b c d e f) as Hch;
        destruct (broadcastToChannel a b c d e f) as [r s']
    end; simpl in *; subst r; simpl; rewrite Hch; done.
Qed.




(** ** Runs: the registry follows joins and closes *)





Lemma registry_ok_lookup (m : list (string * list conn)) (C : string) (clients : list conn) :
  registry_ok m → map_get C m = Some clients →
  C ≠ "" ∧ clients ≠ [] ∧ NoDup clients.
Proof.
  intros [_ Hall] Hget.
  induction Hall as [|[k0 v0] m H0 Hall IH]; simpl in *; [done|].
  destruct (String.eqb_spec C k0) as [->|]; [|by apply IH].
  injection Hget as <-. apply H0.
Qed.



(** ** The broadcast primitive *)

Lemma broadcast_fold_wire rs se (msg : value) (clients : list conn) (s : state) :
  wire (fold_left (broadcast_one rs se msg None) clients s) =
    wire s ++ List.map (fun c => (c, msg)) (List.filter (fun c => is_open (rs c)) clients).
Proof.
  revert s. induction clients as [|c clients IH]; intros s; simpl.
  - by rewrite app_nil_r.
  - rewrite IH. unfold broadcast_one, send. simpl.
    destruct (is_open (rs c)); simpl.
    + destruct (se c); simpl; by rewrite <- app_assoc.
    + done.
Qed.

Lemma registry_ok_no_empty_name (m : list (string * list conn)) :
  registry_ok m → map_get "" m = None.
Proof.
  intros Hok. destruct (map_get "" m) as [clients|] eqn:Hget; [|done].
  by destruct (registry_ok_lookup m "" clients Hok Hget) as [? _].
Qed.

(** C7: a [message] envelope naming channel [C] from a connection that is
    not a member of [C] is answered with error envelopes to the sender only
    and nothing is broadcast; from a member, the broadcast envelope with
    the payload is sent to the members of [C] whose transport is open, the
    sender among them, and to nobody else. *)
Theorem message_goes_to_the_channel_only rs se (ws : conn) (data : value)
  (C : string) (payload : value) (s : state) :
  registry_ok (channels s) →
  get data "type" = Normal (VStr "message") →
  get data "channel" = Normal (VStr C) →
  get data "message" = Normal payload →
  let s' := snd (message rs se ws (Parsed data) s) in
  channels s' = channels s ∧
  (is_member ws C s = false →
     ∃ reason rest,
       wire s' = wire s ++ (ws, error_envelope reason) :: rest ∧
       Forall (fun e => ∃ reason', e = (ws, error_envelope reason')) rest) ∧
  (is_member ws C s = true →
     ∃ clients,
       map_get C (channels s) = Some clients ∧ ws ∈ clients ∧
       wire s' = wire s ++
         List.map (fun c => (c, VObj [("type", VStr "broadcast");
                                      ("message", payload);
                                      ("channel", VStr C)]))
                  (List.filter (fun c => is_open (rs c)) clients)).
Proof.
  intros Hok Htype Hchan Hmsg s'.
  split.
  { subst s'. apply message_keeps_registry; simpl; rewrite Htype, Hchan; done. }
  destruct data as [| |b|n|str|items|fields]; try done.
  simpl in Htype, Hchan, Hmsg.
  injection Htype as Htype. injection Hchan as Hchan. injection Hmsg as Hmsg.
  subst s'. unfold message, try_catch, bind, modify, lift. simpl.
  rewrite Htype. simpl.
  unfold message_branch, bind, lift, gets, ret. simpl. rewrite Hchan, Hmsg. simpl.
  unfold is_member, member_in.
  destruct (String.eqb_spec C "") as [->|HC]; simpl.
  { rewrite registry_ok_no_empty_name by done. split; [intros _|done].
    unfold send. destruct (se ws) as [e|]; simpl.
    - destruct (se ws); simpl; eexists _, [_]; rewrite <- app_assoc; simpl;
        (split; [done|]); repeat constructor; by eexists.
    - by eexists _, []. }
  destruct (map_get C (channels s)) as [clients|] eqn:Hget; simpl.
  - destruct (set_has ws clients) eqn:Hhas; simpl.
    + split; [done|]. intros _. exists clients.
      split_and!; [done | by apply set_has_elem |].
      unfold broadcastToChannel. simpl. rewrite Hget. simpl.
      by rewrite broadcast_fold_wire.
    + split; [intros _|done].
      unfold send. destruct (se ws) as [e|]; simpl.
      * destruct (se ws); simpl; eexists _, [_]; rewrite <- app_assoc; simpl;
          (split; [done|]); repeat constructor; by eexists.
      * by eexists _, [].
  - split; [intros _|done].
    unfold send. destruct (se ws) as [e|]; simpl.
    + destruct (se ws); simpl; eexists _, [_]; rewrite <- app_assoc; simpl;
        (split; [done|]); repeat constructor; by eexists.
    + by eexists _, [].
Qed.

(** C9 (amended): a frame that [JSON.parse] rejects is answered with one
    error envelope to its sender and counted as an error; the registry does
    not change, nothing is sent to anyone else, and the handler has no
    operation that closes a socket.  A frame that parses to an object or
    primitive whose [type] is none of [join], [message] and
    [progress_update] is only counted as received.  A frame that parses to
    [null] is treated like one that does not parse. *)
Theorem unparseable_frame_gets_an_error rs se (ws : conn) (s : state) :
  (∀ reason,
     let s' := snd (message rs se ws (Unparseable reason) s) in
     wire s' = wire s ++ [(ws, error_envelope ("Error processing message: " +:+ reason))] ∧
     errors (stats s') = (errors (stats s) + 1)%Z ∧
     channels s' = channels s) ∧
  (∀ data type,
     get data "type" = Normal type →
     is_str type "join" = false → is_str type "message" = false →
     is_str type "progress_update" = false →
     message rs se ws (Parsed data) s = (Ret tt, set_stats inc_messagesReceived s)) ∧
  (∀ data e,
     get data "type" = Abrupt e →
     let s' := snd (message rs se ws (Parsed data) s) in
     wire s' = wire s ++ [(ws, error_envelope ("Error processing message: " +:+ Js.message e))] ∧
     errors (stats s') = (errors (stats s) + 1)%Z ∧
     channels s' = channels s).
Proof.
  split_and!.
  - intros reason. unfold message, try_catch, bind, modify, lift, send. simpl.
    by destruct (se ws).
  - intros data type Htype Hj Hm Hp.
    unfold message, try_catch, bind, modify, lift. simpl.
    rewrite Htype, Hj, Hm. simpl. by rewrite Hp.
  - intros data e Htype.
    unfold message, try_catch, bind, modify, lift, send. simpl.
    rewrite Htype. simpl. by destruct (se ws).
Qed.

End ServerFacts.

(** * Properties of the relay client *)
Section ClientFacts.
Import Js Eff Client.
Variable reconnectInterval : Z.
Variable defaultPort : Z.

(** ** Timers and promises *)

Lemma armed_clearTimeout (h h' : timer) (s : state) :
  armed h (clearTimeout h' s) = if decide (h = h') then None else armed h s.
Proof.
  unfold armed, clearTimeout. simpl. case_decide as Heq.
  - subst h'. destruct (decide (h < length (timers s))%nat) as [Hlt|Hge].
    + by rewrite list_lookup_insert_eq.
    + rewrite list_insert_ge by lia.
      destruct (timers s !! h) as [t|] eqn:E; [|done].
      apply lookup_lt_Some in E. lia.
  - by rewrite list_lookup_insert_ne.
Qed.

Lemma armed_lt (h : timer) (t : Timeout) (s : state) :
  armed h s = Some t → (h < length (timers s))%nat.
Proof.
  unfold armed. destruct (timers s !! h) eqn:E; [|done].
  intros _. by eapply lookup_lt_Some.
Qed.

Lemma settle_fresh (o : settlement) (s : state) :
  promises (settle (length (promises s)) o (set_promises (fun ps => ps ++ [Pending]) s))
  = promises s ++ [o].
Proof.
  unfold settle. simpl.
  rewrite lookup_app_r, Nat.sub_diag by lia. simpl.
  rewrite insert_app_r_alt, Nat.sub_diag by lia. done.
Qed.

Lemma settle_pending (p : promise) (o : settlement) (s : state) :
  promises s !! p = Some Pending →
  promises (settle p o s) !! p = Some o ∧ promise_state p (settle p o s) = o.
Proof.
  intros Hp. unfold promise_state, settle. rewrite Hp. simpl.
  rewrite list_lookup_insert_eq; [done|]. by eapply lookup_lt_Some.
Qed.

Lemma settle_other (p p' : promise) (o : settlement) (s : state) :
  p ≠ p' → promises (settle p' o s) !! p = promises s !! p.
Proof.
  intros Hne. unfold settle.
  destruct (promises s !! p') as [[| |]|]; simpl; try done.
  by rewrite list_lookup_insert_ne.
Qed.

Lemma settle_settled (p p' : promise) (o o' : settlement) (s : state) :
  promises s !! p = Some o → o ≠ Pending →
  promises (settle p' o' s) !! p = Some o.
Proof.
  intros Hp Ho. destruct (decide (p = p')) as [<-|Hne].
  - unfold settle. rewrite Hp. by destruct o.
  - by rewrite settle_other.
Qed.

Lemma settle_frame (p : promise) (o : settlement) (s : state) :
  pendingRequests (settle p o s) = pendingRequests s ∧
  timers (settle p o s) = timers s ∧
  outbox (settle p o s) = outbox s ∧
  currentChannel (settle p o s) = currentChannel s ∧
  ws (settle p o s) = ws s ∧
  relay (settle p o s) = relay s ∧
  autoConnectEnabled (settle p o s) = autoConnectEnabled s.
Proof. unfold settle. by destruct (promises s !! p) as [[| |]|]. Qed.

Lemma settle_length (p : promise) (o : settlement) (s : state) :
  length (promises (settle p o s)) = length (promises s).
Proof.
  unfold settle. destruct (promises s !! p) as [[| |]|]; simpl; try done.
  apply length_insert.
Qed.

(** ** C5 *)

(** C5: with the transport open and no channel joined, a command other
    than [join] is rejected at once with the must-join error, writes
    nothing to the transport and adds nothing to the pending request table;
    a [join] command is accepted: it is written and registered. *)
Theorem command_needs_a_joined_channel (command : string)
  (params : list (string * value)) (timeoutMs : Z) (id : string) (now : Z)
  (ctor : completion unit) (s : state) :
  is_OPEN (ws s) = true →
  joined (currentChannel s) = false →
  let r := sendCommandToFigma reconnectInterval defaultPort
             command params timeoutMs id now ctor s in
  let p := fst r in
  let s' := snd r in
  p = length (promises s) ∧
  (command ≠ "join" →
     promises s' = promises s ++
       [Rejected (new_Error
          "Must join a channel before sending commands. Use auto_connect or join_channel.")] ∧
     outbox s' = outbox s ∧
     pendingRequests s' = pendingRequests s ∧
     timers s' = timers s) ∧
  (command = "join" →
     promises s' = promises s ++ [Pending] ∧
     outbox s' = outbox s ++
       [VObj [("id", VStr id); ("type", VStr "join");
              ("channel", default VUndefined (assoc "channel" params));
              ("message",
               VObj [("id", VStr id); ("command", VStr "join");
                     ("params", VObj (Server.map_set "commandId" (VStr id) params))])]] ∧
     pendingRequests s' =
       <[id := mkPendingRequest p p (length (timers s)) now]> (pendingRequests s) ∧
     timers s' = timers s ++ [Some (mkTimeout timeoutMs (CommandTimeout id p))]).
Proof.
  intros Hopen Hjoined. unfold sendCommandToFigma, new_Promise. simpl.
  rewrite Hopen, Hjoined. simpl.
  split_and!.
  - by destruct (negb (command =? "join")).
  - intros Hne. apply String.eqb_neq in Hne. rewrite Hne. simpl.
    rewrite settle_fresh.
    destruct (settle_frame (length (promises s))
      (Rejected (new_Error
         "Must join a channel before sending commands. Use auto_connect or join_channel."))
      (set_promises (λ ps, ps ++ [Pending]) s)) as (-> & -> & -> & _).
    done.
  - intros ->. simpl. done.
Qed.


(** ** The close listener *)

Local Arguments reject_closed : simpl never.

Lemma reject_closed_fold_frame (l : list (string * PendingRequest)) (s : state) :
  currentChannel (fold_left reject_closed l s) = currentChannel s ∧
  ws (fold_left reject_closed l s) = ws s ∧
  relay (fold_left reject_closed l s) = relay s ∧
  outbox (fold_left reject_closed l s) = outbox s ∧
  autoConnectEnabled (fold_left reject_closed l s) = autoConnectEnabled s ∧
  length (timers (fold_left reject_closed l s)) = length (timers s) ∧
  length (promises (fold_left reject_closed l s)) = length (promises s).
Proof.
  revert s. induction l as [|[id request] l IH]; intros s; simpl; [done|].
  destruct (IH (reject_closed s (id, request))) as (-> & -> & -> & -> & -> & -> & ->).
  unfold reject_closed. simpl.
  destruct (settle_frame (reject request) (Rejected (new_Error "Connection closed"))
              (clearTimeout (timeout request) s)) as (_ & -> & -> & -> & -> & -> & ->).
  rewrite settle_length. simpl. by rewrite length_insert.
Qed.

Lemma reject_closed_fold_absent (l : list (string * PendingRequest)) (s : state) (id : string) :
  pendingRequests s !! id = None →
  pendingRequests (fold_left reject_closed l s) !! id = None.
Proof.
  revert s. induction l as [|[id0 request] l IH]; intros s Hnone; simpl; [done|].
  apply IH. unfold reject_closed. simpl.
  destruct (settle_frame (reject request) (Rejected (new_Error "Connection closed"))
              (clearTimeout (timeout request) s)) as (-> & _).
  simpl. destruct (decide (id0 = id)) as [->|Hne].
  - apply lookup_delete_eq.
  - by rewrite lookup_delete_ne.
Qed.

Lemma reject_closed_fold_deletes (l : list (string * PendingRequest)) (s : state)
  (id : string) (request : PendingRequest) :
  (id, request) ∈ l →
  pendingRequests (fold_left reject_closed l s) !! id = None.
Proof.
  revert s. induction l as [|[id0 request0] l IH]; intros s Hin; simpl.
  - by apply elem_of_nil in Hin.
  - apply elem_of_cons in Hin as [[= <- <-]|Hin]; [|by apply IH].
    apply reject_closed_fold_absent. unfold reject_closed. simpl.
    apply lookup_delete_eq.
Qed.

Lemma reject_closed_fold_disarmed (l : list (string * PendingRequest)) (s : state) (h : timer) :
  armed h s = None → armed h (fold_left reject_closed l s) = None.
Proof.
  revert s. induction l as [|[id0 request] l IH]; intros s Hnone; simpl; [done|].
  apply IH. unfold reject_closed, armed. simpl.
  destruct (settle_frame (reject request) (Rejected (new_Error "Connection closed"))
              (clearTimeout (timeout request) s)) as (_ & -> & _).
  fold (armed h (clearTimeout (timeout request) s)).
  rewrite armed_clearTimeout. by case_decide.
Qed.

Lemma reject_closed_fold_disarms (l : list (string * PendingRequest)) (s : state)
  (id : string) (request : PendingRequest) :
  (id, request) ∈ l →
  armed (timeout request) (fold_left reject_closed l s) = None.
Proof.
  revert s. induction l as [|[id0 request0] l IH]; intros s Hin; simpl.
  - by apply elem_of_nil in Hin.
  - apply elem_of_cons in Hin as [[= <- <-]|Hin]; [|by apply IH].
    apply reject_closed_fold_disarmed. unfold reject_closed, armed. simpl.
    destruct (settle_frame (reject request) (Rejected (new_Error "Connection closed"))
                (clearTimeout (timeout request) s)) as (_ & -> & _).
    fold (armed (timeout request) (clearTimeout (timeout request) s)).
    rewrite armed_clearTimeout. by case_decide.
Qed.

Lemma reject_closed_fold_settled (l : list (string * PendingRequest)) (s : state)
  (p : promise) (o : settlement) :
  promises s !! p = Some o → o ≠ Pending →
  promises (fold_left reject_closed l s) !! p = Some o.
Proof.
  revert s. induction l as [|[id0 request] l IH]; intros s Hp Ho; simpl; [done|].
  apply IH; [|done]. unfold reject_closed. simpl.
  by apply settle_settled.
Qed.

Lemma reject_closed_fold_rejects (l : list (string * PendingRequest)) (s : state)
  (id : string) (request : PendingRequest) :
  (id, request) ∈ l →
  promises s !! reject request = Some Pending →
  promises (fold_left reject_closed l s) !! reject request =
    Some (Rejected (new_Error "Connection closed")).
Proof.
  revert s. induction l as [|[id0 request0] l IH]; intros s Hin Hp; simpl.
  - by apply elem_of_nil in Hin.
  - destruct (decide (reject request0 = reject request)) as [Heq|Hne].
    + apply reject_closed_fold_settled; [|done].
      unfold reject_closed. simpl. rewrite Heq.
      by apply settle_pending.
    + apply elem_of_cons in Hin as [[= <- <-]|Hin]; [done|].
      apply IH; [done|]. unfold reject_closed. simpl.
      by rewrite settle_other.
Qed.

(** The close listener from any state: the table is emptied; an entry's
    timer, if armed, is disarmed; its promise, if pending, is rejected. *)
Lemma close_rejects_all_from (connectionTimeout : timer) (port k : Z)
  (s : state) :
  let s' := on_close reconnectInterval connectionTimeout port k s in
  pendingRequests s' = ∅ ∧
  ∀ id request, pendingRequests s !! id = Some request →
    (∀ t, armed (timeout request) s = Some t → armed (timeout request) s' = None) ∧
    (promises s !! reject request = Some Pending →
     promise_state (reject request) s' = Rejected (new_Error "Connection closed")).
Proof.
  intros s'. subst s'. unfold on_close, setTimeout. simpl.
  set (s0 := set_ws None (clearTimeout connectionTimeout s)).
  assert (Htable : pendingRequests s0 = pendingRequests s) by done.
  split.
  - apply map_eq. intros id. rewrite lookup_empty.
    destruct (pendingRequests s !! id) as [request|] eqn:Hget.
    + eapply reject_closed_fold_deletes. by apply elem_of_map_to_list.
    + apply reject_closed_fold_absent. by rewrite Htable.
  - intros id request Hget.
    assert (Hin : (id, request) ∈ map_to_list (pendingRequests s))
      by by apply elem_of_map_to_list.
    split.
    + intros t Harmed. apply armed_lt in Harmed.
      pose proof (reject_closed_fold_disarms _ s0 id request Hin) as Hdis.
      destruct (reject_closed_fold_frame (map_to_list (pendingRequests s)) s0)
        as (_ & _ & _ & _ & _ & Hlen & _).
      unfold armed in *. simpl.
      rewrite lookup_app_l; [done|].
      rewrite Hlen. subst s0. simpl. by rewrite length_insert.
    + intros Hp. unfold promise_state. simpl.
      by rewrite (reject_closed_fold_rejects _ s0 id request Hin Hp).
Qed.

(** C10: the close listener leaves [currentChannel] as it is, so
    [getCurrentChannel()] and the [connected] flag of
    [getConnectionStatus()] (which is [currentChannel !== null]) read the
    same after the close; the open listener of a new connection sets
    [currentChannel] to [null], and so does [disconnect()] when a channel is
    joined. *)
Theorem close_keeps_current_channel (connectionTimeout : timer) (port k : Z) (s : state) :
  let s' := on_close reconnectInterval connectionTimeout port k s in
  currentChannel s' = currentChannel s ∧
  getCurrentChannel s' = getCurrentChannel s ∧
  connected (getConnectionStatus s') = bool_decide (currentChannel s ≠ None) ∧
  connected (getConnectionStatus s') = connected (getConnectionStatus s) ∧
  (∀ connectionTimeout', currentChannel (on_open connectionTimeout' s') = None) ∧
  (joined (currentChannel s') = true → currentChannel (snd (disconnect s')) = None).
Proof.
  intros s'.
  assert (Hsame : currentChannel s' = currentChannel s).
  { subst s'. unfold on_close, setTimeout. simpl.
    by destruct (reject_closed_fold_frame
                   (map_to_list (pendingRequests s))
                   (set_ws None (clearTimeout connectionTimeout s))) as (-> & _). }
  clearbody s'. unfold getCurrentChannel, getConnectionStatus. simpl. rewrite Hsame.
  split_and!; try done.
  - by destruct (currentChannel s).
  - intros ct. unfold on_open, setTimeout. simpl.
    by destruct (autoConnectEnabled s').
  - intros Hj. unfold disconnect. rewrite Hsame, Hj. done.
Qed.


(** ** The message listener *)



(** C2 (amended): for an inbound envelope of kind [progress_update] that
    carries a message object and whose top-level id is that of a pending
    request, no promise is settled and the entry stays in the table; its
    timer is cancelled and replaced by a new one of 120000 ms, and its
    last-activity time becomes the current time.  The cancelled timer can no
    longer fire. *)
Theorem progress_update_rearms_timer (now : Z) (json message : value)
  (key : string) (request : PendingRequest) (s : state) :
  get json "type" = Normal (VStr "progress_update") →
  get json "message" = Normal message →
  message ≠ VUndefined → message ≠ VNull →
  get json "id" = Normal (VStr key) →
  key ≠ "" →
  pendingRequests s !! key = Some request →
  let s' := on_message now (Parsed json) s in
  let h := length (timers s) in
  promises s' = promises s ∧
  pendingRequests s' =
    <[key := mkPendingRequest (resolve request) (reject request) h now]> (pendingRequests s) ∧
  timers s' = <[timeout request := None]> (timers s) ++
              [Some (mkTimeout 120000 (ProgressTimeout key (reject request)))] ∧
  armed h s' = Some (mkTimeout 120000 (ProgressTimeout key (reject request))) ∧
  (∀ t, armed (timeout request) s = Some t →
     armed (timeout request) s' = None ∧
     ∀ id' now' ctor,
       fire reconnectInterval defaultPort (timeout request) id' now' ctor s' = (Returned tt, s')).
Proof.
  intros Htype Hmsg Hundef Hnull Hid Hkey Hget s' h. subst s' h.
  unfold on_message, message_body, bind, lift, gets, modify, ret. simpl.
  rewrite Htype. simpl. rewrite Hmsg. simpl.
  assert (Hdata : ∃ d, get message "data" = Normal d).
  { destruct message; try done; by eexists. }
  destruct Hdata as [d Hd]. rewrite Hd, Hid. simpl.
  assert (Hk : negb (key =? "") = true) by by apply negb_true_iff, String.eqb_neq.
  rewrite !Hk. simpl. rewrite Hget. rewrite ?Hk.
  unfold extend_deadline, setTimeout. simpl.
  unfold lift. destruct (get d "commandType"); simpl.
  all: rewrite length_insert; split_and!; try done.
  all: try (unfold armed; simpl; rewrite lookup_app_r, length_insert, Nat.sub_diag
              by (rewrite length_insert; lia); done).
  all: intros t Harmed; pose proof (armed_lt _ _ _ Harmed) as Hlt.
  all: assert (Hnone : ∀ s2 : state,
          timers s2 = <[timeout request := None]> (timers s) ++
              [Some (mkTimeout 120000 (ProgressTimeout key (reject request)))] →
          armed (timeout request) s2 = None)
       by (intros s2 H2; unfold armed; rewrite H2, lookup_app_l
             by (rewrite length_insert; lia);
           by rewrite list_lookup_insert_eq).
  all: split; [by apply Hnone|].
  all: intros id' now' ctor; unfold fire; by rewrite Hnone.
Qed.


(** ** What one inbound frame can do *)

Lemma is_str_eq (v : value) (a : string) : is_str v a = true ↔ v = VStr a.
Proof.
  destruct v; simpl; try (split; [done | by intros [=]]).
  rewrite String.eqb_eq. split; [by intros -> | by intros [= ->]].
Qed.

(** The listener either leaves the state alone, or re-arms the timer of the
    one request the frame addresses, or settles that request. *)
Lemma on_message_cases (now : Z) (f : frame) (s : state) :
  on_message now f s = s ∨
  ∃ key request,
    key ≠ "" ∧ addresses key f = true ∧ pendingRequests s !! key = Some request ∧
    (on_message now f s = extend_deadline now key request s ∨
     ∃ result error, on_message now f s = settle_request key request result error s).
Proof.
  unfold on_message, message_body, bind, lift, gets, modify, ret.
  destruct f as [reason|json]; simpl; [by left|].
  destruct (get json "type") as [type|] eqn:Htype; simpl; [|by left].
  destruct (is_str type "progress_update") eqn:Hprog.
  - destruct (get json "message") as [message|]; simpl; [|by left].
    destruct (get message "data") as [d|]; simpl; [|by left].
    destruct (get json "id") as [id|] eqn:Hid; simpl; [|by left].
    destruct (truthy id) eqn:Htruthy; simpl.
    + destruct id as [| |b|n|key|items|fields]; simpl; try by left.
      destruct (pendingRequests s !! key) as [request|] eqn:Hget; simpl; [|by left].
      simpl in Htruthy. rewrite Htruthy.
      right. exists key, request. split_and!; try done.
      * apply negb_true_iff, String.eqb_neq in Htruthy. done.
      * apply String.eqb_refl.
      * left. by destruct (get d "commandType").
    + destruct (pendingRequests s !! ""); by left.
  - destruct (get json "message") as [myResponse|] eqn:Hmsg; simpl; [|by left].
    destruct (get myResponse "id") as [id|] eqn:Hid; simpl; [|by left].
    destruct (get myResponse "result") as [result|]; simpl; [|by left].
    destruct (get myResponse "error") as [error|]; simpl; [|by left].
    destruct id as [| |b|n|key|items|fields]; simpl; try by left.
    destruct (pendingRequests s !! key) as [request|] eqn:Hget; simpl; [|by left].
    destruct (negb (key =? "")) eqn:Hkey; simpl; [|by left].
    destruct (truthy result) eqn:Hres; simpl; [|by left].
    right. exists key, request. split_and!; try done.
    + by apply negb_true_iff, String.eqb_neq in Hkey.
    + apply String.eqb_refl.
    + right. by exists result, error.
Qed.

Lemma addresses_same (id key : string) (f : frame) :
  addresses id f = true → addresses key f = true → key = id.
Proof.
  unfold addresses. destruct f as [|json]; [done|].
  destruct (get json "type") as [type|]; [|done].
  destruct (is_str type "progress_update").
  - destruct (get json "id") as [v|]; [|done].
    intros ->%is_str_eq [= ->]%is_str_eq. done.
  - destruct (get json "message") as [m|]; [|done].
    destruct (get m "id") as [v|]; [|done].
    intros ->%is_str_eq [= ->]%is_str_eq. done.
Qed.

(** An answer to a request addresses it. *)
Lemma answers_addresses (id : string) (f : frame) :
  answers id f = true → addresses id f = true.
Proof.
  unfold answers, addresses. destruct f as [|json]; [done|].
  destruct (get json "type") as [type|]; [|done].
  destruct (is_str type "progress_update").
  - destruct (get json "message") as [m|]; [|done].
    destruct (get m "data"); [|done]. by destruct (get json "id").
  - destruct (get json "message") as [m|]; [|done].
    destruct (get m "id") as [k|]; [|done].
    destruct (get m "result"); [|done]. by intros [? _]%andb_true_iff.
Qed.

(** When the listener changes the state, the frame is an answer to the
    request it re-arms or settles. *)
Lemma on_message_answered (now : Z) (f : frame) (s : state) :
  on_message now f s = s ∨
  ∃ key request,
    key ≠ "" ∧ answers key f = true ∧ pendingRequests s !! key = Some request ∧
    (on_message now f s = extend_deadline now key request s ∨
     ∃ result error, on_message now f s = settle_request key request result error s).
Proof.
  unfold on_message, message_body, bind, lift, gets, modify, ret.
  destruct f as [reason|json]; simpl; [by left|].
  destruct (get json "type") as [type|] eqn:Htype; simpl; [|by left].
  destruct (is_str type "progress_update") eqn:Hprog.
  - destruct (get json "message") as [message|]; simpl; [|by left].
    destruct (get message "data") as [d|]; simpl; [|by left].
    destruct (get json "id") as [id|] eqn:Hid; simpl; [|by left].
    destruct (truthy id) eqn:Htruthy; simpl.
    + destruct id as [| |b|n|key|items|fields]; simpl; try by left.
      destruct (pendingRequests s !! key) as [request|] eqn:Hget; simpl; [|by left].
      simpl in Htruthy. rewrite Htruthy.
      right. exists key, request. split_and!; try done.
      * apply negb_true_iff, String.eqb_neq in Htruthy. done.
      * apply String.eqb_refl.
      * left. by destruct (get d "commandType").
    + destruct (pendingRequests s !! ""); by left.
  - destruct (get json "message") as [myResponse|] eqn:Hmsg; simpl; [|by left].
    destruct (get myResponse "id") as [id|] eqn:Hid; simpl; [|by left].
    destruct (get myResponse "result") as [result|]; simpl; [|by left].
    destruct (get myResponse "error") as [error|]; simpl; [|by left].
    destruct id as [| |b|n|key|items|fields]; simpl; try by left.
    destruct (pendingRequests s !! key) as [request|] eqn:Hget; simpl; [|by left].
    destruct (negb (key =? "")) eqn:Hkey; simpl; [|by left].
    destruct (truthy result) eqn:Hres; simpl; [|by left].
    right. exists key, request. split_and!; try done.
    + by apply negb_true_iff, String.eqb_neq in Hkey.
    + by rewrite String.eqb_refl.
    + right. by exists result, error.
Qed.

(** A frame that addresses a request that is not in the table changes
    nothing. *)
Lemma late_frame_is_ignored (now : Z) (f : frame) (id : string) (s : state) :
  pendingRequests s !! id = None → addresses id f = true →
  on_message now f s = s.
Proof.
  intros Hnone Haddr.
  destruct (on_message_cases now f s) as [H|(key & request & _ & Hkey & Hget & _)]; [done|].
  rewrite (addresses_same id key f Haddr Hkey) in Hget. congruence.
Qed.


(** ** A request that nobody answers *)

Lemma extend_deadline_keeps_waiting (now : Z) (key id : string)
  (request : PendingRequest) (p : promise) (h : timer) (t : Timeout) (s : state) :
  key ≠ id → pendingRequests s !! key = Some request →
  waits_alone id p h s → armed h s = Some t →
  waits_alone id p h (extend_deadline now key request s) ∧
  armed h (extend_deadline now key request s) = Some t.
Proof.
  intros Hne Hkey ((r & Hr & Hres & Hrej & Hto) & Hp & Hothers) Harmed.
  pose proof (armed_lt _ _ _ Harmed) as Hlt.
  destruct (Hothers key request Hne Hkey) as (Hto' & Hres' & Hrej').
  unfold extend_deadline, setTimeout. simpl. rewrite length_insert.
  split; [split_and!|].
  - exists r. simpl. by rewrite lookup_insert_ne.
  - done.
  - intros id' request' Hid'. simpl.
    destruct (decide (key = id')) as [<-|Hkid].
    + rewrite lookup_insert_eq. intros [= <-]. simpl. split_and!; [lia|done|done].
    + rewrite lookup_insert_ne by done. by apply Hothers.
  - unfold armed in *. simpl.
    rewrite lookup_app_l by (rewrite length_insert; lia).
    by rewrite list_lookup_insert_ne.
Qed.

Lemma settle_request_keeps_waiting (key id : string) (request : PendingRequest)
  (result error : value) (p : promise) (h : timer) (t : Timeout) (s : state) :
  key ≠ id → pendingRequests s !! key = Some request →
  waits_alone id p h s → armed h s = Some t →
  waits_alone id p h (settle_request key request result error s) ∧
  armed h (settle_request key request result error s) = Some t.
Proof.
  intros Hne Hkey ((r & Hr & Hres & Hrej & Hto) & Hp & Hothers) Harmed.
  destruct (Hothers key request Hne Hkey) as (Hto' & Hres' & Hrej').
  unfold settle_request.
  set (s1 := clearTimeout (timeout request) s).
  set (s2 := if truthy error
             then settle (reject request) (Rejected (new_Error (to_string error))) s1
             else if truthy result
                  then settle (resolve request) (Fulfilled result) s1
                  else s1).
  assert (Hframe : pendingRequests s2 = pendingRequests s ∧ timers s2 = timers s1 ∧
                   promises s2 !! p = promises s !! p).
  { subst s2. destruct (truthy error); [|destruct (truthy result)].
    - destruct (settle_frame (reject request) (Rejected (new_Error (to_string error))) s1)
        as (-> & -> & _).
      split_and!; [done|done|]. by rewrite settle_other.
    - destruct (settle_frame (resolve request) (Fulfilled result) s1) as (-> & -> & _).
      split_and!; [done|done|]. by rewrite settle_other.
    - done. }
  destruct Hframe as (Htable & Htimers & Hprom).
  split; [split_and!|].
  - exists r. simpl. rewrite Htable. by rewrite lookup_delete_ne.
  - simpl. by rewrite Hprom.
  - intros id' request' Hid'. simpl. rewrite Htable.
    destruct (decide (key = id')) as [<-|Hkid].
    + by rewrite lookup_delete_eq.
    + rewrite lookup_delete_ne by done. by apply Hothers.
  - unfold armed in *. simpl. rewrite Htimers. subst s1. simpl.
    by rewrite list_lookup_insert_ne.
Qed.

Lemma on_message_keeps_waiting (now : Z) (f : frame) (id : string)
  (p : promise) (h : timer) (t : Timeout) (s : state) :
  answers id f = false →
  waits_alone id p h s → armed h s = Some t →
  waits_alone id p h (on_message now f s) ∧ armed h (on_message now f s) = Some t.
Proof.
  intros Haddr Hwait Harmed.
  destruct (on_message_answered now f s)
    as [->|(key & request & _ & Hkey & Hget & [->|(result & error & ->)])]; [done| |].
  - apply extend_deadline_keeps_waiting; try done. intros ->. congruence.
  - apply settle_request_keeps_waiting; try done. intros ->. congruence.
Qed.

Lemma receive_all_keeps_waiting (frames : list (Z * frame)) (id : string)
  (p : promise) (h : timer) (t : Timeout) (s : state) :
  Forall (fun nf => answers id (snd nf) = false) frames →
  waits_alone id p h s → armed h s = Some t →
  waits_alone id p h (receive_all frames s) ∧ armed h (receive_all frames s) = Some t.
Proof.
  unfold receive_all. intros Hall. revert s.
  induction Hall as [|[now f] frames Hf Hall IH]; intros s Hwait Harmed; simpl; [done|].
  destruct (on_message_keeps_waiting now f id p h t s Hf Hwait Harmed) as [H1 H2].
  by apply IH.
Qed.

Lemma send_starts_waiting (command : string) (params : list (string * value))
  (timeoutMs : Z) (id : string) (now : Z) (ctor : completion unit) (s : state) :
  well_formed s →
  is_OPEN (ws s) = true →
  command = "join" ∨ joined (currentChannel s) = true →
  let sent := sendCommandToFigma reconnectInterval defaultPort
                command params timeoutMs id now ctor s in
  fst sent = length (promises s) ∧
  pendingRequests (snd sent) !! id =
    Some (mkPendingRequest (fst sent) (fst sent) (length (timers s)) now) ∧
  waits_alone id (fst sent) (length (timers s)) (snd sent) ∧
  armed (length (timers s)) (snd sent) =
    Some (mkTimeout timeoutMs (CommandTimeout id (fst sent))).
Proof.
  intros Hwf Hopen Hok. unfold sendCommandToFigma, new_Promise. simpl.
  rewrite Hopen. simpl.
  assert (Hgate : negb (command =? "join") && negb (joined (currentChannel s)) = false).
  { destruct Hok as [->| ->]; [done | by rewrite andb_false_r]. }
  rewrite Hgate. simpl.
  split_and!; try done.
  - by rewrite lookup_insert_eq.
  - split_and!.
    + eexists. simpl. rewrite lookup_insert_eq. done.
    + simpl. by rewrite lookup_app_r, Nat.sub_diag by lia.
    + intros id' request' Hne. simpl. rewrite lookup_insert_ne by done.
      intros Hget. destruct (Hwf id' request' Hget) as (H1 & H2 & H3). lia.
  - unfold armed. simpl. by rewrite lookup_app_r, Nat.sub_diag by lia.
Qed.

Lemma fire_times_out (id : string) (p : promise) (h : timer) (ms : Z)
  (id' : string) (now' : Z) (ctor' : completion unit) (s : state) :
  waits_alone id p h s →
  armed h s = Some (mkTimeout ms (CommandTimeout id p)) →
  let s3 := snd (fire reconnectInterval defaultPort h id' now' ctor' s) in
  pendingRequests s3 !! id = None ∧
  promise_state p s3 = Rejected (new_Error "Request to Figma timed out").
Proof.
  intros ((r & Hr & _) & Hp & _) Harmed. unfold fire. rewrite Harmed. simpl.
  unfold request_timed_out. simpl. rewrite Hr.
  set (s1 := set_pendingRequests (delete id) (set_timers (λ ts, <[h:=None]> ts) s)).
  assert (Hp1 : promises s1 !! p = Some Pending) by done.
  destruct (settle_frame p (Rejected (new_Error "Request to Figma timed out")) s1)
    as (-> & _).
  split.
  - simpl. apply lookup_delete_eq.
  - by apply settle_pending.
Qed.

(** From any state whose handles are in range: a request that no inbound
    frame answers keeps waiting, whatever else arrives, is rejected when
    its timer fires, and is deaf to frames that come later. *)
Lemma request_times_out_from (command : string) (params : list (string * value))
  (timeoutMs : Z) (id : string) (now : Z) (ctor : completion unit)
  (frames : list (Z * frame)) (s : state) :
  well_formed s →
  is_OPEN (ws s) = true →
  command = "join" ∨ joined (currentChannel s) = true →
  Forall (fun nf => answers id (snd nf) = false) frames →
  let sent := sendCommandToFigma reconnectInterval defaultPort
                command params timeoutMs id now ctor s in
  let p := fst sent in
  let h := length (timers s) in
  let s2 := receive_all frames (snd sent) in
  pendingRequests (snd sent) !! id = Some (mkPendingRequest p p h now) ∧
  armed h s2 = Some (mkTimeout timeoutMs (CommandTimeout id p)) ∧
  promise_state p s2 = Pending ∧
  ∀ id' now' ctor',
    let s3 := snd (fire reconnectInterval defaultPort h id' now' ctor' s2) in
    pendingRequests s3 !! id = None ∧
    promise_state p s3 = Rejected (new_Error "Request to Figma timed out") ∧
    ∀ now'' f, addresses id f = true →
      on_message now'' f s3 = s3 ∧
      promise_state p (on_message now'' f s3) =
        Rejected (new_Error "Request to Figma timed out").
Proof.
  intros Hwf Hopen Hok Hframes sent p h s2.
  destruct (send_starts_waiting command params timeoutMs id now ctor s Hwf Hopen Hok)
    as (Hp & Hentry & Hwait & Harmed).
  fold sent in Hp, Hentry, Hwait, Harmed. fold p h in Hentry, Hwait, Harmed.
  destruct (receive_all_keeps_waiting frames id p h _ (snd sent) Hframes Hwait Harmed)
    as [Hwait2 Harmed2].
  fold s2 in Hwait2, Harmed2.
  split_and!; try done.
  - unfold promise_state. by destruct Hwait2 as (_ & -> & _).
  - intros id' now' ctor' s3.
    destruct (fire_times_out id p h timeoutMs id' now' ctor' s2 Hwait2 Harmed2)
      as [Hgone Hrej].
    fold s3 in Hgone, Hrej. split_and!; try done.
    intros now'' f Haddr.
    by rewrite (late_frame_is_ignored now'' f id s3 Hgone Haddr).
Qed.


(** ** The auto-connect controller *)

(** C8 (amended): [autoConnect()] with no active channel fails with the
    no-participant message, whatever [currentChannel] is; with at least one
    active channel and a channel joined it succeeds and reports that
    channel, joining nothing; with exactly one active channel and none
    joined it tries to join it, answering with success and the channel name
    when the join is resolved and with failure and the join error when it
    is rejected or the transport is not open; with more than one active
    channel and none joined it fails and returns the channel names. *)
Theorem autoConnect_cases (id : string) (now : Z) (ctor : completion unit) (s : state) :
  let channels := Server.getActiveChannels (relay s) in
  let r := autoConnect reconnectInterval defaultPort id now ctor s in
  (channels = [] →
     r = (Returned (mkAutoConnectResult false None
            "No Figma plugins connected. Please run the Figma plugin first." None), s)) ∧
  (∀ name, channels ≠ [] → currentChannel s = Some name → name ≠ "" →
     r = (Returned (mkAutoConnectResult true (Some name)
            ("Already connected to channel: " +:+ name) None), s)) ∧
  (∀ only, channels = [only] → joined (currentChannel s) = false →
     (is_OPEN (ws s) = false →
        r = (Returned (join_failed (new_Error "Not connected to WebSocket server")), s)) ∧
     (is_OPEN (ws s) = true →
        let sent := sendCommandToFigma reconnectInterval defaultPort
                      "join" [("channel", VStr only)] 60000 id now ctor s in
        r = (Suspended (fst sent), snd sent) ∧
        outbox (snd sent) = outbox s ++
          [VObj [("id", VStr id); ("type", VStr "join"); ("channel", VStr only);
                 ("message",
                  VObj [("id", VStr id); ("command", VStr "join");
                        ("params", VObj [("channel", VStr only);
                                         ("commandId", VStr id)])])]] ∧
        ∀ s2,
          (∀ v, promise_state (fst sent) s2 = Fulfilled v →
             fst (autoConnect_resume only (fst sent) s2) = Returned (join_succeeded only) ∧
             currentChannel (snd (autoConnect_resume only (fst sent) s2)) = Some only) ∧
          (∀ e, promise_state (fst sent) s2 = Rejected e →
             autoConnect_resume only (fst sent) s2 = (Returned (join_failed e), s2)))) ∧
  (∀ first second rest, channels = first :: second :: rest →
     joined (currentChannel s) = false →
     r = (Returned (mkAutoConnectResult false None
            ("Multiple channels available. Please use join_channel with one of: "
               +:+ join ", " channels)
            (Some channels)), s)).
Proof.
  intros channels r. subst r. unfold autoConnect. fold channels.
  split_and!.
  - intros ->. done.
  - intros name Hne Hcur Hname. destruct channels as [|c cs]; [done|]. simpl.
    rewrite Hcur. simpl. by rewrite (proj2 (String.eqb_neq name "") Hname).
  - intros only -> Hj. simpl. rewrite Hj. unfold joinChannel. split.
    + intros Hopen. by rewrite Hopen.
    + intros Hopen. rewrite Hopen. simpl.
      split_and!.
      * by destruct (sendCommandToFigma _ _ _ _ _ _ _ _ _).
      * unfold sendCommandToFigma, new_Promise. simpl. rewrite Hopen. simpl. done.
      * intros s2. unfold autoConnect_resume, joinChannel_resume.
        split; [intros v ->|intros e ->]; done.
  - intros first second rest -> Hj. simpl. by rewrite Hj.
Qed.

(** ** Handles in the table stay within the runtime's stores *)

Lemma extend_deadline_well_formed (now : Z) (key : string) (request : PendingRequest)
  (s : state) :
  pendingRequests s !! key = Some request →
  well_formed s → well_formed (extend_deadline now key request s).
Proof.
  intros Hkey Hwf id r. unfold extend_deadline, setTimeout. simpl.
  rewrite length_insert, length_app, length_insert. simpl.
  destruct (Hwf key request Hkey) as (H1 & H2 & H3).
  destruct (decide (key = id)) as [<-|Hne].
  - rewrite lookup_insert_eq. intros [= <-]. simpl. lia.
  - rewrite lookup_insert_ne by done. intros Hget.
    destruct (Hwf id r Hget) as (? & ? & ?). lia.
Qed.

Lemma settle_request_well_formed (key : string) (request : PendingRequest)
  (result error : value) (s : state) :
  well_formed s → well_formed (settle_request key request result error s).
Proof.
  intros Hwf id r. unfold settle_request. simpl.
  set (s1 := clearTimeout (timeout request) s).
  set (s2 := if truthy error then _ else _).
  assert (Hframe : pendingRequests s2 = pendingRequests s ∧
                   length (timers s2) = length (timers s) ∧
                   length (promises s2) = length (promises s)).
  { subst s2. destruct (truthy error); [|destruct (truthy result)].
    - destruct (settle_frame (reject request) (Rejected (new_Error (to_string error))) s1)
        as (-> & -> & _).
      rewrite settle_length. subst s1. simpl. by rewrite length_insert.
    - destruct (settle_frame (resolve request) (Fulfilled result) s1) as (-> & -> & _).
      rewrite settle_length. subst s1. simpl. by rewrite length_insert.
    - subst s1. simpl. by rewrite length_insert. }
  destruct Hframe as (-> & -> & ->).
  intros [_ Hget]%lookup_delete_Some. by apply (Hwf id r).
Qed.

Lemma on_message_well_formed (now : Z) (f : frame) (s : state) :
  well_formed s → well_formed (on_message now f s).
Proof.
  intros Hwf.
  destruct (on_message_cases now f s)
    as [->|(key & request & _ & _ & Hget & [->|(result & error & ->)])]; [done| |].
  - by apply extend_deadline_well_formed.
  - by apply settle_request_well_formed.
Qed.

Lemma sendCommandToFigma_well_formed (command : string) (params : list (string * value))
  (timeoutMs : Z) (id : string) (now : Z) (s : state) :
  is_OPEN (ws s) = true →
  well_formed s →
  well_formed (snd (sendCommandToFigma reconnectInterval defaultPort
                      command params timeoutMs id now (Normal tt) s)).
Proof.
  intros Hopen Hwf id' r. unfold sendCommandToFigma, new_Promise. simpl.
  rewrite Hopen. simpl.
  destruct (negb (command =? "join") && negb (joined (currentChannel s))); simpl.
  - destruct (settle_frame (length (promises s))
      (Rejected (new_Error
         "Must join a channel before sending commands. Use auto_connect or join_channel."))
      (set_promises (λ ps, ps ++ [Pending]) s)) as (-> & -> & _).
    rewrite settle_length. simpl. rewrite length_app. simpl.
    intros Hget. destruct (Hwf id' r Hget) as (? & ? & ?). lia.
  - rewrite !length_app. simpl.
    destruct (decide (id = id')) as [<-|Hne].
    + rewrite lookup_insert_eq. intros [= <-]. simpl. lia.
    + rewrite lookup_insert_ne by done. intros Hget.
      destruct (Hwf id' r Hget) as (? & ? & ?). lia.
Qed.

Lemma initial_well_formed : well_formed initial.
Proof. intros id r. simpl. by rewrite lookup_empty. Qed.

End ClientFacts.

(** * The client's table, timers and promises in every run *)
Section ClientRuns.
Import Js Eff Client.
Variable reconnectInterval : Z.
Variable defaultPort : Z.

Lemma request_timer_same (cb : callback) (id id' : string) (p p' : promise) :
  request_timer cb id p → request_timer cb id' p' → id = id' ∧ p = p'.
Proof. intros [->| ->] [H|H]; by inversion H. Qed.

Lemma armed_ext (h : timer) (s s' : state) :
  timers s' = timers s → armed h s' = armed h s.
Proof. unfold armed. by intros ->. Qed.

Lemma consistent_frame (s s' : state) :
  pendingRequests s' = pendingRequests s → timers s' = timers s →
  promises s' = promises s →
  consistent s → consistent s'.
Proof.
  intros Ht Htm Hp (Hentry & Htimer & Hapart). unfold consistent.
  rewrite Ht, Hp. split_and!.
  - intros id r Hget. destruct (Hentry id r Hget) as (? & ? & t & Ht' & ?).
    split_and!; [done|done|]. exists t. by rewrite (armed_ext _ s s').
  - intros h t id p. rewrite (armed_ext _ s s') by done. apply Htimer.
  - done.
Qed.

Lemma consistent_timers_apart (s : state) (id id' : string) (r r' : PendingRequest) :
  consistent s →
  pendingRequests s !! id = Some r → pendingRequests s !! id' = Some r' →
  timeout r = timeout r' → id = id'.
Proof.
  intros (Hentry & _ & _) Hr Hr' Heq.
  destruct (Hentry id r Hr) as (_ & _ & t & Ht & Hcb).
  destruct (Hentry id' r' Hr') as (_ & _ & t' & Ht' & Hcb').
  rewrite Heq, Ht' in Ht. injection Ht as <-.
  by destruct (request_timer_same _ _ _ _ _ Hcb Hcb').
Qed.

Lemma consistent_well_formed (s : state) : consistent s → well_formed s.
Proof.
  intros (Hentry & _ & _) id r Hget.
  destruct (Hentry id r Hget) as (Hres & Hp & t & Ht & _).
  apply armed_lt in Ht. apply lookup_lt_Some in Hp. rewrite Hres. lia.
Qed.

(** Arming a timer that is not a request timer. *)
Lemma consistent_setTimeout (cb : callback) (ms : Z) (s : state) :
  (∀ id p, ¬ request_timer cb id p) →
  consistent s → consistent (snd (setTimeout cb ms s)).
Proof.
  intros Hcb (Hentry & Htimer & Hapart). unfold consistent, setTimeout. simpl.
  assert (Harmed : ∀ h t, armed h s = Some t →
            armed h (set_timers (λ ts, ts ++ [Some (mkTimeout ms cb)]) s) = Some t).
  { intros h t Ht. pose proof (armed_lt _ _ _ Ht). unfold armed in *. simpl.
    by rewrite lookup_app_l. }
  split_and!.
  - intros id r Hget. destruct (Hentry id r Hget) as (? & ? & t & Ht & ?).
    split_and!; [done|done|]. exists t. split; [by apply Harmed | done].
  - intros h t id p Ht Hreq.
    destruct (decide (h < length (timers s))%nat) as [Hlt|Hge].
    + apply (Htimer h t id p); [|done]. unfold armed in *. simpl in Ht.
      by rewrite lookup_app_l in Ht.
    + exfalso. unfold armed in Ht. simpl in Ht.
      rewrite lookup_app_r in Ht by lia.
      destruct (h - length (timers s))%nat as [|n]; simpl in Ht.
      * injection Ht as <-. by apply (Hcb id p).
      * done.
  - done.
Qed.

(** Clearing a timer that is not a request timer. *)
Lemma consistent_clear (h : timer) (s : state) :
  (∀ t id p, armed h s = Some t → ¬ request_timer (action t) id p) →
  consistent s → consistent (set_timers (λ ts, <[h := None]> ts) s).
Proof.
  intros Hh (Hentry & Htimer & Hapart). unfold consistent.
  change (set_timers (λ ts, <[h := None]> ts) s) with (clearTimeout h s).
  split_and!.
  - intros id r Hget. destruct (Hentry id r Hget) as (? & ? & t & Ht & Hreq).
    split_and!; [done|done|]. exists t. split; [|done].
    rewrite armed_clearTimeout. case_decide as Heq; [|done].
    subst h. exfalso. by eapply Hh.
  - intros h' t id p. rewrite armed_clearTimeout. case_decide; [done|].
    apply Htimer.
  - done.
Qed.

(** Removing an entry, with its timer, whatever becomes of its promise. *)
Lemma consistent_remove (key : string) (request : PendingRequest) (s s' : state) :
  consistent s →
  pendingRequests s !! key = Some request →
  pendingRequests s' = delete key (pendingRequests s) →
  timers s' = <[timeout request := None]> (timers s) →
  (∀ p, p ≠ reject request → promises s' !! p = promises s !! p) →
  consistent s'.
Proof.
  intros Hs Hkey Htable Htimers Hpromises.
  pose proof Hs as (Hentry & Htimer & Hapart).
  assert (Harmed : ∀ h, armed h s' = if decide (h = timeout request) then None else armed h s).
  { intros h. rewrite <- armed_clearTimeout. by apply armed_ext. }
  unfold consistent. rewrite Htable. split_and!.
  - intros id r [Hne Hget]%lookup_delete_Some.
    destruct (Hentry id r Hget) as (Hres & Hp & t & Ht & Hreq).
    split_and!; [done| |].
    + rewrite Hpromises; [done|]. intros Heq.
      apply Hne. symmetry. by eapply Hapart.
    + exists t. split; [|done]. rewrite Harmed. case_decide as Heq; [|done].
      exfalso. apply Hne. symmetry. by eapply consistent_timers_apart.
  - intros h t id p. rewrite Harmed. case_decide as Hh; [done|].
    intros Ht Hreq. destruct (Htimer h t id p Ht Hreq) as (r & Hget & Hto & Hrej).
    exists r. split_and!; [|done|done].
    apply lookup_delete_Some. split; [|done].
    intros <-. rewrite Hkey in Hget. injection Hget as <-. done.
  - intros id r id' r' [_ Hget]%lookup_delete_Some [_ Hget']%lookup_delete_Some.
    by apply Hapart.
Qed.

Lemma consistent_settle_request (key : string) (request : PendingRequest)
  (result error : value) (s : state) :
  consistent s → pendingRequests s !! key = Some request →
  consistent (settle_request key request result error s).
Proof.
  intros Hs Hkey. pose proof Hs as (Hentry & _ & _).
  destruct (Hentry key request Hkey) as (Hres & _).
  apply (consistent_remove key request s); try done.
  - unfold settle_request. simpl.
    destruct (truthy error); [|destruct (truthy result)]; try done.
    + by destruct (settle_frame (reject request) (Rejected (new_Error (to_string error)))
                     (clearTimeout (timeout request) s)) as (-> & _).
    + by destruct (settle_frame (resolve request) (Fulfilled result)
                     (clearTimeout (timeout request) s)) as (-> & _).
  - unfold settle_request. simpl.
    destruct (truthy error); [|destruct (truthy result)]; try done.
    + by destruct (settle_frame (reject request) (Rejected (new_Error (to_string error)))
                     (clearTimeout (timeout request) s)) as (_ & -> & _).
    + by destruct (settle_frame (resolve request) (Fulfilled result)
                     (clearTimeout (timeout request) s)) as (_ & -> & _).
  - intros p Hp. unfold settle_request. simpl.
    destruct (truthy error); [|destruct (truthy result)]; try done.
    + by rewrite settle_other.
    + rewrite settle_other; [done|]. by rewrite Hres.
Qed.

Lemma consistent_request_timed_out (id : string) (p : promise) (h : timer)
  (t : Timeout) (s : state) :
  consistent s → armed h s = Some t → request_timer (action t) id p →
  consistent (request_timed_out id p (set_timers (λ ts, <[h := None]> ts) s)).
Proof.
  intros Hs Ht Hreq. pose proof Hs as (_ & Htimer & _).
  destruct (Htimer h t id p Ht Hreq) as (r & Hget & Hto & Hrej).
  unfold request_timed_out. simpl. rewrite Hget.
  apply (consistent_remove id r s); try done.
  - by destruct (settle_frame p (Rejected (new_Error "Request to Figma timed out"))
                   (set_pendingRequests (delete id)
                      (set_timers (λ ts, <[h := None]> ts) s))) as (-> & _).
  - destruct (settle_frame p (Rejected (new_Error "Request to Figma timed out"))
                (set_pendingRequests (delete id)
                   (set_timers (λ ts, <[h := None]> ts) s))) as (_ & -> & _).
    simpl. by rewrite Hto.
  - intros p' Hp'. rewrite settle_other; [done|]. by rewrite <- Hrej.
Qed.


Lemma consistent_extend_deadline (now : Z) (key : string) (request : PendingRequest)
  (s : state) :
  consistent s → pendingRequests s !! key = Some request →
  consistent (extend_deadline now key request s).
Proof.
  intros Hs Hkey. pose proof Hs as (Hentry & Htimer & Hapart).
  destruct (Hentry key request Hkey) as (Hres & Hp & t0 & Ht0 & Hreq0).
  pose proof (armed_lt _ _ _ Ht0) as Hlt0.
  unfold extend_deadline, setTimeout. simpl. rewrite length_insert.
  set (new := mkTimeout 120000 (ProgressTimeout key (reject request))).
  set (s' := set_pendingRequests _ _).
  assert (Harmed : ∀ h, armed h s' =
            if decide (h = length (timers s)) then Some new
            else if decide (h = timeout request) then None else armed h s).
  { intros h. unfold armed, s'. simpl. case_decide as Hh.
    - subst h. by rewrite lookup_app_r, length_insert, Nat.sub_diag
        by (rewrite length_insert; lia).
    - destruct (decide (h < length (timers s))%nat) as [Hlt|Hge].
      + rewrite lookup_app_l by (rewrite length_insert; lia).
        case_decide as Hh'.
        * subst h. by rewrite list_lookup_insert_eq.
        * by rewrite list_lookup_insert_ne.
      + rewrite lookup_app_r by (rewrite length_insert; lia).
        rewrite length_insert.
        destruct (h - length (timers s))%nat as [|n] eqn:E; [lia|]. simpl.
        case_decide; [done|].
        destruct (timers s !! h) as [x|] eqn:Hx; [|done].
        apply lookup_lt_Some in Hx. lia. }
  unfold consistent. split_and!.
  - intros id r. unfold s' at 1. simpl.
    destruct (decide (key = id)) as [<-|Hne].
    + rewrite lookup_insert_eq. intros [= <-]. simpl.
      split_and!; [done|done|]. exists new. rewrite Harmed.
      rewrite decide_True by done. split; [done|]. by right.
    + rewrite lookup_insert_ne by done. intros Hget.
      destruct (Hentry id r Hget) as (? & ? & t & Ht & Hreq).
      split_and!; [done|done|]. exists t. split; [|done].
      rewrite Harmed. pose proof (armed_lt _ _ _ Ht).
      rewrite decide_False by lia. rewrite decide_False; [done|].
      intros Heq. apply Hne. by eapply consistent_timers_apart.
  - intros h t id p. rewrite Harmed. case_decide as Hh.
    + intros [= <-] Hreq. simpl in Hreq.
      destruct (request_timer_same _ _ _ _ _ Hreq (or_intror eq_refl)) as [-> ->].
      eexists. unfold s'. simpl. rewrite lookup_insert_eq. done.
    + case_decide as Hh'; [done|]. intros Ht Hreq.
      destruct (Htimer h t id p Ht Hreq) as (r & Hget & Hto & Hrej).
      exists r. split_and!; [|done|done].
      unfold s'. simpl. rewrite lookup_insert_ne; [done|].
      intros <-. rewrite Hkey in Hget. injection Hget as <-. done.
  - intros id r id' r'. unfold s'. simpl.
    destruct (decide (key = id)) as [<-|Hne]; destruct (decide (key = id')) as [<-|Hne'];
      rewrite ?lookup_insert_eq, ?lookup_insert_ne by done; try done.
    + intros [= <-] Hget'. simpl. intros Heq. by eapply Hapart.
    + intros Hget [= <-]. simpl. intros Heq. by eapply Hapart.
    + apply Hapart.
Qed.

Lemma consistent_on_message (now : Z) (f : frame) (s : state) :
  consistent s → consistent (on_message now f s).
Proof.
  intros Hs.
  destruct (on_message_cases now f s)
    as [->|(key & request & _ & _ & Hget & [->|(result & error & ->)])]; [done| |].
  - by apply consistent_extend_deadline.
  - by apply consistent_settle_request.
Qed.

(** Promises that no entry waits on may be created and settled. *)
Lemma consistent_promises (s s' : state) :
  pendingRequests s' = pendingRequests s → timers s' = timers s →
  (∀ id r, pendingRequests s !! id = Some r →
     promises s' !! reject r = promises s !! reject r) →
  consistent s → consistent s'.
Proof.
  intros Htable Htimers Hp (Hentry & Htimer & Hapart).
  unfold consistent. rewrite Htable. split_and!.
  - intros id r Hget. destruct (Hentry id r Hget) as (? & Hpend & t & Ht & ?).
    split_and!; [done| |].
    + by rewrite (Hp id r Hget).
    + exists t. by rewrite (armed_ext _ s s').
  - intros h t id p. rewrite (armed_ext _ s s') by done. apply Htimer.
  - done.
Qed.

Lemma consistent_new_Promise (s : state) :
  consistent s → consistent (set_promises (λ ps, ps ++ [Pending]) s).
Proof.
  intros Hs. apply (consistent_promises s); try done.
  intros id r Hget. simpl. destruct Hs as (Hentry & _).
  destruct (Hentry id r Hget) as (_ & Hpend & _).
  rewrite lookup_app_l; [done|]. by eapply lookup_lt_Some.
Qed.

Lemma consistent_settle_unused (p : promise) (o : settlement) (s : state) :
  (∀ id r, pendingRequests s !! id = Some r → reject r ≠ p) →
  consistent s → consistent (settle p o s).
Proof.
  intros Hunused Hs.
  destruct (settle_frame p o s) as (Htable & Htimers & _).
  apply (consistent_promises s); try done.
  intros id r Hget. apply settle_other. by eapply Hunused.
Qed.

Lemma connectToFigma_frame (port : Z) (ctor : completion unit) (s : state) :
  pendingRequests (connectToFigma reconnectInterval port ctor s) = pendingRequests s ∧
  promises (connectToFigma reconnectInterval port ctor s) = promises s.
Proof.
  unfold connectToFigma. destruct (ws s) as [[| | |]|]; destruct ctor; done.
Qed.

Lemma consistent_connectToFigma (port : Z) (ctor : completion unit) (s : state) :
  consistent s → consistent (connectToFigma reconnectInterval port ctor s).
Proof.
  intros Hs. unfold connectToFigma.
  assert (Hnew : ∀ s0 : state, consistent s0 →
            consistent match ctor with
                       | Normal _ =>
                           snd (setTimeout ConnectionTimeout 10000 (set_ws (Some CONNECTING) s0))
                       | Abrupt _ =>
                           snd (setTimeout (Reconnect port) reconnectInterval s0)
                       end).
  { intros s0 Hs0. destruct ctor.
    - apply consistent_setTimeout; [intros id p [H|H]; done|].
      by apply (consistent_frame s0).
    - apply consistent_setTimeout; [intros id p [H|H]; done | done]. }
  destruct (ws s) as [[| | |]|]; try done; apply Hnew; by apply (consistent_frame s).
Qed.

Lemma consistent_on_open (connectionTimeout : timer) (s : state) :
  connection_timer connectionTimeout s →
  consistent s → consistent (on_open connectionTimeout s).
Proof.
  intros Hct Hs. unfold on_open.
  assert (H1 : consistent (set_currentChannel None (clearTimeout connectionTimeout s))).
  { apply (consistent_frame (clearTimeout connectionTimeout s)); try done.
    apply consistent_clear; [|done].
    intros t id p Ht [H|H]; rewrite (Hct t Ht) in H; done. }
  simpl. destruct (autoConnectEnabled s); [|done].
  apply consistent_setTimeout; [intros id p [H|H]; done | done].
Qed.

Lemma reject_closed_fold_armed (l : list (string * PendingRequest)) (s : state)
  (h : timer) (t : Timeout) :
  armed h (fold_left reject_closed l s) = Some t → armed h s = Some t.
Proof.
  revert s. induction l as [|[id request] l IH]; intros s; simpl; [done|].
  intros Ht. apply IH in Ht. unfold reject_closed in Ht.
  rewrite (armed_ext h (clearTimeout (timeout request) s)) in Ht.
  - rewrite armed_clearTimeout in Ht. by case_decide.
  - simpl. by destruct (settle_frame (reject request) (Rejected (new_Error "Connection closed"))
                          (clearTimeout (timeout request) s)) as (_ & -> & _).
Qed.

Lemma consistent_on_close (connectionTimeout : timer) (port k : Z) (s : state) :
  consistent s → consistent (on_close reconnectInterval connectionTimeout port k s).
Proof.
  intros (Hentry & Htimer & Hapart).
  destruct (close_rejects_all_from reconnectInterval connectionTimeout port k s)
    as [Hempty _].
  unfold consistent. rewrite Hempty. split_and!.
  - intros id r. by rewrite lookup_empty.
  - intros h t id p Ht Hreq. exfalso.
    unfold on_close, setTimeout in Ht. simpl in Ht.
    set (s0 := set_ws None (clearTimeout connectionTimeout s)) in *.
    set (s1 := fold_left reject_closed (map_to_list (pendingRequests s)) s0) in *.
    destruct (decide (h < length (timers s1))%nat) as [Hlt|Hge].
    + assert (Ht1 : armed h s1 = Some t).
      { unfold armed in *. simpl in Ht. by rewrite lookup_app_l in Ht. }
      pose proof (reject_closed_fold_armed _ _ _ _ Ht1) as Ht0.
      assert (Hts : armed h s = Some t).
      { rewrite (armed_ext h (clearTimeout connectionTimeout s)) in Ht0 by done.
        rewrite armed_clearTimeout in Ht0. by case_decide. }
      destruct (Htimer h t id p Hts Hreq) as (r & Hget & Hto & _).
      assert (Hin : (id, r) ∈ map_to_list (pendingRequests s))
        by by apply elem_of_map_to_list.
      pose proof (reject_closed_fold_disarms _ s0 id r Hin) as Hdis.
      fold s1 in Hdis. rewrite Hto in Hdis. congruence.
    + unfold armed in Ht. simpl in Ht. rewrite lookup_app_r in Ht by lia.
      destruct (h - length (timers s1))%nat as [|n]; simpl in Ht; [|done].
      injection Ht as <-. destruct Hreq as [H|H]; done.
  - intros id r id' r'. by rewrite lookup_empty.
Qed.


Lemma consistent_sendCommandToFigma (command : string) (params : list (string * value))
  (timeoutMs : Z) (id : string) (now : Z) (ctor : completion unit) (s : state) :
  pendingRequests s !! id = None →
  consistent s →
  consistent (snd (sendCommandToFigma reconnectInterval defaultPort
                     command params timeoutMs id now ctor s)).
Proof.
  intros Hfresh Hs. unfold sendCommandToFigma, new_Promise. simpl.
  destruct (negb (is_OPEN (ws s))) eqn:Hopen; simpl.
  { pose proof (consistent_new_Promise s Hs) as H0.
    set (s0 := set_promises (λ ps, ps ++ [Pending]) s) in *.
    pose proof (consistent_connectToFigma defaultPort ctor s0 H0) as H1.
    destruct (connectToFigma_frame defaultPort ctor s0) as [Htable Hprom].
    apply consistent_settle_unused; [|done].
    intros id0 r. rewrite Htable. simpl. intros Hget.
    destruct Hs as (Hentry & _). destruct (Hentry id0 r Hget) as (_ & Hp0 & _).
    apply lookup_lt_Some in Hp0. lia. }
  destruct (negb (command =? "join") && negb (joined (currentChannel s))); simpl.
  { apply consistent_settle_unused; [|by apply consistent_new_Promise].
    intros id0 r. simpl. intros Hget.
    destruct Hs as (Hentry & _). destruct (Hentry id0 r Hget) as (_ & Hp0 & _).
    apply lookup_lt_Some in Hp0. lia. }
  pose proof Hs as (Hentry & Htimer & Hapart).
  set (p := length (promises s)). set (h := length (timers s)).
  set (s' := ws_send _ _).
  assert (Harmed : ∀ h0, armed h0 s' =
            if decide (h0 = h) then Some (mkTimeout timeoutMs (CommandTimeout id p))
            else armed h0 s).
  { intros h0. unfold armed, s'. simpl. case_decide as Hh.
    - subst h0. by rewrite lookup_app_r, Nat.sub_diag by (unfold h; lia).
    - destruct (decide (h0 < h)%nat) as [Hlt|Hge].
      + by rewrite lookup_app_l by done.
      + rewrite lookup_app_r by (unfold h in *; lia).
        destruct (h0 - length (timers s))%nat as [|n] eqn:E; [unfold h in *; lia|]. simpl.
        destruct (timers s !! h0) as [x|] eqn:Hx; [|done].
        apply lookup_lt_Some in Hx. unfold h in *. lia. }
  unfold consistent. split_and!.
  - intros id0 r. unfold s' at 1. simpl.
    destruct (decide (id = id0)) as [<-|Hne].
    + rewrite lookup_insert_eq. intros [= <-]. simpl.
      split_and!; [done| |].
      * unfold s'. simpl. by rewrite lookup_app_r, Nat.sub_diag by (unfold p; lia).
      * eexists. rewrite Harmed, decide_True by done. split; [done|]. by left.
    + rewrite lookup_insert_ne by done. intros Hget.
      destruct (Hentry id0 r Hget) as (? & Hpend & t & Ht & Hreq).
      split_and!; [done| |].
      * unfold s'. simpl. rewrite lookup_app_l; [done|]. by eapply lookup_lt_Some.
      * exists t. split; [|done]. rewrite Harmed.
        pose proof (armed_lt _ _ _ Ht). rewrite decide_False; [done|]. unfold h. lia.
  - intros h0 t id0 p0. rewrite Harmed. case_decide as Hh.
    + intros [= <-] Hreq. simpl in Hreq.
      destruct (request_timer_same _ _ _ _ _ Hreq (or_introl eq_refl)) as [-> ->].
      eexists. unfold s'. simpl. rewrite lookup_insert_eq. done.
    + intros Ht Hreq. destruct (Htimer h0 t id0 p0 Ht Hreq) as (r & Hget & Hto & Hrej).
      exists r. split_and!; [|done|done].
      unfold s'. simpl. rewrite lookup_insert_ne; [done|].
      intros <-. congruence.
  - intros id0 r id' r'. unfold s'. simpl.
    destruct (decide (id = id0)) as [<-|Hne]; destruct (decide (id = id')) as [<-|Hne'];
      rewrite ?lookup_insert_eq, ?lookup_insert_ne by done; try done.
    + intros [= <-] Hget'. simpl. intros Heq. exfalso.
      destruct (Hentry id' r' Hget') as (_ & Hp' & _).
      apply lookup_lt_Some in Hp'. unfold p in Heq. lia.
    + intros Hget [= <-]. simpl. intros Heq. exfalso.
      destruct (Hentry id0 r Hget) as (_ & Hp0 & _).
      apply lookup_lt_Some in Hp0. unfold p in Heq. lia.
    + apply Hapart.
Qed.

Lemma consistent_joinChannel (channelName id : string) (now : Z)
  (ctor : completion unit) (s : state) :
  pendingRequests s !! id = None →
  consistent s →
  consistent (snd (joinChannel reconnectInterval defaultPort channelName id now ctor s)).
Proof.
  intros Hfresh Hs. unfold joinChannel. destruct (negb (is_OPEN (ws s))); [done|].
  pose proof (consistent_sendCommandToFigma "join" [("channel", VStr channelName)]
                60000 id now ctor s Hfresh Hs) as H.
  by destruct (sendCommandToFigma _ _ _ _ _ _ _ _ _).
Qed.

Lemma consistent_joinChannel_resume (channelName : string) (p : promise) (s : state) :
  consistent s → consistent (snd (joinChannel_resume channelName p s)).
Proof.
  intros Hs. unfold joinChannel_resume.
  destruct (promise_state p s); done.
Qed.

Lemma consistent_autoConnect (id : string) (now : Z) (ctor : completion unit) (s : state) :
  pendingRequests s !! id = None →
  consistent s →
  consistent (snd (autoConnect reconnectInterval defaultPort id now ctor s)).
Proof.
  intros Hfresh Hs. unfold autoConnect.
  destruct (length _ =? 0)%nat; [done|].
  destruct (joined (currentChannel s)); [done|].
  destruct (length _ =? 1)%nat; [|done].
  pose proof (consistent_joinChannel
                (default "" (head (Server.getActiveChannels (relay s))))
                id now ctor s Hfresh Hs) as H.
  by destruct (joinChannel _ _ _ _ _ _ _) as [[| |] ?].
Qed.

Lemma consistent_tryAutoConnect (id : string) (now : Z) (ctor : completion unit)
  (s : state) :
  pendingRequests s !! id = None →
  consistent s →
  consistent (snd (tryAutoConnect reconnectInterval defaultPort id now ctor s)).
Proof.
  intros Hfresh Hs. unfold tryAutoConnect.
  destruct (Server.getActiveChannels (relay s)) as [|only [|]]; try done.
  destruct (negb (joined (currentChannel s))); [|done].
  pose proof (consistent_joinChannel only id now ctor s Hfresh Hs) as H.
  by destruct (joinChannel _ _ _ _ _ _ _) as [[| |] ?].
Qed.

Lemma consistent_fire (h : timer) (id : string) (now : Z) (ctor : completion unit)
  (s : state) :
  pendingRequests s !! id = None →
  consistent s →
  consistent (snd (fire reconnectInterval defaultPort h id now ctor s)).
Proof.
  intros Hfresh Hs. unfold fire.
  destruct (armed h s) as [t|] eqn:Ht; [|done].
  destruct (action t) as [| |port|id0 p|id0 p] eqn:Hact; simpl.
  - assert (H1 : consistent (set_timers (λ ts, <[h:=None]> ts) s)).
    { apply consistent_clear; [|done].
      intros t' id' p' Ht' [H|H]; rewrite Ht in Ht'; injection Ht' as <-;
        rewrite Hact in H; done. }
    destruct (ws s) as [[| | |]|]; done.
  - apply consistent_tryAutoConnect; [done|].
    apply consistent_clear; [|done].
    intros t' id' p' Ht' [H|H]; rewrite Ht in Ht'; injection Ht' as <-;
      rewrite Hact in H; done.
  - apply consistent_connectToFigma.
    apply consistent_clear; [|done].
    intros t' id' p' Ht' [H|H]; rewrite Ht in Ht'; injection Ht' as <-;
      rewrite Hact in H; done.
  - apply (consistent_request_timed_out id0 p h t); [done|done|].
    rewrite Hact. by left.
  - apply (consistent_request_timed_out id0 p h t); [done|done|].
    rewrite Hact. by right.
Qed.

Lemma consistent_step (s s' : state) :
  step reconnectInterval defaultPort s s' → consistent s → consistent s'.
Proof.
  intros Hstep Hs. destruct Hstep.
  - unfold initializeWebSocket.
    destruct (Server.startWebSocketServer port serve (relay s)) as [[running|] srv].
    + apply consistent_connectToFigma. by apply (consistent_frame s).
    + by apply (consistent_frame s).
  - by apply consistent_connectToFigma.
  - by apply (consistent_frame s).
  - by apply consistent_on_open.
  - by apply consistent_on_message.
  - by apply consistent_on_close.
  - by apply consistent_sendCommandToFigma.
  - by apply consistent_joinChannel.
  - by apply consistent_joinChannel_resume.
  - by apply consistent_autoConnect.
  - unfold disconnect. destruct (negb (joined (currentChannel s))); [done|].
    by apply (consistent_frame s).
  - by apply (consistent_frame s).
  - by apply consistent_fire.
  - by apply (consistent_frame s).
Qed.

Lemma initial_consistent : consistent initial.
Proof.
  split_and!.
  - intros id r. simpl. by rewrite lookup_empty.
  - intros h t id p. unfold armed. simpl. done.
  - intros id r id' r'. simpl. by rewrite lookup_empty.
Qed.

Lemma reachable_consistent (s : state) :
  reachable reconnectInterval defaultPort s → consistent s.
Proof.
  unfold reachable. revert s.
  apply (rtc_ind_r (λ s, consistent s)); [apply initial_consistent|].
  intros s s' _ Hstep Hs. by eapply consistent_step.
Qed.


Lemma reachable_receive_all (frames : list (Z * frame)) (s : state) :
  reachable reconnectInterval defaultPort s →
  reachable reconnectInterval defaultPort (receive_all frames s).
Proof.
  unfold receive_all. revert s.
  induction frames as [|[now f] frames IH]; intros s Hs; simpl; [done|].
  apply IH. eapply rtc_r; [exact Hs|]. apply step_message.
Qed.

Lemma reachable_relay_run (os : list Server.occurrence) (s : state) :
  reachable reconnectInterval defaultPort s →
  reachable reconnectInterval defaultPort (relay_run os s).
Proof.
  unfold relay_run. revert s.
  induction os as [|o os IH]; intros s Hs; simpl; [done|].
  apply IH. eapply rtc_r; [exact Hs|]. apply step_relay.
Qed.

(** ** C3 and C4 *)

(** C3: in every run, a request created by [sendCommandToFigma] that
    receives neither a matching resolution nor a matching progress update
    (no inbound frame answers it; frames for other requests, the relay's
    echo of the command, replies with an error and no result and progress
    updates without a message may all arrive) still has its timer armed and
    its promise pending; when that timer fires the entry is removed from
    the table and its promise is rejected with the timeout error; a
    response or progress update that arrives afterwards with the same id
    changes nothing. *)
Theorem unanswered_request_times_out (command : string) (params : list (string * value))
  (timeoutMs : Z) (id : string) (now : Z) (ctor : completion unit)
  (frames : list (Z * frame)) (s : state) :
  reachable reconnectInterval defaultPort s →
  is_OPEN (ws s) = true →
  command = "join" ∨ joined (currentChannel s) = true →
  Forall (fun nf => answers id (snd nf) = false) frames →
  let sent := sendCommandToFigma reconnectInterval defaultPort
                command params timeoutMs id now ctor s in
  let p := fst sent in
  let h := length (timers s) in
  let s2 := receive_all frames (snd sent) in
  pendingRequests (snd sent) !! id = Some (mkPendingRequest p p h now) ∧
  armed h s2 = Some (mkTimeout timeoutMs (CommandTimeout id p)) ∧
  promise_state p s2 = Pending ∧
  ∀ id' now' ctor',
    let s3 := snd (fire reconnectInterval defaultPort h id' now' ctor' s2) in
    pendingRequests s3 !! id = None ∧
    promise_state p s3 = Rejected (new_Error "Request to Figma timed out") ∧
    ∀ now'' f, addresses id f = true →
      on_message now'' f s3 = s3 ∧
      promise_state p (on_message now'' f s3) =
        Rejected (new_Error "Request to Figma timed out").
Proof.
  intros Hrun. apply request_times_out_from.
  by apply consistent_well_formed, reachable_consistent.
Qed.


End ClientRuns.

(** * The properties at work in the session *)
Section Session.
Import Js Scenario.


(** C2 as stated fails: a [progress_update] with the id of a pending request
    and no [message] re-arms nothing, and the request times out on its
    original timer. *)
Lemma progress_without_message_rearms_nothing :
  let s' := Client.on_message 180 progress_without_message command_sent in
  Client.addresses "r1" progress_without_message = true ∧
  Client.pendingRequests s' !! "r1" = Some (Client.mkPendingRequest 1 1 3 100) ∧
  Client.timers s' = Client.timers command_sent ∧
  Client.armed 3 s' = Some (Client.mkTimeout 100 (Client.CommandTimeout "r1" 1)) ∧
  Client.promise_state 1
    (snd (Client.fire reconnectInterval defaultPort 3 "u9" 200 (Normal tt) s')) =
    Client.Rejected (new_Error "Request to Figma timed out").
Proof. vm_compute. repeat split. Qed.

(** C8 as stated fails: with a channel joined and no channel active,
    [autoConnect()] reports failure. *)
Lemma autoConnect_fails_although_joined :
  Client.currentChannel after_close = Some "design" ∧
  Server.getActiveChannels (Client.relay after_close) = [] ∧
  fst (Client.autoConnect reconnectInterval defaultPort "u2" 900 (Normal tt) after_close) =
    Client.Returned (Client.mkAutoConnectResult false None
      "No Figma plugins connected. Please run the Figma plugin first." None).
Proof. vm_compute. repeat split. Qed.

(** C9 as stated fails: a frame without a [type] gets no answer and is not
    counted as an error. *)
Lemma frame_without_type_gets_no_answer :
  let r := Server.message all_open no_send_error 2 untyped_frame relay_after_join in
  fst r = Eff.Ret tt ∧
  Server.wire (snd r) = Server.wire relay_after_join ∧
  Server.errors (Server.stats (snd r)) = Server.errors (Server.stats relay_after_join).
Proof. vm_compute. repeat split. Qed.



(** The amended C2 in the session: the request sent at 100 with a timeout
    of 100 ms gets a progress update at 180 and its result at 250. *)
Lemma progress_update_rearms_timer_witness :
  let s' := Client.on_message 180 (progress_frame "r1") command_sent in
  Client.promises s' = Client.promises command_sent ∧
  Client.pendingRequests s' !! "r1" = Some (Client.mkPendingRequest 1 1 4 180) ∧
  Client.armed 4 s' = Some (Client.mkTimeout 120000 (Client.ProgressTimeout "r1" 1)) ∧
  Client.armed 3 s' = None ∧
  Client.fire reconnectInterval defaultPort 3 "u9" 200 (Normal tt) s' = (Client.Returned tt, s') ∧
  Client.promise_state 1 (Client.on_message 250 result_response s') =
    Client.Fulfilled (VObj [("name", VStr "Document")]).
Proof.
  destruct (progress_update_rearms_timer reconnectInterval defaultPort 180
    (VObj [("type", VStr "progress_update"); ("id", VStr "r1");
           ("channel", VStr "design");
           ("message", VObj [("data", VObj [("commandType", VStr "scan");
                                            ("progress", VNum 40);
                                            ("message", VStr "scanning")])])])
    (VObj [("data", VObj [("commandType", VStr "scan");
                          ("progress", VNum 40);
                          ("message", VStr "scanning")])])
    "r1" (Client.mkPendingRequest 1 1 3 100) command_sent)
    as (Hpromises & Htable & _ & Hnew & Hold);
    [reflexivity | reflexivity | discriminate | discriminate | reflexivity
    | discriminate | vm_compute; reflexivity |].
  destruct (Hold (Client.mkTimeout 100 (Client.CommandTimeout "r1" 1)))
    as [Hdisarmed Hfire]; [vm_compute; reflexivity|].
  split_and!.
  - exact Hpromises.
  - change (Client.on_message 180 (progress_frame "r1") command_sent)
      with (Client.on_message 180
              (Parsed (VObj [("type", VStr "progress_update"); ("id", VStr "r1");
                 ("channel", VStr "design");
                 ("message", VObj [("data", VObj [("commandType", VStr "scan");
                                                  ("progress", VNum 40);
                                                  ("message", VStr "scanning")])])]))
              command_sent).
    rewrite Htable. vm_compute. reflexivity.
  - exact Hnew.
  - exact Hdisarmed.
  - apply Hfire.
  - vm_compute. reflexivity.
Defined.


(** The states of the session are states of a run. *)
Lemma reachable_connected : Client.reachable reconnectInterval defaultPort connected.
Proof.
  apply reachable_relay_run.
  eapply rtc_r; [|apply Client.step_open].
  - eapply rtc_r; [|apply Client.step_readyState].
    + apply reachable_relay_run. apply rtc_once. apply Client.step_initialize.
    + discriminate.
  - intros t Ht. vm_compute in Ht. injection Ht as <-. reflexivity.
Defined.

Lemma reachable_joined_design : Client.reachable reconnectInterval defaultPort joined_design.
Proof.
  eapply rtc_r; [|apply Client.step_join_resume].
  apply reachable_receive_all, reachable_relay_run.
  eapply rtc_r; [exact reachable_connected|].
  apply Client.step_autoConnect. vm_compute. reflexivity.
Defined.


(** C3 in the session: [r1] is sent at 100 with 100 ms.  The relay's echo
    of the command, a reply with an error and no result, a progress update
    without a message and frames for another request arrive; the timer
    fires, and the late result changes nothing. *)
Lemma unanswered_request_times_out_witness :
  let s2 := Client.receive_all
              [(110%Z, echoed_command);
               (120%Z, error_only_response);
               (130%Z, progress_without_message);
               (150%Z, progress_frame "r7");
               (160%Z, response "r7" [("result", VNum 1)])]
              command_sent in
  let s3 := snd (Client.fire reconnectInterval defaultPort 3 "u9" 200 (Normal tt) s2) in
  Client.armed 3 s2 = Some (Client.mkTimeout 100 (Client.CommandTimeout "r1" 1)) ∧
  Client.pendingRequests s3 !! "r1" = None ∧
  Client.promise_state 1 s3 = Client.Rejected (new_Error "Request to Figma timed out") ∧
  Client.on_message 250 result_response s3 = s3.
Proof.
  destruct (unanswered_request_times_out reconnectInterval defaultPort
    "get_document_info" [] 100 "r1" 100 (Normal tt)
    [(110%Z, echoed_command);
     (120%Z, error_only_response);
     (130%Z, progress_without_message);
     (150%Z, progress_frame "r7");
     (160%Z, response "r7" [("result", VNum 1)])]
    joined_design)
    as (_ & Harmed & _ & Hfire);
    [exact reachable_joined_design | reflexivity | right; reflexivity
    | repeat constructor |].
  destruct (Hfire "u9" 200%Z (Normal tt)) as (Hgone & Hrejected & Hlate).
  split_and!; [exact Harmed | exact Hgone | exact Hrejected |].
  apply (Hlate 250%Z result_response). reflexivity.
Defined.


(** C5 in the session: before the join, a command is refused and a [join]
    is sent. *)
Lemma command_needs_a_joined_channel_witness :
  (let r := Client.sendCommandToFigma reconnectInterval defaultPort
              "get_document_info" [] 60000 "r1" 5 (Normal tt) connected in
   Client.promise_state (fst r) (snd r) =
     Client.Rejected (new_Error
       "Must join a channel before sending commands. Use auto_connect or join_channel.") ∧
   Client.outbox (snd r) = Client.outbox connected ∧
   Client.pendingRequests (snd r) = Client.pendingRequests connected) ∧
  (let r := Client.sendCommandToFigma reconnectInterval defaultPort
              "join" [("channel", VStr "design")] 60000 "u1" 5 (Normal tt) connected in
   Client.promise_state (fst r) (snd r) = Client.Pending ∧
   length (Client.outbox (snd r)) = S (length (Client.outbox connected)) ∧
   Client.pendingRequests (snd r) !! "u1" = Some (Client.mkPendingRequest 0 0 2 5)).
Proof.
  split.
  - destruct (command_needs_a_joined_channel reconnectInterval defaultPort
      "get_document_info" [] 60000 "r1" 5 (Normal tt) connected)
      as (Hp & Hrefused & _); [reflexivity | reflexivity |].
    destruct Hrefused as (Hpromises & Houtbox & Htable & _); [discriminate|].
    split_and!; [|exact Houtbox | exact Htable].
    unfold Client.promise_state. rewrite Hpromises, Hp. reflexivity.
  - destruct (command_needs_a_joined_channel reconnectInterval defaultPort
      "join" [("channel", VStr "design")] 60000 "u1" 5 (Normal tt) connected)
      as (Hp & _ & Haccepted); [reflexivity | reflexivity |].
    destruct Haccepted as (Hpromises & Houtbox & Htable & _); [reflexivity|].
    split_and!.
    + unfold Client.promise_state. rewrite Hpromises, Hp. reflexivity.
    + rewrite Houtbox, length_app. simpl. lia.
    + rewrite Htable, Hp. apply lookup_insert_eq.
Defined.


Lemma relay_after_join_ok : Server.registry_ok (Server.channels relay_after_join).
Proof.
  vm_compute. split.
  - apply NoDup_singleton.
  - repeat constructor; try discriminate.
    + intros [[=]|H]%elem_of_cons. by apply elem_of_nil in H.
    + apply not_elem_of_nil.
Defined.

(** C7 in the session: the client (connection 1) and the plugin (2) are in
    [design]; connection 3 is not. *)
Lemma message_goes_to_the_channel_only_witness :
  (let s' := snd (Server.message all_open no_send_error 1
                    (message_frame "design" (VStr "hello")) relay_after_join) in
   drop (length (Server.wire relay_after_join)) (Server.wire s') =
     [(2, VObj [("type", VStr "broadcast"); ("message", VStr "hello");
                ("channel", VStr "design")]);
      (1, VObj [("type", VStr "broadcast"); ("message", VStr "hello");
                ("channel", VStr "design")])]) ∧
  (let s' := snd (Server.message all_open no_send_error 3
                    (message_frame "design" (VStr "hello")) relay_after_join) in
   drop (length (Server.wire relay_after_join)) (Server.wire s') =
     [(3, Server.error_envelope "You must join the channel first")]).
Proof.
  split.
  - destruct (message_goes_to_the_channel_only all_open no_send_error 1
      (VObj [("type", VStr "message"); ("channel", VStr "design");
             ("message", VStr "hello")])
      "design" (VStr "hello") relay_after_join)
      as (_ & _ & Hmember);
      [exact relay_after_join_ok | reflexivity | reflexivity | reflexivity |].
    destruct Hmember as (clients & Hget & _ & Hwire); [reflexivity|].
    injection Hget as <-.
    change (message_frame "design" (VStr "hello"))
      with (Parsed (VObj [("type", VStr "message"); ("channel", VStr "design");
                          ("message", VStr "hello")])).
    cbv zeta. rewrite Hwire, drop_app_length. reflexivity.
  - destruct (message_goes_to_the_channel_only all_open no_send_error 3
      (VObj [("type", VStr "message"); ("channel", VStr "design");
             ("message", VStr "hello")])
      "design" (VStr "hello") relay_after_join)
      as (_ & Hstranger & _);
      [exact relay_after_join_ok | reflexivity | reflexivity | reflexivity |].
    destruct Hstranger as (reason & rest & Hwire & _); [reflexivity|].
    vm_compute. reflexivity.
Defined.


(** The amended C8 in the session: with [design] as the only active
    channel and none joined, [autoConnect()] writes the join and, once the
    relay has confirmed it, reports success; called again, it reports the
    channel already joined. *)
Lemma autoConnect_cases_witness :
  fst (Client.autoConnect reconnectInterval defaultPort "u1" 10 (Normal tt) connected) =
    Client.Suspended 0 ∧
  fst (Client.autoConnect_resume "design" 0 confirmed) =
    Client.Returned (Client.join_succeeded "design") ∧
  Client.autoConnect reconnectInterval defaultPort "u2" 30 (Normal tt) joined_design =
    (Client.Returned (Client.mkAutoConnectResult true (Some "design")
                        "Already connected to channel: design" None),
     joined_design).
Proof.
  split_and!.
  - destruct (autoConnect_cases reconnectInterval defaultPort "u1" 10 (Normal tt) connected)
      as (_ & _ & Hone & _).
    destruct (Hone "design") as [_ Hopen]; [reflexivity | reflexivity |].
    destruct Hopen as (Hr & _); [reflexivity|].
    rewrite Hr. reflexivity.
  - destruct (autoConnect_cases reconnectInterval defaultPort "u1" 10 (Normal tt) connected)
      as (_ & _ & Hone & _).
    destruct (Hone "design") as [_ Hopen]; [reflexivity | reflexivity |].
    destruct Hopen as (_ & _ & Hresume); [reflexivity|].
    destruct (Hresume confirmed) as [Hok _].
    apply (Hok (VStr "Connected to channel: design")).
    vm_compute. reflexivity.
  - destruct (autoConnect_cases reconnectInterval defaultPort "u2" 30 (Normal tt) joined_design)
      as (_ & Hjoined & _).
    apply (Hjoined "design"); [discriminate | vm_compute; reflexivity | discriminate].
Defined.

(** The amended C9 in the session: a frame that is not JSON is answered
    with an error envelope; a frame of an unknown kind is only counted. *)
Lemma unparseable_frame_gets_an_error_witness :
  (let s' := snd (Server.message all_open no_send_error 2
                    (Unparseable "Unexpected token h in JSON at position 0")
                    relay_after_join) in
   Server.wire s' = Server.wire relay_after_join ++
     [(2, Server.error_envelope
            "Error processing message: Unexpected token h in JSON at position 0")] ∧
   Server.errors (Server.stats s') = 1%Z ∧
   Server.channels s' = Server.channels relay_after_join) ∧
  Server.message all_open no_send_error 2
    (Parsed (VObj [("type", VStr "ping")])) relay_after_join =
    (Eff.Ret tt, Server.set_stats Server.inc_messagesReceived relay_after_join).
Proof.
  destruct (unparseable_frame_gets_an_error all_open no_send_error 2 relay_after_join)
    as (Hbad & Hunknown & _).
  split.
  - destruct (Hbad "Unexpected token h in JSON at position 0") as (Hwire & Herrors & Hchannels).
    split_and!; [exact Hwire | | exact Hchannels].
    cbv zeta. rewrite Herrors. reflexivity.
  - apply (Hunknown (VObj [("type", VStr "ping")]) (VStr "ping")); reflexivity.
Defined.

(** C10 in the session: the transport closes while [design] is joined. *)
Lemma close_keeps_current_channel_witness :
  let s' := Client.on_close reconnectInterval 0 defaultPort 2 joined_design in
  Client.getCurrentChannel s' = Some "design" ∧
  Client.connected (Client.getConnectionStatus s') = true ∧
  Client.currentChannel (Client.on_open 2 s') = None ∧
  Client.currentChannel (snd (Client.disconnect s')) = None.
Proof.
  destruct (close_keeps_current_channel reconnectInterval 0 defaultPort 2 joined_design)
    as (_ & Hget & Hflag & _ & Hopen & Hdisconnect).
  split_and!.
  - cbv zeta. rewrite Hget. vm_compute. reflexivity.
  - cbv zeta. rewrite Hflag. vm_compute. reflexivity.
  - apply Hopen.
  - apply Hdisconnect. vm_compute. reflexivity.
Defined.

End Session.

(** * Further properties of the relay server *)
Section ServerMore.
Import Js Eff Server Tally.

(** ** The broadcast primitive, member by member *)

Lemma broadcast_fold_effect rs se (msg : value) (ex : option conn)
  (clients : list conn) (s : state) :
  let s' := fold_left (broadcast_one rs se msg ex) clients s in
  wire s' = wire s ++ List.map (fun c => (c, msg)) (List.filter (eligible rs ex) clients) ∧
  messagesSent (stats s') =
    (messagesSent (stats s) +
     Z.of_nat (length (List.filter (send_ok se) (List.filter (eligible rs ex) clients))))%Z ∧
  errors (stats s') =
    (errors (stats s) +
     Z.of_nat (length (List.filter (fun c => negb (send_ok se c))
                                   (List.filter (eligible rs ex) clients))))%Z ∧
  totalConnections (stats s') = totalConnections (stats s) ∧
  activeConnections (stats s') = activeConnections (stats s) ∧
  messagesReceived (stats s') = messagesReceived (stats s) ∧
  currentChannel s' = currentChannel s ∧
  wsServer s' = wsServer s.
Proof.
  revert s. induction clients as [|c clients IH]; intros s; simpl.
  - rewrite app_nil_r. split_and!; try done; lia.
  - destruct (IH (broadcast_one rs se msg ex s c)) as (-> & -> & -> & -> & -> & -> & -> & ->).
    unfold broadcast_one, eligible, send, send_ok.
    destruct (negb (bool_decide (Some c = ex)) && is_open (rs c)); simpl.
    + destruct (se c); simpl; rewrite <- app_assoc; simpl; split_and!; try done; lia.
    + split_and!; try done; lia.
Qed.

(** X1: [broadcastToChannel] calls [send] once, in member order, for every
    member of the channel that is open and not excluded, whether or not
    earlier sends threw; it counts each successful send in [messagesSent]
    and each failed one in [errors], throws nothing and leaves the
    registry alone.  For a channel that does not exist it does nothing. *)
Theorem broadcast_survives_failing_sends rs se (name msg : value)
  (ex : option conn) (s : state) :
  (∀ clients, chan_get name (channels s) = Some clients →
     let r := broadcastToChannel rs se name msg ex s in
     let reached := List.filter (eligible rs ex) clients in
     fst r = Ret tt ∧
     wire (snd r) = wire s ++ List.map (fun c => (c, msg)) reached ∧
     messagesSent (stats (snd r)) =
       (messagesSent (stats s) + Z.of_nat (length (List.filter (send_ok se) reached)))%Z ∧
     errors (stats (snd r)) =
       (errors (stats s) +
        Z.of_nat (length (List.filter (fun c => negb (send_ok se c)) reached)))%Z ∧
     channels (snd r) = channels s) ∧
  (chan_get name (channels s) = None →
     broadcastToChannel rs se name msg ex s = (Ret tt, s)).
Proof.
  split.
  - intros clients Hget. unfold broadcastToChannel. rewrite Hget. simpl.
    destruct (broadcast_fold_effect rs se msg ex clients s) as (H1 & H2 & H3 & _).
    split_and!; try done. apply broadcast_fold_channels.
  - intros Hget. unfold broadcastToChannel. by rewrite Hget.
Qed.

(** ** Joining *)


Lemma joins_get (ws : conn) (name : string) (m : list (string * list conn)) :
  map_get name (joins ws name m) = Some (set_add ws (default [] (map_get name m))).
Proof.
  unfold joins, map_has. destruct (map_get name m) as [cl|] eqn:Hget; simpl.
  - by rewrite Hget, map_get_set, String.eqb_refl.
  - by rewrite map_get_set, String.eqb_refl, map_get_set, String.eqb_refl.
Qed.

Lemma joins_other (ws : conn) (name other : string) (m : list (string * list conn)) :
  other ≠ name → map_get other (joins ws name m) = map_get other m.
Proof.
  intros Hne. apply String.eqb_neq in Hne.
  unfold joins, map_has. destruct (map_get name m) as [cl|] eqn:Hget; simpl.
  - by rewrite Hget, map_get_set, Hne.
  - by rewrite map_get_set, String.eqb_refl, !map_get_set, Hne.
Qed.

Lemma eligible_others rs (ws : conn) (clients : list conn) :
  List.filter (eligible rs (Some ws)) (set_add ws clients) =
  List.filter (fun c => negb (Nat.eqb c ws) && is_open (rs c)) clients.
Proof.
  assert (Hpoint : ∀ c, eligible rs (Some ws) c = negb (Nat.eqb c ws) && is_open (rs c)).
  { intros c. unfold eligible. f_equal. f_equal.
    case_bool_decide as H; destruct (Nat.eqb_spec c ws); try done; congruence. }
  unfold set_add. destruct (set_has ws clients).
  - apply List.filter_ext. exact Hpoint.
  - rewrite List.filter_app. simpl. rewrite Hpoint, Nat.eqb_refl. simpl.
    rewrite app_nil_r. apply List.filter_ext. exact Hpoint.
Qed.


Lemma join_branch_effect rs se (ws : conn) (fields : list (string * value))
  (name : string) (s : state) :
  default VUndefined (assoc "channel" fields) = VStr name → name ≠ "" →
  se ws = None →
  join_branch rs se ws (VObj fields) s =
    broadcastToChannel rs se (VStr name)
      (VObj [("type", VStr "system");
             ("message", VStr "A new client has joined the channel");
             ("channel", VStr name)])
      (Some ws)
      (set_stats inc_messagesSent
         (log_send ws
            (VObj [("type", VStr "system");
                   ("message",
                    VObj [("id", default VUndefined (assoc "id" fields));
                          ("result", VStr ("Connected to channel: " +:+ name))]);
                   ("channel", VStr name)])
            (set_channels (fun _ => joins ws name (channels s)) s))).
Proof.
  intros Hchan Hname Hse.
  unfold join_branch, bind, lift, gets, modify, ret, as_string, send. simpl.
  rewrite Hchan. simpl. rewrite (proj2 (String.eqb_neq name "") Hname). simpl.
  unfold joins, set_channels.
  destruct (map_has name (channels s)); simpl; rewrite Hse; done.
Qed.

Lemma message_join_effect rs se (ws : conn) (data id : value)
  (name : string) (s : state) :
  get data "type" = Normal (VStr "join") →
  get data "channel" = Normal (VStr name) →
  name ≠ "" →
  get data "id" = Normal id →
  se ws = None →
  let r := message rs se ws (Parsed data) s in
  let before := default [] (map_get name (channels s)) in
  fst r = Ret tt ∧
  map_get name (channels (snd r)) = Some (set_add ws before) ∧
  (∀ other, other ≠ name →
     map_get other (channels (snd r)) = map_get other (channels s)) ∧
  wire (snd r) = wire s ++
    (ws, VObj [("type", VStr "system");
               ("message", VObj [("id", id);
                                 ("result", VStr ("Connected to channel: " +:+ name))]);
               ("channel", VStr name)]) ::
    List.map (fun c => (c, VObj [("type", VStr "system");
                                 ("message", VStr "A new client has joined the channel");
                                 ("channel", VStr name)]))
             (List.filter (fun c => negb (Nat.eqb c ws) && is_open (rs c)) before).
Proof.
  intros Htype Hchan Hname Hid Hse r before.
  destruct data as [| |b|n|str|items|fields]; try done.
  simpl in Htype, Hchan, Hid.
  injection Htype as Htype. injection Hchan as Hchan. injection Hid as Hid.
  subst r. unfold message, try_catch, bind, modify, lift. simpl.
  rewrite Htype. simpl.
  rewrite (join_branch_effect rs se ws fields name _ Hchan Hname Hse).
  unfold broadcastToChannel. simpl. rewrite joins_get. simpl.
  set (s1 := set_stats inc_messagesSent _).
  destruct (broadcast_fold_effect rs se
              (VObj [("type", VStr "system");
                     ("message", VStr "A new client has joined the channel");
                     ("channel", VStr name)])
              (Some ws) (set_add ws before) s1) as (Hwire & _).
  split_and!.
  - done.
  - rewrite broadcast_fold_channels. simpl. apply joins_get.
  - intros other Hother. rewrite broadcast_fold_channels. simpl. by apply joins_other.
  - fold before. rewrite Hwire, eligible_others. unfold s1. simpl.
    rewrite Hid, <- app_assoc. done.
Qed.

(** X2: a [join] naming a non-empty channel makes the sender a member of
    that channel and changes no other membership; the sender gets the
    confirmation carrying the id of the request, then every other open
    member of the channel gets the notice that a client has joined, and
    the sender does not get that notice. *)
Theorem join_registers_confirms_and_notifies rs se (ws : conn) (data id : value)
  (name : string) (s : state) :
  get data "type" = Normal (VStr "join") →
  get data "channel" = Normal (VStr name) →
  name ≠ "" →
  get data "id" = Normal id →
  se ws = None →
  let r := message rs se ws (Parsed data) s in
  let before := default [] (map_get name (channels s)) in
  fst r = Ret tt ∧
  (∀ c C, is_member c C (snd r) =
            (String.eqb C name && Nat.eqb c ws) || is_member c C s) ∧
  wire (snd r) = wire s ++
    (ws, VObj [("type", VStr "system");
               ("message", VObj [("id", id);
                                 ("result", VStr ("Connected to channel: " +:+ name))]);
               ("channel", VStr name)]) ::
    List.map (fun c => (c, VObj [("type", VStr "system");
                                 ("message", VStr "A new client has joined the channel");
                                 ("channel", VStr name)]))
             (List.filter (fun c => negb (Nat.eqb c ws) && is_open (rs c)) before).
Proof.
  intros Htype Hchan Hname Hid Hse r before.
  destruct (message_join_effect rs se ws data id name s Htype Hchan Hname Hid Hse)
    as (Hret & _ & _ & Hwire).
  split_and!; [done | | done].
  intros c C. unfold is_member. subst r.
  rewrite (message_joins rs se ws (Parsed data) name).
  - apply member_in_joins.
  - simpl. rewrite Htype, Hchan. simpl.
    by rewrite (proj2 (String.eqb_neq name "") Hname).
Qed.



(** X5: when a connection closes it is removed from every channel, everyone
    else keeps their memberships, nothing is written to any socket, and the
    count of active connections goes down by one. *)
Theorem close_leaves_every_channel (ws : conn) (s : state) :
  registry_ok (channels s) →
  let s' := snd (close ws s) in
  (∀ C, is_member ws C s' = false) ∧
  (∀ c C, c ≠ ws → is_member c C s' = is_member c C s) ∧
  registry_ok (channels s') ∧
  wire s' = wire s ∧
  activeConnections (stats s') = (activeConnections (stats s) - 1)%Z.
Proof.
  intros Hok s'. pose proof Hok as [Hnd _].
  assert (Hch : channels s' = leaves ws (channels s)) by by apply close_channels.
  unfold is_member. rewrite Hch. split_and!.
  - intros C. rewrite member_in_leaves by done.
    by rewrite Nat.eqb_refl, andb_false_r.
  - intros c C Hne. rewrite member_in_leaves by done.
    destruct (Nat.eqb_spec c ws); [done|]. by rewrite andb_true_r.
  - by apply leaves_ok.
  - done.
  - done.
Qed.

(** X6: a [progress_update] envelope is relayed as it came to every open
    member of its channel, whoever sent it (the sender need not be a
    member); if the channel does not exist the frame is only counted. *)
Theorem progress_update_is_relayed_unchanged rs se (ws : conn) (data : value)
  (s : state) :
  get data "type" = Normal (VStr "progress_update") →
  let r := message rs se ws (Parsed data) s in
  (∀ C clients,
     get data "channel" = Normal (VStr C) →
     map_get C (channels s) = Some clients →
     fst r = Ret tt ∧
     wire (snd r) = wire s ++
       List.map (fun c => (c, data)) (List.filter (fun c => is_open (rs c)) clients) ∧
     channels (snd r) = channels s) ∧
  (∀ channelName,
     get data "channel" = Normal channelName →
     chan_get channelName (channels s) = None →
     r = (Ret tt, set_stats inc_messagesReceived s)).
Proof.
  intros Htype r. subst r.
  unfold message, try_catch, bind, modify, lift. simpl. rewrite Htype. simpl.
  unfold progress_branch, bind, lift, gets. split.
  - intros C clients Hchan Hget. rewrite Hchan. simpl. rewrite Hget.
    unfold broadcastToChannel. simpl. rewrite Hget. simpl.
    split_and!; [done | | by rewrite broadcast_fold_channels].
    by rewrite broadcast_fold_wire.
  - intros channelName Hchan Hnone. rewrite Hchan. simpl. by rewrite Hnone.
Qed.


(** ** The counters over a run *)

Lemma tally_bind {A B C : Type} (f : state → C) (m : M A) (k : A → M B) :
  keeps f m → (∀ a, keeps f (k a)) → keeps f (bind m k).
Proof.
  intros Hm Hk s. unfold bind. specialize (Hm s).
  destruct (m s) as [[a|e|] s']; simpl in *; [|done..].
  by rewrite Hk.
Qed.

Lemma tally_lift_bind {A B C : Type} (f : state → C) (c : completion A) (k : A → M B) :
  (∀ a, keeps f (k a)) → keeps f (bind (lift c) k).
Proof.
  intros Hk s. unfold bind, lift. destruct c as [a|e]; simpl; [|done].
  by apply Hk.
Qed.

Lemma tally_try_catch {A C : Type} (f : state → C) (body : M A) (handler : Error → M A) :
  keeps f body → (∀ e, keeps f (handler e)) → keeps f (try_catch body handler).
Proof.
  intros Hb Hh s. unfold try_catch. specialize (Hb s).
  destruct (body s) as [[a|e|] s']; simpl in *; [done| |done].
  by rewrite Hh.
Qed.

(** A reading of the state that [send], the registry and the counters of
    sent messages and of errors do not change is changed by nothing the
    message handler does after counting the frame. *)
Section Blind.
Context {C : Type} (f : state → C).
Hypothesis f_sent : ∀ s, f (set_stats inc_messagesSent s) = f s.
Hypothesis f_errors : ∀ s, f (set_stats inc_errors s) = f s.
Hypothesis f_log : ∀ c v s, f (log_send c v s) = f s.
Hypothesis f_channels : ∀ g s, f (set_channels g s) = f s.

Lemma blind_send se (c : conn) (v : value) : keeps f (send se c v).
Proof. intros s. unfold send. destruct (se c); simpl; apply f_log. Qed.

Lemma blind_broadcast rs se (name msg : value) (ex : option conn) :
  keeps f (broadcastToChannel rs se name msg ex).
Proof.
  intros s. unfold broadcastToChannel.
  destruct (chan_get name (channels s)) as [clients|]; [|done]. simpl.
  revert s. induction clients as [|c clients IH]; intros s; simpl; [done|].
  rewrite IH. unfold broadcast_one, send.
  destruct (negb (bool_decide (Some c = ex)) && is_open (rs c)); [|done].
  destruct (se c); simpl; by rewrite ?f_sent, ?f_errors, f_log.
Qed.

Lemma blind_join_branch rs se (ws : conn) (data : value) :
  keeps f (join_branch rs se ws data).
Proof.
  unfold join_branch. apply tally_lift_bind. intros channelName.
  destruct (negb (truthy channelName)); [apply blind_send|].
  apply tally_bind. { intros s. unfold as_string. by destruct channelName. }
  intros name. apply tally_bind; [done|]. intros has.
  apply tally_bind. { destruct (negb has); [|done]. intros s. apply f_channels. }
  intros _. apply tally_bind. { intros s. apply f_channels. }
  intros _. apply tally_lift_bind. intros id.
  apply tally_bind; [apply blind_send|]. intros _.
  apply tally_bind. { intros s. apply f_sent. }
  intros _. apply blind_broadcast.
Qed.

Lemma blind_message_branch rs se (ws : conn) (data : value) :
  keeps f (message_branch rs se ws data).
Proof.
  unfold message_branch. apply tally_lift_bind. intros channelName.
  destruct (negb (truthy channelName)).
  { apply tally_bind; [apply blind_send | done]. }
  apply tally_bind; [done|]. intros clients.
  destruct (negb _).
  { apply tally_bind; [apply blind_send | done]. }
  apply tally_lift_bind. intros payload.
  apply tally_bind; [apply blind_broadcast | done].
Qed.

Lemma blind_progress_branch rs se (data : value) :
  keeps f (progress_branch rs se data).
Proof.
  unfold progress_branch. apply tally_lift_bind. intros channelName.
  apply tally_bind; [done|]. intros [clients|]; [apply blind_broadcast | done].
Qed.

Lemma blind_message rs se (ws : conn) (m : frame) (s : state) :
  f (snd (message rs se ws m s)) = f (set_stats inc_messagesReceived s).
Proof.
  unfold message.
  set (rest := bind (lift (JSON_parse m)) _).
  assert (Hrest : keeps f rest).
  { unfold rest. apply tally_lift_bind. intros data.
    apply tally_lift_bind. intros type.
    destruct (is_str type "join"); [apply blind_join_branch|].
    apply tally_bind.
    - destruct (is_str type "message"); [apply blind_message_branch | done].
    - intros [|]; [|done].
      destruct (is_str type "progress_update"); [apply blind_progress_branch | done]. }
  clearbody rest. unfold try_catch, bind, modify. simpl.
  specialize (Hrest (set_stats inc_messagesReceived s)).
  destruct (rest (set_stats inc_messagesReceived s)) as [[a|e|] s']; simpl in *; try done.
  unfold send. destruct (se ws); simpl; by rewrite f_log, f_errors.
Qed.

End Blind.


Lemma currentChannel_run (os : list occurrence) (s : state) :
  currentChannel (run os s) = currentChannel s ∧ wsServer (run os s) = wsServer s.
Proof.
  unfold run. revert s. induction os as [|o os IH]; intros s; simpl; [done|].
  destruct (IH (step s o)) as [-> ->]. unfold step.
  destruct (happened o) as [ws|ws m|ws].
  - unfold open, try_catch, bind, modify, send. simpl. by destruct (at_send_error o ws).
  - by rewrite (blind_message currentChannel), (blind_message wsServer).
  - done.
Qed.





(** ** What the listing functions report in a run *)


(** ** Starting and stopping *)

(** X9: [startWebSocketServer] on a running server returns the running one
    and ignores its argument; a start where [Bun.serve] throws leaves the
    server stopped and the state as it was; [stopWebSocketServer] empties
    the registry and forgets the current channel but keeps the counters,
    does nothing on a stopped server, and a later start serves again with
    the counters of before. *)
Theorem restart_keeps_only_the_counters (port port' : Z) (serve' : completion unit)
  (e : Error) (s : state) :
  let started := snd (startWebSocketServer port (Normal tt) s) in
  let stopped := stopWebSocketServer started in
  isServerRunning started = true ∧
  startWebSocketServer port' serve' started = (wsServer started, started) ∧
  (isServerRunning s = false →
     startWebSocketServer port (Abrupt e) s = (None, s) ∧
     stopWebSocketServer s = s ∧
     wsServer started = Some port ∧ channels started = channels s) ∧
  isServerRunning stopped = false ∧
  getActiveChannels stopped = [] ∧
  (∀ C, getChannelClientCount C stopped = 0) ∧
  getCurrentChannel stopped = None ∧
  stats stopped = stats s ∧
  stats (snd (startWebSocketServer port' (Normal tt) stopped)) = stats s ∧
  getActiveChannels (snd (startWebSocketServer port' (Normal tt) stopped)) = [].
Proof.
  unfold startWebSocketServer, stopWebSocketServer, isServerRunning,
    getActiveChannels, getChannelClientCount, getCurrentChannel.
  destruct (wsServer s) as [running|] eqn:Hrun; simpl; rewrite ?Hrun; simpl;
    split_and!; try done; intros; split_and!; done.
Qed.

(** ** Exceptions that leave the message handler *)







End ServerMore.

(** * The HTTP surface *)
Section HttpFacts.
Import Js Eff Server Tally Http.


End HttpFacts.

(** * Further properties of the relay client *)
Section ClientMore.
Import Js Eff Client.
Variable reconnectInterval : Z.
Variable defaultPort : Z.


(** ** Commands while the socket is not open *)

(** X12: a command issued while the socket is not open is rejected with
    the not-connected error; nothing is written and nothing is registered.
    Unless a connection is already being set up, a connection to the
    default port is started: the socket is CONNECTING with the 10 s
    connection timer armed, or, when the constructor throws, there is no
    socket and a retry of the default port is due after
    [reconnectInterval]. *)
Theorem command_while_disconnected_is_rejected (command : string)
  (params : list (string * value)) (timeoutMs : Z) (id : string) (now : Z)
  (ctor : completion unit) (s : state) :
  is_OPEN (ws s) = false →
  let sent := sendCommandToFigma reconnectInterval defaultPort command params timeoutMs id now ctor s in
  let s' := snd sent in
  fst sent = length (promises s) ∧
  promise_state (fst sent) s' =
    Rejected (new_Error "Not connected to WebSocket server. Attempting to connect...") ∧
  outbox s' = outbox s ∧
  pendingRequests s' = pendingRequests s ∧
  currentChannel s' = currentChannel s ∧
  match ws s, ctor with
  | Some CONNECTING, _ => ws s' = ws s ∧ timers s' = timers s
  | _, Normal _ =>
      ws s' = Some CONNECTING ∧
      timers s' = timers s ++ [Some (mkTimeout 10000 ConnectionTimeout)]
  | _, Abrupt _ =>
      ws s' = None ∧
      timers s' = timers s ++ [Some (mkTimeout reconnectInterval (Reconnect defaultPort))]
  end.
Proof.
  intros Hopen sent s'. subst sent s'.
  unfold sendCommandToFigma, new_Promise. simpl.
  rewrite Hopen. simpl.
  set (s0 := set_promises (λ ps, ps ++ [Pending]) s).
  assert (Hp : promises (connectToFigma reconnectInterval defaultPort ctor s0) !! length (promises s)
               = Some Pending).
  { destruct (connectToFigma_frame reconnectInterval defaultPort ctor s0) as [_ ->].
    unfold s0. simpl. by rewrite lookup_app_r, Nat.sub_diag by lia. }
  destruct (settle_frame (length (promises s))
              (Rejected (new_Error "Not connected to WebSocket server. Attempting to connect..."))
              (connectToFigma reconnectInterval defaultPort ctor s0))
    as (Hpend & Htimers & Hout & Hcur & Hws & _).
  split_and!.
  - done.
  - by apply settle_pending.
  - rewrite Hout. unfold connectToFigma.
    destruct (ws s0) as [[| | |]|]; destruct ctor; done.
  - rewrite Hpend.
    by destruct (connectToFigma_frame reconnectInterval defaultPort ctor s0) as [-> _].
  - rewrite Hcur. unfold connectToFigma.
    destruct (ws s0) as [[| | |]|]; destruct ctor; done.
  - rewrite Hws, Htimers. unfold connectToFigma. unfold s0. simpl.
    destruct (ws s) as [[| | |]|] eqn:E; destruct ctor; simpl; done.
Qed.


(** ** The connection timer *)

Lemma armed_new_timer (t : Timeout) (s : state) :
  armed (length (timers s)) (set_timers (fun ts => ts ++ [Some t]) s) = Some t.
Proof. unfold armed. simpl. by rewrite lookup_app_r, Nat.sub_diag by lia. Qed.

Lemma armed_old_timer (h : timer) (x : option Timeout) (s : state) :
  (h < length (timers s))%nat →
  armed h (set_timers (fun ts => ts ++ [x]) s) = armed h s.
Proof. intros Hlt. unfold armed. simpl. by rewrite lookup_app_l. Qed.

Lemma fire_disarmed (h : timer) (id : string) (now : Z) (ctor : completion unit)
  (s : state) :
  armed h s = None → fire reconnectInterval defaultPort h id now ctor s = (Returned tt, s).
Proof. intros H. unfold fire. by rewrite H. Qed.

(** X13: [connectToFigma], when there is no live socket and the
    constructor succeeds, leaves the socket CONNECTING with a 10 s timer
    armed.  If that timer fires while the socket is still connecting, the
    socket is terminated; once the socket has opened or closed, its
    listener has cleared the timer and the timer does nothing any more. *)
Theorem connection_timer_bites_only_while_connecting (port : Z) (id : string)
  (now k : Z) (ctor : completion unit) (s : state) :
  ws s ≠ Some OPEN → ws s ≠ Some CONNECTING →
  let h := length (timers s) in
  let s1 := connectToFigma reconnectInterval port (Normal tt) s in
  ws s1 = Some CONNECTING ∧
  armed h s1 = Some (mkTimeout 10000 ConnectionTimeout) ∧
  (let r := fire reconnectInterval defaultPort h id now ctor s1 in
   fst r = Returned tt ∧ ws (snd r) = Some CLOSING ∧ armed h (snd r) = None) ∧
  (let s2 := on_open h (set_ws (Some OPEN) s1) in
   fire reconnectInterval defaultPort h id now ctor s2 = (Returned tt, s2)) ∧
  (let s2 := on_close reconnectInterval h port k s1 in
   fire reconnectInterval defaultPort h id now ctor s2 = (Returned tt, s2)).
Proof.
  intros Hopen Hconn h s1.
  assert (Hs1 : ∃ s0, timers s0 = timers s ∧
                s1 = set_timers (fun ts => ts ++ [Some (mkTimeout 10000 ConnectionTimeout)])
                       (set_ws (Some CONNECTING) s0)).
  { subst s1. unfold connectToFigma, setTimeout.
    destruct (ws s) as [[| | |]|] eqn:E; try done; simpl; by eexists. }
  destruct Hs1 as (s0 & Ht0 & Hs1).
  assert (Harmed : armed h s1 = Some (mkTimeout 10000 ConnectionTimeout)).
  { rewrite Hs1. subst h. rewrite <- Ht0. apply (armed_new_timer _ (set_ws (Some CONNECTING) s0)). }
  assert (Hlen : length (timers s1) = S h).
  { rewrite Hs1. simpl. rewrite length_app, Ht0. simpl. subst h. lia. }
  split_and!.
  - by rewrite Hs1.
  - done.
  - unfold fire. rewrite Harmed. simpl. rewrite Hs1. simpl. split_and!; try done.
    unfold armed. simpl. rewrite list_lookup_insert_eq; [done|].
    rewrite length_app, Ht0. simpl. subst h. lia.
  - apply fire_disarmed. unfold on_open.
    set (s2 := set_currentChannel None _).
    assert (H2 : armed h s2 = None).
    { unfold s2. rewrite (armed_ext h (clearTimeout h (set_ws (Some OPEN) s1))) by done.
      rewrite armed_clearTimeout. by case_decide. }
    assert (Hlen2 : length (timers s2) = S h).
    { unfold s2. simpl. by rewrite length_insert. }
    destruct (autoConnectEnabled s2); [|done].
    unfold setTimeout. simpl. rewrite armed_old_timer by lia. done.
  - apply fire_disarmed. unfold on_close, setTimeout.
    set (s2 := fold_left reject_closed _ _).
    assert (H2 : armed h s2 = None).
    { unfold s2. apply reject_closed_fold_disarmed.
      rewrite (armed_ext h (clearTimeout h s1)) by done.
      rewrite armed_clearTimeout. by case_decide. }
    assert (Hlen2 : length (timers s2) = S h).
    { unfold s2.
      destruct (reject_closed_fold_frame
                  (map_to_list (pendingRequests (set_ws None (clearTimeout h s1))))
                  (set_ws None (clearTimeout h s1))) as (_ & _ & _ & _ & _ & -> & _).
      simpl. by rewrite length_insert. }
    simpl. rewrite armed_old_timer by lia. done.
Qed.


(** ** Joining on one's own *)

(** X14: [tryAutoConnect] never throws.  It does something only when
    exactly one channel is listed, none is joined and the socket is open:
    then it sends a [join] for that channel and waits for the answer.  In
    every other case, also when [joinChannel] throws, it returns with the
    state as it was; and when the join is refused later it returns too,
    again with the state as it was. *)
Theorem tryAutoConnect_never_throws (id channelName : string) (now : Z)
  (ctor : completion unit) (p : promise) (s : state) :
  let r := tryAutoConnect reconnectInterval defaultPort id now ctor s in
  (∀ e, fst r ≠ Failed e) ∧
  (∀ e, fst (tryAutoConnect_resume channelName p s) ≠ Failed e) ∧
  (r ≠ (Returned tt, s) →
     ∃ only, Server.getActiveChannels (relay s) = [only] ∧
       joined (currentChannel s) = false ∧ is_OPEN (ws s) = true ∧
       r = (let '(q, s') := sendCommandToFigma reconnectInterval defaultPort "join"
                              [("channel", VStr only)] 60000 id now ctor s in
            (Suspended q, s'))) ∧
  (∀ e, promise_state p s = Rejected e →
     tryAutoConnect_resume channelName p s = (Returned tt, s)).
Proof.
  intros r. subst r. unfold tryAutoConnect, tryAutoConnect_resume, joinChannel_resume, joinChannel.
  split_and!.
  - intros e. destruct (Server.getActiveChannels (relay s)) as [|only [|]]; try done.
    destruct (negb (joined (currentChannel s))); [|done].
    destruct (negb (is_OPEN (ws s))); [done|].
    by destruct (sendCommandToFigma _ _ _ _ _ _ _ _ _).
  - intros e. by destruct (promise_state p s).
  - destruct (Server.getActiveChannels (relay s)) as [|only [|]]; try done.
    destruct (joined (currentChannel s)); simpl; [done|].
    destruct (is_OPEN (ws s)); simpl; [|done].
    intros _. exists only. split_and!; try done.
    by destruct (sendCommandToFigma _ _ _ _ _ _ _ _ _).
  - intros e He. by rewrite He.
Qed.

(** ** Leaving a channel *)

(** X15: [disconnect()] from a joined channel only forgets the channel,
    in the client and in the relay's [currentChannel]: nothing is written
    to the socket, the relay's registry keeps its members, the socket, the
    table and the timers stay as they are.  Afterwards a command other
    than [join] is refused with the must-join error although the socket is
    open, and a second [disconnect()] reports that no channel is joined;
    the [disconnect_figma] tool answers with these two messages. *)
Theorem disconnect_only_forgets_the_channel (command : string)
  (params : list (string * value)) (timeoutMs : Z) (id : string) (now : Z)
  (ctor : completion unit) (s : state) :
  joined (currentChannel s) = true →
  let r := disconnect s in
  let s' := snd r in
  disconnected (fst r) = true ∧
  notice (fst r) = "Disconnected from channel: " +:+ default "" (currentChannel s) ∧
  getCurrentChannel s' = None ∧
  Server.getCurrentChannel (relay s') = None ∧
  Server.channels (relay s') = Server.channels (relay s) ∧
  Server.wire (relay s') = Server.wire (relay s) ∧
  outbox s' = outbox s ∧ ws s' = ws s ∧
  pendingRequests s' = pendingRequests s ∧ timers s' = timers s ∧
  disconnect s' = (mkDisconnectResult false "Not connected to any channel", s') ∧
  Tools.disconnect_figma s =
    ("Disconnected from channel: " +:+ default "" (currentChannel s), s') ∧
  Tools.disconnect_figma s' = ("Not connected to any channel", s') ∧
  (is_OPEN (ws s) = true → command ≠ "join" →
     let sent := sendCommandToFigma reconnectInterval defaultPort
                   command params timeoutMs id now ctor s' in
     promise_state (fst sent) (snd sent) =
       Rejected (new_Error
         "Must join a channel before sending commands. Use auto_connect or join_channel.") ∧
     outbox (snd sent) = outbox s).
Proof.
  intros Hjoined r s'. subst r s'. unfold Tools.disconnect_figma, disconnect.
  rewrite Hjoined. simpl.
  split_and!; try done.
  intros Hopen Hcmd. unfold sendCommandToFigma, new_Promise. simpl.
  rewrite Hopen. simpl.
  rewrite (proj2 (String.eqb_neq command "join") Hcmd). simpl.
  set (s0 := set_promises _ _).
  destruct (settle_frame (length (promises s))
     (Rejected (new_Error
         "Must join a channel before sending commands. Use auto_connect or join_channel."))
     s0) as (_ & _ & -> & _).
  split; [|done].
  apply settle_pending. unfold s0. simpl. by rewrite lookup_app_r, Nat.sub_diag by lia.
Qed.


(** ** A join, from the call to the joined channel *)

(** X16: the round trip of a join through the relay.  [joinChannel] on
    an open socket writes one [join] envelope and waits; the relay, handed
    that envelope on the client's connection, makes the connection a
    member and writes the confirmation to it, and only notices to
    others; the client's message listener, handed that confirmation,
    resolves the waiting promise, removes the entry and clears its timer;
    the resumed [joinChannel] then records the channel as current, in the
    client and in the relay. *)
Theorem join_round_trip (rs : Server.conn → ReadyState) (se : Server.conn → option Error)
  (c : Server.conn) (channelName id : string) (now now' : Z)
  (ctor : completion unit) (s : state) :
  is_OPEN (ws s) = true →
  pendingRequests s !! id = None →
  id ≠ "" → channelName ≠ "" →
  se c = None →
  let called := joinChannel reconnectInterval defaultPort channelName id now ctor s in
  let s1 := snd called in
  ∃ (p : promise) (request reply : value) (others : list (Server.conn * value)),
    fst called = Suspended p ∧
    outbox s1 = outbox s ++ [request] ∧
    let served := Server.message rs se c (Parsed request) (relay s1) in
    fst served = Ret tt ∧
    Server.wire (snd served) = Server.wire (relay s) ++ (c, reply) :: others ∧
    Forall (fun e => fst e ≠ c) others ∧
    Server.is_member c channelName (snd served) = true ∧
    let s2 := on_message now' (Parsed reply) (set_relay (fun _ => snd served) s1) in
    promise_state p s2 = Fulfilled (VStr ("Connected to channel: " +:+ channelName)) ∧
    pendingRequests s2 = pendingRequests s ∧
    armed (length (timers s)) s2 = None ∧
    let resumed := joinChannel_resume channelName p s2 in
    fst resumed = Returned tt ∧
    getCurrentChannel (snd resumed) = Some channelName ∧
    Server.getCurrentChannel (relay (snd resumed)) = Some channelName.
Proof.
  intros Hopen Hfresh Hid Hname Hse called s1. subst s1 called.
  unfold joinChannel, sendCommandToFigma, new_Promise, setTimeout. rewrite Hopen. simpl.
  rewrite Hopen. simpl.
  set (request := VObj [("id", VStr id); ("type", VStr "join");
                        ("channel", VStr channelName);
                        ("message", VObj [("id", VStr id); ("command", VStr "join");
                          ("params", VObj [("channel", VStr channelName);
                                           ("commandId", VStr id)])])]).
  set (reply := VObj [("type", VStr "system");
                      ("message", VObj [("id", VStr id);
                         ("result", VStr ("Connected to channel: " +:+ channelName))]);
                      ("channel", VStr channelName)]).
  destruct (message_join_effect rs se c request (VStr id) channelName (relay s))
    as (Hret & Hget & _ & Hwire); try done.
  exists (length (promises s)), request, reply.
  eexists. cbv zeta.
  set (served := Server.message rs se c (Parsed request) (relay s)) in *.
  assert (Hbody : on_message now' (Parsed reply)
            (set_relay (fun _ => snd served)
               (ws_send request
                  (set_pendingRequests
                     (insert id (mkPendingRequest (length (promises s))
                                   (length (promises s)) (length (timers s)) now))
                     (set_timers (fun t => t ++ [Some (mkTimeout 60000
                                    (CommandTimeout id (length (promises s))))])
                        (set_promises (fun ps => ps ++ [Pending]) s))))) =
          set_pendingRequests (delete id)
            (settle (length (promises s))
               (Fulfilled (VStr ("Connected to channel: " +:+ channelName)))
               (clearTimeout (length (timers s))
                  (set_relay (fun _ => snd served)
                     (ws_send request
                        (set_pendingRequests
                           (insert id (mkPendingRequest (length (promises s))
                                         (length (promises s)) (length (timers s)) now))
                           (set_timers (fun t => t ++ [Some (mkTimeout 60000
                                          (CommandTimeout id (length (promises s))))])
                              (set_promises (fun ps => ps ++ [Pending]) s)))))))).
  { unfold on_message, message_body, bind, lift, gets, modify, ret. simpl.
    rewrite lookup_insert_eq. simpl.
    rewrite (proj2 (String.eqb_neq id "") Hid). simpl. done. }
  rewrite Hbody. clear Hbody.
  set (s0 := clearTimeout _ _).
  assert (Hp : promises s0 !! length (promises s) = Some Pending).
  { unfold s0. simpl. by rewrite lookup_app_r, Nat.sub_diag by lia. }
  destruct (settle_pending _ (Fulfilled (VStr ("Connected to channel: " +:+ channelName)))
              _ Hp) as [_ Hstate].
  destruct (settle_frame (length (promises s))
              (Fulfilled (VStr ("Connected to channel: " +:+ channelName))) s0)
    as (Htable & Htimers & _).
  assert (Hprom : promise_state (length (promises s))
            (set_pendingRequests (delete id)
               (settle (length (promises s))
                  (Fulfilled (VStr ("Connected to channel: " +:+ channelName))) s0)) =
          Fulfilled (VStr ("Connected to channel: " +:+ channelName))) by exact Hstate.
  unfold joinChannel_resume. rewrite Hprom.
  split_and!; try done.
  - apply Forall_forall. intros e Hin. apply list_elem_of_In in Hin.
    apply in_map_iff in Hin as (x & <- & Hx).
    apply filter_In in Hx as [_ Hx]. simpl.
    apply andb_true_iff in Hx as [Hx _]. apply negb_true_iff in Hx.
    by apply Nat.eqb_neq in Hx.
  - unfold Server.is_member, Server.member_in. rewrite Hget.
    by rewrite set_has_add, Nat.eqb_refl.
  - simpl. rewrite Htable. unfold s0. simpl.
    rewrite delete_insert_eq. by apply delete_id.
  - unfold armed. simpl. rewrite Htimers. unfold s0. simpl.
    rewrite list_lookup_insert_eq; [done|]. rewrite length_app. simpl. lia.
Qed.


(** ** The echo of one's own command *)

(** X17: the relay broadcasts a [message] envelope to every open member
    of the channel, its sender included.  When the client, a member of its
    current channel, sends a command, what the relay writes back to the
    client's own connection is that command's message, which has the id of
    the request but no [result]: the message listener leaves the request
    waiting and the whole state as it is. *)
Theorem echo_of_own_command_is_ignored (rs : Server.conn → ReadyState)
  (se : Server.conn → option Error) (c : Server.conn) (command : string)
  (params : list (string * value)) (timeoutMs : Z) (id C : string) (now now' : Z)
  (ctor : completion unit) (s : state) :
  is_OPEN (ws s) = true →
  currentChannel s = Some C → C ≠ "" →
  command ≠ "join" →
  Server.is_member c C (relay s) = true →
  rs c = OPEN →
  let sent := sendCommandToFigma reconnectInterval defaultPort
                command params timeoutMs id now ctor s in
  let s1 := snd sent in
  ∃ request : value,
    outbox s1 = outbox s ++ [request] ∧
    let served := Server.message rs se c (Parsed request) (relay s1) in
    let written := drop (length (Server.wire (relay s))) (Server.wire (snd served)) in
    let s2 := set_relay (fun _ => snd served) s1 in
    (∃ echo, (c, echo) ∈ written) ∧
    (∀ v, (c, v) ∈ written → on_message now' (Parsed v) s2 = s2) ∧
    pendingRequests s2 !! id =
      Some (mkPendingRequest (fst sent) (fst sent) (length (timers s)) now).
Proof.
  intros Hopen Hcur HC Hcmd Hmember Hrs sent s1. subst s1 sent.
  unfold sendCommandToFigma, new_Promise, setTimeout. simpl. rewrite Hopen, Hcur. simpl.
  rewrite (proj2 (String.eqb_neq command "join") Hcmd),
          (proj2 (String.eqb_neq C "") HC). simpl.
  set (payload := VObj [("id", VStr id); ("command", VStr command);
                        ("params", VObj (Server.map_set "commandId" (VStr id) params))]).
  set (request := VObj [("id", VStr id); ("type", VStr "message"); ("channel", VStr C);
                        ("message", payload)]).
  set (echo := VObj [("type", VStr "broadcast"); ("message", payload);
                     ("channel", VStr C)]).
  exists request. split; [done|]. cbv zeta.
  unfold Server.is_member, Server.member_in in Hmember.
  destruct (Server.map_get C (Server.channels (relay s))) as [clients|] eqn:Hget; [|done].
  assert (Hwire : Server.wire (snd (Server.message rs se c (Parsed request) (relay s))) =
            Server.wire (relay s) ++
            List.map (fun c' => (c', echo)) (List.filter (fun c' => is_open (rs c')) clients)).
  { unfold Server.message, try_catch, bind, modify, lift. simpl.
    unfold Server.message_branch, bind, lift, gets, ret. simpl.
    rewrite (proj2 (String.eqb_neq C "") HC). simpl. rewrite Hget, Hmember. simpl.
    unfold Server.broadcastToChannel. simpl. rewrite Hget. simpl.
    by rewrite broadcast_fold_wire. }
  rewrite Hwire, drop_app_length.
  split_and!.
  - exists echo. apply list_elem_of_In, in_map_iff. exists c. split; [done|].
    apply filter_In. split; [|by rewrite Hrs].
    by apply list_elem_of_In, set_has_elem.
  - intros v Hin. apply list_elem_of_In, in_map_iff in Hin as (x & [= _ <-] & _).
    unfold on_message, message_body, bind, lift, gets, modify, ret. simpl.
    rewrite lookup_insert_eq. simpl.
    by rewrite andb_false_r.
  - simpl. by rewrite lookup_insert_eq.
Qed.


(** ** A command, from the call to its result *)

Lemma member_message_effect (rs : Server.conn → ReadyState)
  (se : Server.conn → option Error) (c : Server.conn) (data payload : value)
  (C : string) (clients : list Server.conn) (s : Server.state) :
  get data "type" = Normal (VStr "message") →
  get data "channel" = Normal (VStr C) →
  get data "message" = Normal payload →
  C ≠ "" →
  Server.map_get C (Server.channels s) = Some clients →
  Server.set_has c clients = true →
  let echo := VObj [("type", VStr "broadcast"); ("message", payload); ("channel", VStr C)] in
  let r := Server.message rs se c (Parsed data) s in
  fst r = Ret tt ∧
  Server.channels (snd r) = Server.channels s ∧
  Server.wire (snd r) =
    Server.wire s ++ List.map (fun c' => (c', echo))
                       (List.filter (fun c' => is_open (rs c')) clients).
Proof.
  intros Htype Hchan Hmsg HC Hget Hmember echo r. subst r.
  destruct data as [| |b|n|str|items|fields]; try done.
  simpl in Htype, Hchan, Hmsg.
  injection Htype as Htype. injection Hchan as Hchan. injection Hmsg as Hmsg.
  unfold Server.message, try_catch, bind, modify, lift. simpl. rewrite Htype. simpl.
  unfold Server.message_branch, bind, lift, gets, ret. simpl. rewrite Hchan. simpl.
  rewrite (proj2 (String.eqb_neq C "") HC). simpl. rewrite Hget, Hmember. simpl.
  unfold Server.broadcastToChannel. simpl. rewrite Hget. simpl. rewrite Hmsg.
  split_and!; [done | | ].
  - by rewrite broadcast_fold_channels.
  - by rewrite broadcast_fold_wire.
Qed.

Lemma assoc_map_set (k : string) (v : value) (fields : list (string * value)) :
  assoc k (Server.map_set k v fields) = Some v.
Proof.
  induction fields as [|[k' v'] fields IH]; simpl.
  - by rewrite String.eqb_refl.
  - destruct (String.eqb_spec k k') as [->|Hne]; simpl.
    + by rewrite String.eqb_refl.
    + by rewrite (proj2 (String.eqb_neq k k') Hne).
Qed.

Lemma assoc_map_set_other (k k' : string) (v : value) (fields : list (string * value)) :
  k' ≠ k → assoc k' (Server.map_set k v fields) = assoc k' fields.
Proof.
  intros Hne. induction fields as [|[k0 v0] fields IH]; simpl.
  - by rewrite (proj2 (String.eqb_neq k' k) Hne).
  - destruct (String.eqb_spec k k0) as [->|Hne0]; simpl.
    + by rewrite (proj2 (String.eqb_neq k' k0) Hne).
    + by rewrite IH.
Qed.

(** X18: the round trip of a command through the relay.  The client, a
    member of its current channel, sends a command: the relay delivers its
    message to the other member, carrying the request id as [id] and as
    [params.commandId] (whatever [commandId] the caller passed) and the
    other parameters as given.  When that member answers on the channel
    with a message carrying the id and a result, the relay delivers the
    answer to the client, whose listener resolves the request with the
    result, removes its entry and clears its timer. *)
Theorem command_round_trip (rs : Server.conn → ReadyState)
  (se : Server.conn → option Error) (c d : Server.conn) (command : string)
  (params : list (string * value)) (timeoutMs : Z) (id C : string) (now now' : Z)
  (ctor : completion unit) (result : value) (s : state) :
  is_OPEN (ws s) = true →
  currentChannel s = Some C → C ≠ "" →
  command ≠ "join" → id ≠ "" →
  pendingRequests s !! id = None →
  Server.is_member c C (relay s) = true →
  Server.is_member d C (relay s) = true →
  rs c = OPEN → rs d = OPEN →
  truthy result = true →
  let sent := sendCommandToFigma reconnectInterval defaultPort
                command params timeoutMs id now ctor s in
  let sentParams := Server.map_set "commandId" (VStr id) params in
  let payload := VObj [("id", VStr id); ("command", VStr command);
                       ("params", VObj sentParams)] in
  assoc "commandId" sentParams = Some (VStr id) ∧
  (∀ k, k ≠ "commandId" → assoc k sentParams = assoc k params) ∧
  ∃ request : value,
    outbox (snd sent) = outbox s ++ [request] ∧
    let served := Server.message rs se c (Parsed request) (relay (snd sent)) in
    (d, VObj [("type", VStr "broadcast"); ("message", payload); ("channel", VStr C)])
      ∈ drop (length (Server.wire (relay s))) (Server.wire (snd served)) ∧
    let answer := VObj [("type", VStr "message"); ("channel", VStr C);
                        ("message", VObj [("id", VStr id); ("result", result)])] in
    let answered := Server.message rs se d (Parsed answer) (snd served) in
    let back := VObj [("type", VStr "broadcast");
                      ("message", VObj [("id", VStr id); ("result", result)]);
                      ("channel", VStr C)] in
    (c, back) ∈ drop (length (Server.wire (snd served))) (Server.wire (snd answered)) ∧
    let s3 := on_message now' (Parsed back)
                (set_relay (fun _ => snd answered) (snd sent)) in
    promise_state (fst sent) s3 = Fulfilled result ∧
    pendingRequests s3 = pendingRequests s ∧
    armed (length (timers s)) s3 = None.
Proof.
  intros Hopen Hcur HC Hcmd Hid Hfresh Hc Hd Hrsc Hrsd Hresult sent sentParams payload.
  subst sent.
  split; [apply assoc_map_set|]. split; [intros k Hk; by apply assoc_map_set_other|].
  unfold sendCommandToFigma, new_Promise, setTimeout. simpl. rewrite Hopen, Hcur. simpl.
  rewrite (proj2 (String.eqb_neq command "join") Hcmd),
          (proj2 (String.eqb_neq C "") HC). simpl.
  fold sentParams. fold payload.
  set (request := VObj [("id", VStr id); ("type", VStr "message"); ("channel", VStr C);
                        ("message", payload)]).
  exists request. split; [done|]. cbv zeta.
  unfold Server.is_member, Server.member_in in Hc, Hd.
  destruct (Server.map_get C (Server.channels (relay s))) as [clients|] eqn:Hget; [|done].
  destruct (member_message_effect rs se c request payload C clients (relay s))
    as (_ & Hch1 & Hwire1); try done.
  set (served := Server.message rs se c (Parsed request) (relay s)) in *.
  set (answer := VObj [("type", VStr "message"); ("channel", VStr C);
                       ("message", VObj [("id", VStr id); ("result", result)])]).
  destruct (member_message_effect rs se d answer
              (VObj [("id", VStr id); ("result", result)]) C clients (snd served))
    as (_ & _ & Hwire2); try done.
  { by rewrite Hch1. }
  set (answered := Server.message rs se d (Parsed answer) (snd served)) in *.
  rewrite Hwire2, drop_app_length, Hwire1, drop_app_length.
  assert (Hin : ∀ (x : Server.conn) (v : value), Server.set_has x clients = true →
            rs x = OPEN →
            (x, v) ∈ List.map (fun c' => (c', v))
                       (List.filter (fun c' => is_open (rs c')) clients)).
  { intros x v Hx Hrs. apply list_elem_of_In, in_map_iff. exists x. split; [done|].
    apply filter_In. split; [|by rewrite Hrs]. by apply list_elem_of_In, set_has_elem. }
  split; [by apply Hin|]. split; [by apply Hin|].
  set (s1 := set_relay _ _).
  assert (Hbody : on_message now'
            (Parsed (VObj [("type", VStr "broadcast");
                           ("message", VObj [("id", VStr id); ("result", result)]);
                           ("channel", VStr C)])) s1 =
          set_pendingRequests (delete id)
            (settle (length (promises s)) (Fulfilled result)
               (clearTimeout (length (timers s)) s1))).
  { unfold on_message, message_body, bind, lift, gets, modify, ret. simpl.
    rewrite lookup_insert_eq. simpl.
    rewrite (proj2 (String.eqb_neq id "") Hid), Hresult. simpl.
    unfold settle_request. simpl. by rewrite Hresult. }
  rewrite Hbody. clear Hbody.
  set (s0 := clearTimeout _ s1).
  assert (Hp : promises s0 !! length (promises s) = Some Pending).
  { unfold s0, s1. simpl. by rewrite lookup_app_r, Nat.sub_diag by lia. }
  destruct (settle_pending _ (Fulfilled result) _ Hp) as [_ Hstate].
  destruct (settle_frame (length (promises s)) (Fulfilled result) s0)
    as (Htable & Htimers & _).
  split_and!.
  - exact Hstate.
  - simpl. rewrite Htable. unfold s0, s1. simpl.
    rewrite delete_insert_eq. by apply delete_id.
  - unfold armed. simpl. rewrite Htimers. unfold s0, s1. simpl.
    rewrite list_lookup_insert_eq; [done|]. rewrite length_app. simpl. lia.
Qed.

(** ** Reconnecting after a close *)

Lemma backoff_bounds (k : Z) :
  (backoff reconnectInterval k ≤ 30000)%Z ∧
  (0 ≤ reconnectInterval → 0 ≤ k →
   Z.min 30000 reconnectInterval ≤ backoff reconnectInterval k)%Z.
Proof.
  unfold backoff. split; [apply Z.le_min_l|].
  intros Hr Hk. apply Z.min_le_compat_l.
  assert (H2 : (0 < 2 ^ k)%Z) by (apply Z.pow_pos_nonneg; lia).
  assert (H3 : (2 ^ k ≤ 3 ^ k)%Z) by (apply Z.pow_le_mono_l; lia).
  apply Z.div_le_lower_bound; [done|]. nia.
Qed.

(** X19: the close listener arms exactly one new timer, the reconnection
    to the port the socket was opened for, after a delay of at most 30 s
    and (for a non-negative interval) at least the smaller of 30 s and
    [reconnectInterval]; it arms no other timer.  When that timer fires,
    a new socket to the same port is being connected, or, if the
    constructor throws, the same reconnection is due again after
    [reconnectInterval]. *)
Theorem close_schedules_one_reconnection (connectionTimeout : timer) (port k : Z)
  (id : string) (now : Z) (ctor : completion unit) (s : state) :
  let s' := on_close reconnectInterval connectionTimeout port k s in
  let h := length (timers s) in
  ws s' = None ∧
  length (timers s') = S h ∧
  armed h s' = Some (mkTimeout (backoff reconnectInterval k) (Reconnect port)) ∧
  (∀ h' t, h' ≠ h → armed h' s' = Some t → armed h' s = Some t) ∧
  (backoff reconnectInterval k ≤ 30000)%Z ∧
  (0 ≤ reconnectInterval → 0 ≤ k →
   Z.min 30000 reconnectInterval ≤ backoff reconnectInterval k)%Z ∧
  (let r := fire reconnectInterval defaultPort h id now ctor s' in
   fst r = Returned tt ∧
   armed h (snd r) = None ∧
   match ctor with
   | Normal _ =>
       ws (snd r) = Some CONNECTING ∧
       armed (S h) (snd r) = Some (mkTimeout 10000 ConnectionTimeout)
   | Abrupt _ =>
       ws (snd r) = None ∧
       armed (S h) (snd r) = Some (mkTimeout reconnectInterval (Reconnect port))
   end).
Proof.
  intros s' h. subst s'. unfold on_close, setTimeout.
  set (s0 := set_ws None (clearTimeout connectionTimeout s)).
  set (s1 := fold_left reject_closed (map_to_list (pendingRequests s0)) s0).
  destruct (reject_closed_fold_frame (map_to_list (pendingRequests s0)) s0)
    as (_ & Hws & _ & _ & _ & Hlen & _).
  fold s1 in Hws, Hlen.
  assert (Hws1 : ws s1 = None) by (by rewrite Hws).
  assert (Hlen1 : length (timers s1) = h).
  { rewrite Hlen. unfold s0. simpl. by rewrite length_insert. }
  assert (Hold : ∀ h' t, armed h' s1 = Some t → armed h' s = Some t).
  { intros h' t Ht. apply reject_closed_fold_armed in Ht.
    rewrite (armed_ext h' (clearTimeout connectionTimeout s)) in Ht by done.
    rewrite armed_clearTimeout in Ht. by case_decide. }
  clearbody s1. clear Hws Hlen s0.
  assert (Harmed : armed h (set_timers (fun t => t ++ [Some (mkTimeout
                      (backoff reconnectInterval k) (Reconnect port))]) s1) =
                   Some (mkTimeout (backoff reconnectInterval k) (Reconnect port))).
  { rewrite <- Hlen1. apply armed_new_timer. }
  destruct (backoff_bounds k) as [Hmax Hmin].
  cbn [snd].
  set (T := set_timers (fun t => t ++ [Some (mkTimeout (backoff reconnectInterval k)
                                              (Reconnect port))]) s1) in *.
  assert (Hfire : fire reconnectInterval defaultPort h id now ctor T =
            (Returned tt,
             connectToFigma reconnectInterval port ctor
               (set_timers (fun ts => <[h:=None]> ts) T))).
  { unfold fire. by rewrite Harmed. }
  rewrite Hfire. cbn [fst snd].
  set (D := set_timers (fun ts => <[h:=None]> ts) T).
  assert (HwsD : ws D = None) by exact Hws1.
  assert (HtD : timers D = timers s1 ++ [None]).
  { unfold D, T. simpl. rewrite insert_app_r_alt by lia. by rewrite Hlen1, Nat.sub_diag. }
  assert (Hconn : connectToFigma reconnectInterval port ctor D =
            match ctor with
            | Normal _ => set_timers (fun t => t ++ [Some (mkTimeout 10000 ConnectionTimeout)])
                            (set_ws (Some CONNECTING) D)
            | Abrupt _ => set_timers (fun t => t ++ [Some (mkTimeout reconnectInterval
                                                             (Reconnect port))]) D
            end).
  { unfold connectToFigma, setTimeout. rewrite HwsD. by destruct ctor. }
  rewrite Hconn. clear Hconn Hfire.
  assert (HlenD : length (timers D) = S h).
  { rewrite HtD, length_app, Hlen1. simpl. lia. }
  assert (HarmedD : armed h D = None).
  { unfold armed. rewrite HtD, lookup_app_r by lia. by rewrite Hlen1, Nat.sub_diag. }
  clearbody D.
  split_and!; try done.
  - unfold T. simpl. rewrite length_app, Hlen1. simpl. lia.
  - intros h' t Hne Ht.
    assert (Hlt : (h' < h)%nat).
    { apply armed_lt in Ht. unfold T in Ht. simpl in Ht.
      rewrite length_app, Hlen1 in Ht. simpl in Ht. lia. }
    unfold T in Ht. rewrite armed_old_timer in Ht by lia. by apply Hold.
  - destruct ctor.
    + rewrite armed_old_timer by (simpl; lia). exact HarmedD.
    + rewrite armed_old_timer by lia. exact HarmedD.
  - destruct ctor.
    + split; [done|]. rewrite <- HlenD.
      apply (armed_new_timer _ (set_ws (Some CONNECTING) D)).
    + split; [done|]. rewrite <- HlenD. apply armed_new_timer.
Qed.


(** ** A join that nobody confirms *)

(** X20: a [join] sent on an open socket waits on a timer of 60 s.
    While the timer has not fired the caller stays suspended; when it
    fires, the entry is removed, [joinChannel] throws "Request to Figma
    timed out", no channel is recorded, and the tools report the failure
    as "Error joining channel: ..." and "Failed to connect: ...". *)
Theorem unconfirmed_join_times_out (channelName id id' : string) (now now' : Z)
  (ctor ctor' : completion unit) (s : state) :
  is_OPEN (ws s) = true →
  pendingRequests s !! id = None →
  let called := joinChannel reconnectInterval defaultPort channelName id now ctor s in
  let h := length (timers s) in
  ∃ p : promise,
    fst called = Suspended p ∧
    armed h (snd called) = Some (mkTimeout 60000 (CommandTimeout id p)) ∧
    joinChannel_resume channelName p (snd called) = (Suspended p, snd called) ∧
    let s2 := snd (fire reconnectInterval defaultPort h id' now' ctor' (snd called)) in
    pendingRequests s2 = pendingRequests s ∧
    joinChannel_resume channelName p s2 =
      (Failed (new_Error "Request to Figma timed out"), s2) ∧
    currentChannel s2 = currentChannel s ∧
    Tools.join_channel_resume channelName p s2 =
      (Returned "Error joining channel: Request to Figma timed out", s2) ∧
    Tools.auto_connect_resume channelName p s2 =
      (Returned "Failed to connect: Request to Figma timed out", s2).
Proof.
  intros Hopen Hfresh called h. subst called.
  unfold joinChannel, sendCommandToFigma, new_Promise, setTimeout. rewrite Hopen. simpl.
  rewrite Hopen. simpl.
  exists (length (promises s)). cbv zeta.
  set (s1 := ws_send _ _).
  assert (Harmed : armed h s1 = Some (mkTimeout 60000 (CommandTimeout id (length (promises s))))).
  { unfold s1, armed, h. simpl. by rewrite lookup_app_r, Nat.sub_diag by lia. }
  assert (Hpend : promise_state (length (promises s)) s1 = Pending).
  { unfold promise_state, s1. simpl. by rewrite lookup_app_r, Nat.sub_diag by lia. }
  assert (Hfire : snd (fire reconnectInterval defaultPort h id' now' ctor' s1) =
            settle (length (promises s)) (Rejected (new_Error "Request to Figma timed out"))
              (set_pendingRequests (delete id) (set_timers (fun ts => <[h:=None]> ts) s1))).
  { unfold fire. rewrite Harmed. simpl. unfold request_timed_out. simpl.
    by rewrite lookup_insert_eq. }
  rewrite Hfire. clear Hfire.
  set (s0 := set_pendingRequests (delete id) _).
  assert (Hp : promises s0 !! length (promises s) = Some Pending).
  { unfold s0, s1. simpl. by rewrite lookup_app_r, Nat.sub_diag by lia. }
  destruct (settle_pending _ (Rejected (new_Error "Request to Figma timed out")) _ Hp)
    as [_ Hstate].
  destruct (settle_frame (length (promises s))
              (Rejected (new_Error "Request to Figma timed out")) s0)
    as (Htable & _ & _ & Hcur & _).
  unfold Tools.join_channel_resume, Tools.auto_connect_resume, autoConnect_resume,
    joinChannel_resume.
  rewrite Hstate, Hpend, Htable, Hcur.
  split_and!; try done.
  unfold s0, s1. simpl. rewrite delete_insert_eq. by apply delete_id.
Qed.

(** ** Starting the process *)

(** X21: [initializeWebSocket] connects the client only when the relay
    is running afterwards: if [Bun.serve] throws nothing changes.  After a
    start that succeeded the relay runs on the given port and the socket
    is CONNECTING, and a second call changes nothing, whatever port it is
    given.  When the relay already runs on another port and there is no
    socket, the client still connects to the port it was given, and on a
    failing constructor retries that port. *)
Theorem initializeWebSocket_starts_once (port port' : Z) (serve' ctor' : completion unit)
  (e : Error) (s : state) :
  (Server.isServerRunning (relay s) = false →
     initializeWebSocket reconnectInterval port (Abrupt e) ctor' s = s) ∧
  (Server.isServerRunning (relay s) = false → ws s = None →
     let s1 := initializeWebSocket reconnectInterval port (Normal tt) (Normal tt) s in
     Server.wsServer (relay s1) = Some port ∧
     ws s1 = Some CONNECTING ∧
     timers s1 = timers s ++ [Some (mkTimeout 10000 ConnectionTimeout)] ∧
     initializeWebSocket reconnectInterval port' serve' ctor' s1 = s1) ∧
  (Server.wsServer (relay s) = Some port → ws s = None →
     let s1 := initializeWebSocket reconnectInterval port' serve' (Abrupt e) s in
     Server.wsServer (relay s1) = Some port ∧
     timers s1 = timers s ++ [Some (mkTimeout reconnectInterval (Reconnect port'))]).
Proof.
  unfold initializeWebSocket, Server.startWebSocketServer, Server.isServerRunning.
  split_and!.
  - intros Hrun. destruct (Server.wsServer (relay s)); [done|]. by destruct s.
  - intros Hrun Hws. destruct (Server.wsServer (relay s)) eqn:Hsrv; [done|].
    simpl. unfold connectToFigma, setTimeout. simpl. rewrite Hws. simpl.
    split_and!; done.
  - intros Hsrv Hws. rewrite Hsrv. simpl. unfold connectToFigma, setTimeout. simpl.
    rewrite Hws. simpl. by rewrite Hsrv.
Qed.

(** ** The table in every run *)


(** ** The auto-connect switch *)

(** X23: the open listener clears the connection timer and forgets the
    channel; it arms the 1 s timer of [tryAutoConnect] exactly when
    auto-connect is enabled, and when that timer fires [tryAutoConnect]
    runs.  With auto-connect disabled it arms nothing. *)
Theorem open_auto_connects_only_when_enabled (enabled : bool)
  (connectionTimeout : timer) (id : string) (now : Z) (ctor : completion unit)
  (s : state) :
  let s' := on_open connectionTimeout (setAutoConnect enabled s) in
  let cleared := <[connectionTimeout := None]> (timers s) in
  currentChannel s' = None ∧
  autoConnectEnabled s' = enabled ∧
  (enabled = false → timers s' = cleared) ∧
  (enabled = true →
     timers s' = cleared ++ [Some (mkTimeout 1000 TryAutoConnect)] ∧
     fire reconnectInterval defaultPort (length (timers s)) id now ctor s' =
       tryAutoConnect reconnectInterval defaultPort id now ctor
         (clearTimeout (length (timers s)) s')).
Proof.
  intros s' cleared. subst s'. unfold on_open, setAutoConnect, setTimeout. simpl.
  destruct enabled; simpl; split_and!; try done.
  intros _. split; [done|].
  unfold fire, armed. simpl.
  rewrite lookup_app_r by (rewrite length_insert; lia).
  rewrite length_insert, Nat.sub_diag. done.
Qed.

End ClientMore.

(** * The connection tools *)
Section ToolFacts.
Import Js Eff Client.
Variable reconnectInterval : Z.
Variable defaultPort : Z.

(** X24: the [join_channel] tool.  Asked for the channel that is already
    current it answers "Already connected" and sends nothing, whatever
    the state of the socket; otherwise, with the socket not open, it
    answers with the not-connected error and sends nothing; otherwise it
    sends a [join] for that channel and waits.  On a confirmed join it
    answers "Successfully joined" with the channel now current, on a
    rejected one "Error joining channel: ..." with the state as it was. *)
Theorem join_channel_tool_answers (channel id : string) (now : Z)
  (ctor : completion unit) (p : promise) (s : state) :
  let r := Tools.join_channel reconnectInterval defaultPort channel id now ctor s in
  (getCurrentChannel s = Some channel →
     r = (Returned ("Already connected to channel: " +:+ channel), s)) ∧
  (getCurrentChannel s ≠ Some channel → is_OPEN (ws s) = false →
     r = (Returned "Error joining channel: Not connected to WebSocket server", s)) ∧
  (getCurrentChannel s ≠ Some channel → is_OPEN (ws s) = true →
     ∃ request, r = (Suspended (length (promises s)), snd r) ∧
       outbox (snd r) = outbox s ++ [request] ∧
       get request "type" = Normal (VStr "join") ∧
       get request "channel" = Normal (VStr channel) ∧
       get request "id" = Normal (VStr id)) ∧
  (∀ v, promise_state p s = Fulfilled v →
     let r' := Tools.join_channel_resume channel p s in
     fst r' = Returned ("Successfully joined channel: " +:+ channel) ∧
     getCurrentChannel (snd r') = Some channel) ∧
  (∀ e, promise_state p s = Rejected e →
     Tools.join_channel_resume channel p s =
       (Returned ("Error joining channel: " +:+ Js.message e), s)).
Proof.
  intros r. subst r. unfold Tools.join_channel, Tools.join_channel_resume, joinChannel_resume.
  split_and!.
  - intros Hcur. by rewrite bool_decide_eq_true_2.
  - intros Hcur Hopen. rewrite bool_decide_eq_false_2 by done.
    unfold joinChannel. by rewrite Hopen.
  - intros Hcur Hopen. rewrite bool_decide_eq_false_2 by done.
    unfold joinChannel, sendCommandToFigma, new_Promise, setTimeout. rewrite Hopen. simpl.
    rewrite Hopen. simpl. by eexists.
  - intros v Hv. by rewrite Hv.
  - intros e He. by rewrite He.
Qed.

(** X25: the [auto_connect] tool.  Its text is that of [autoConnect()]:
    the no-plugin message when no channel is listed, "Already connected"
    when a channel is current, the join error when the only channel cannot
    be joined because the socket is not open, and, with several channels
    and none current, the list of channels twice, once in the message and
    once after "Available channels: ".  The text is never "Error during
    auto-connect: ...", because [autoConnect()] never throws. *)
Theorem auto_connect_tool_answers (id channelName : string) (now : Z)
  (ctor : completion unit) (p : promise) (s : state) :
  let r := Tools.auto_connect reconnectInterval defaultPort id now ctor s in
  let listed := Server.getActiveChannels (relay s) in
  (listed = [] →
     r = (Returned "No Figma plugins connected. Please run the Figma plugin first.", s)) ∧
  (listed ≠ [] → joined (currentChannel s) = true →
     r = (Returned ("Already connected to channel: " +:+ default "" (currentChannel s)), s)) ∧
  (∀ only, listed = [only] → joined (currentChannel s) = false → is_OPEN (ws s) = false →
     r = (Returned "Failed to connect: Not connected to WebSocket server", s)) ∧
  ((2 ≤ length listed)%nat → joined (currentChannel s) = false →
     r = (Returned ("Multiple channels available. Please use join_channel with one of: "
                      +:+ join ", " listed +:+ Tools.newline
                      +:+ "Available channels: " +:+ join ", " listed), s)) ∧
  (∀ text e, fst r = Returned text ∨
             fst (Tools.auto_connect_resume channelName p s) = Returned text →
     text ≠ "Error during auto-connect: " +:+ Js.message e).
Proof.
  intros r listed. subst r listed.
  unfold Tools.auto_connect, Tools.auto_connect_resume, autoConnect, autoConnect_resume,
    joinChannel_resume, joinChannel.
  assert (Hresume : ∀ (text : string) (e : Error) (other : async string * state),
            fst other = Returned text →
            other = match promise_state p s with
                    | Fulfilled _ =>
                        (Returned (Tools.auto_connect_text (join_succeeded channelName)),
                         set_relay (Server.setCurrentChannel (Some channelName))
                           (set_currentChannel (Some channelName) s))
                    | Rejected e0 => (Returned (Tools.auto_connect_text (join_failed e0)), s)
                    | Pending => (Suspended p, s)
                    end →
            text ≠ "Error during auto-connect: " +:+ Js.message e).
  { intros text e other H ->. destruct (promise_state p s); simpl in H; [done| |];
      injection H as H; rewrite <- H; simpl; by intros [=]. }
  destruct (Server.getActiveChannels (relay s)) as [|first [|second rest]] eqn:Hlisted;
    simpl; split_and!; try done; try (simpl; lia).
  all: try (intros _ Hj; by rewrite Hj).
  all: try (intros only _ Hj Hopen; by rewrite Hj, Hopen).
  all: try (by intros only [=]).
  - intros text e [H|H].
    + injection H as H. rewrite <- H. simpl. by intros [=].
    + eapply Hresume; [exact H|]. by destruct (promise_state p s).
  - intros text e [H|H].
    + destruct (joined (currentChannel s)); simpl in H.
      { injection H as H. rewrite <- H. simpl. by intros [=]. }
      destruct (is_OPEN (ws s)); simpl in H.
      { by destruct (sendCommandToFigma _ _ _ _ _ _ _ _ _). }
      injection H as H. rewrite <- H. simpl. by intros [=].
    + eapply Hresume; [exact H|]. by destruct (promise_state p s).
  - intros text e [H|H].
    + destruct (joined (currentChannel s)); simpl in H;
        injection H as H; rewrite <- H; unfold Tools.auto_connect_text; simpl;
        by intros [=].
    + eapply Hresume; [exact H|]. by destruct (promise_state p s).
Qed.

(** X26: the [get_connection_status] tool reads the channel and the
    relay, not the socket.  After the socket has closed its text is what it
    was before: with a channel joined it still says "Connected: Yes" and
    names the channel. *)
Theorem status_tool_cannot_see_the_socket (connectionTimeout : timer) (port k : Z)
  (C : string) (s : state) :
  let s' := on_close reconnectInterval connectionTimeout port k s in
  ws s' = None ∧
  Tools.get_connection_status s' = Tools.get_connection_status s ∧
  (currentChannel s = Some C → C ≠ "" →
     ∃ first rest, Tools.status_lines s' =
       first :: "Connected: Yes" :: ("Current Channel: " +:+ C) :: rest) ∧
  (currentChannel s = None →
     ∃ first rest, Tools.status_lines s' =
       first :: "Connected: No" :: "Current Channel: None" :: rest).
Proof.
  intros s'. subst s'. unfold on_close, setTimeout.
  set (s0 := set_ws None (clearTimeout connectionTimeout s)).
  destruct (reject_closed_fold_frame (map_to_list (pendingRequests s0)) s0)
    as (Hcur & Hws & Hrelay & _).
  unfold Tools.get_connection_status, Tools.status_lines, getConnectionStatus.
  simpl in *. rewrite Hcur, Hws, Hrelay.
  split_and!; try done.
  - intros HC Hne. rewrite HC. simpl.
    rewrite (proj2 (String.eqb_neq C "") Hne). simpl. by eexists _, _.
  - intros HC. rewrite HC. simpl. by eexists _, _.
Qed.

End ToolFacts.

(** * The client and the relay side by side *)
Section BridgeFacts.
Import Js Eff Client.
Variable reconnectInterval : Z.

Lemma relay_run_frame (os : list Server.occurrence) (s : state) :
  relay (relay_run os s) = Server.run os (relay s) ∧
  currentChannel (relay_run os s) = currentChannel s ∧
  ws (relay_run os s) = ws s.
Proof.
  unfold relay_run, Server.run. revert s.
  induction os as [|o os IH]; intros s; simpl; [done|].
  by destruct (IH (set_relay (fun r => Server.step r o) s)) as (-> & -> & ->).
Qed.

(** X27: the relay has a [currentChannel] of its own, the one [/status]
    and [/channels] report.  No event of the relay's sockets changes it,
    and neither do the close and open listeners of the client's socket: so
    after the client's socket has closed and opened again, the client has
    forgotten its channel while the relay still reports it. *)
Theorem relay_keeps_reporting_the_channel (os os' : list Server.occurrence)
  (connectionTimeout connectionTimeout' : timer) (port k : Z) (C : string)
  (req : Http.Request) (uptime : value) (up : Http.upgrade) (s : state) :
  Server.getCurrentChannel (relay s) = Some C →
  Http.method req ≠ "OPTIONS" → Http.pathname req = "/channels" →
  let closed := relay_run os (on_close reconnectInterval connectionTimeout port k s) in
  let reopened := relay_run os' (on_open connectionTimeout' (set_ws (Some OPEN) closed)) in
  getCurrentChannel reopened = None ∧
  Server.getCurrentChannel (relay reopened) = Some C ∧
  ∃ names,
    Http.fetch req uptime up (relay reopened) =
      (Some (Http.mkResponse 200
               (Http.JsonBody (VObj [("channels", names); ("currentChannel", VStr C)]))
               Http.json_headers),
       relay reopened).
Proof.
  intros HC Hmethod Hpath closed reopened.
  assert (Hclosed : relay closed =
            Server.run os (relay s)).
  { unfold closed. destruct (relay_run_frame os
      (on_close reconnectInterval connectionTimeout port k s)) as (-> & _).
    unfold on_close, setTimeout. simpl.
    match goal with |- context [fold_left reject_closed ?l ?s0] =>
      destruct (reject_closed_fold_frame l s0) as (_ & _ & -> & _) end.
    done. }
  assert (Hopened : ∀ s0, relay (on_open connectionTimeout' s0) = relay s0 ∧
                          currentChannel (on_open connectionTimeout' s0) = None).
  { intros s0. unfold on_open, setTimeout. simpl. by destruct (autoConnectEnabled s0). }
  assert (Hrelay : relay reopened = Server.run os' (Server.run os (relay s))).
  { unfold reopened. destruct (relay_run_frame os'
      (on_open connectionTimeout' (set_ws (Some OPEN) closed))) as (-> & _).
    destruct (Hopened (set_ws (Some OPEN) closed)) as [-> _]. simpl. by rewrite Hclosed. }
  assert (Hcur : Server.getCurrentChannel (relay reopened) = Some C).
  { rewrite Hrelay. unfold Server.getCurrentChannel.
    destruct (currentChannel_run os' (Server.run os (relay s))) as [-> _].
    by destruct (currentChannel_run os (relay s)) as [-> _]. }
  split_and!.
  - unfold reopened, getCurrentChannel.
    destruct (relay_run_frame os'
      (on_open connectionTimeout' (set_ws (Some OPEN) closed))) as (_ & -> & _).
    by destruct (Hopened (set_ws (Some OPEN) closed)) as [_ ->].
  - exact Hcur.
  - unfold Http.fetch.
    rewrite (proj2 (String.eqb_neq _ _) Hmethod), Hpath. simpl.
    unfold Server.getCurrentChannel in Hcur. rewrite Hcur. by eexists.
Qed.

End BridgeFacts.

(** * The further properties at work in the session *)
Section Session2.
Import Js Eff Scenario Scenario2.

(** X1 in the session: a notice goes to [design], where connections 2, 1
    and 3 are members, on behalf of connection 1, while the socket of
    connection 2 refuses writes: both 2 and 3 are written to, one send is
    counted and one error. *)
Lemma broadcast_survives_failing_sends_witness :
  let r := Server.broadcastToChannel all_open plugin_stuck (VStr "design") (VStr "hi")
             (Some 1) relay_three in
  fst r = Ret tt ∧
  Server.wire (snd r) = Server.wire relay_three ++ [(2, VStr "hi"); (3, VStr "hi")] ∧
  Server.messagesSent (Server.stats (snd r)) =
    (Server.messagesSent (Server.stats relay_three) + 1)%Z ∧
  Server.errors (Server.stats (snd r)) = (Server.errors (Server.stats relay_three) + 1)%Z.
Proof.
  destruct (broadcast_survives_failing_sends all_open plugin_stuck (VStr "design")
              (VStr "hi") (Some 1) relay_three) as [Hsome _].
  destruct (Hsome [2; 1; 3]) as (H1 & H2 & H3 & H4 & _); [reflexivity|].
  split_and!; [exact H1 | exact H2 | exact H3 | exact H4].
Defined.

(** X2 in the session: connection 3 joins [design] after 2 and 1. *)
Lemma join_registers_confirms_and_notifies_witness :
  let data := VObj [("id", VStr "q1"); ("type", VStr "join"); ("channel", VStr "design")] in
  let r := Server.message all_open no_send_error 3 (Parsed data) relay_after_join in
  let notice := VObj [("type", VStr "system");
                      ("message", VStr "A new client has joined the channel");
                      ("channel", VStr "design")] in
  Server.is_member 3 "design" (snd r) = true ∧
  Server.is_member 3 "other" (snd r) = false ∧
  Server.wire (snd r) = Server.wire relay_after_join ++
    [(3, VObj [("type", VStr "system");
               ("message", VObj [("id", VStr "q1");
                                 ("result", VStr "Connected to channel: design")]);
               ("channel", VStr "design")]);
     (2, notice); (1, notice)].
Proof.
  destruct (join_registers_confirms_and_notifies all_open no_send_error 3
              (VObj [("id", VStr "q1"); ("type", VStr "join"); ("channel", VStr "design")])
              (VStr "q1") "design" relay_after_join)
    as (_ & Hmember & Hwire); [reflexivity | reflexivity | discriminate | reflexivity
                              | reflexivity |].
  split_and!.
  - rewrite (Hmember 3 "design"). reflexivity.
  - rewrite (Hmember 3 "other"). reflexivity.
  - exact Hwire.
Defined.



(** X5 in the session: the plugin's connection closes. *)
Lemma close_leaves_every_channel_witness :
  let s' := snd (Server.close 2 relay_after_join) in
  Server.is_member 2 "design" s' = false ∧
  Server.is_member 1 "design" s' = true ∧
  Server.wire s' = Server.wire relay_after_join ∧
  Server.activeConnections (Server.stats s') = 1%Z.
Proof.
  destruct (close_leaves_every_channel 2 relay_after_join relay_after_join_ok)
    as (Hgone & Hothers & _ & Hwire & Hactive).
  split_and!.
  - apply Hgone.
  - rewrite (Hothers 1 "design"); [reflexivity | discriminate].
  - exact Hwire.
  - exact Hactive.
Defined.

(** X6 in the session: connection 7, which has joined nothing, sends a
    progress update for [design]. *)
Lemma progress_update_is_relayed_unchanged_witness :
  let data := VObj [("type", VStr "progress_update"); ("id", VStr "r1");
                    ("channel", VStr "design");
                    ("message", VObj [("data", VObj [("progress", VNum 40)])])] in
  let r := Server.message all_open no_send_error 7 (Parsed data) relay_after_join in
  Server.wire (snd r) = Server.wire relay_after_join ++ [(2, data); (1, data)] ∧
  Server.channels (snd r) = Server.channels relay_after_join.
Proof.
  destruct (progress_update_is_relayed_unchanged all_open no_send_error 7
              (VObj [("type", VStr "progress_update"); ("id", VStr "r1");
                     ("channel", VStr "design");
                     ("message", VObj [("data", VObj [("progress", VNum 40)])])])
              relay_after_join) as [Hsome _]; [reflexivity|].
  destruct (Hsome "design" [2; 1]) as (_ & Hwire & Hch); [reflexivity | reflexivity |].
  split; [exact Hwire | exact Hch].
Defined.



(** X9 in the session: the relay with two members in [design] is started,
    stopped and started again. *)
Lemma restart_keeps_only_the_counters_witness :
  let started := snd (Server.startWebSocketServer 3055 (Normal tt) relay_after_join) in
  let stopped := Server.stopWebSocketServer started in
  Server.startWebSocketServer 4000 (Normal tt) started = (Some 3055%Z, started) ∧
  Server.startWebSocketServer 3055 (Abrupt (new_Error "port in use")) relay_after_join
    = (None, relay_after_join) ∧
  Server.getActiveChannels stopped = [] ∧
  Server.stats stopped = Server.stats relay_after_join.
Proof.
  destruct (restart_keeps_only_the_counters 3055 4000 (Normal tt)
              (new_Error "port in use") relay_after_join)
    as (_ & Hagain & Hfail & _ & Hlist & _ & _ & Hstats & _).
  destruct Hfail as (Hfail & _); [reflexivity|].
  split_and!; [exact Hagain | exact Hfail | exact Hlist | exact Hstats].
Defined.



(** X12 in the session: a command before the process has a socket. *)
Lemma command_while_disconnected_is_rejected_witness :
  let sent := Client.sendCommandToFigma reconnectInterval defaultPort
                "get_document_info" [] 60000 "r0" 1 (Normal tt) Client.initial in
  Client.promise_state (fst sent) (snd sent) =
    Client.Rejected (new_Error "Not connected to WebSocket server. Attempting to connect...") ∧
  Client.outbox (snd sent) = [] ∧
  Client.ws (snd sent) = Some CONNECTING ∧
  Client.timers (snd sent) = [Some (Client.mkTimeout 10000 Client.ConnectionTimeout)].
Proof.
  destruct (command_while_disconnected_is_rejected reconnectInterval defaultPort
              "get_document_info" [] 60000 "r0" 1 (Normal tt) Client.initial)
    as (_ & Hrej & Hout & _ & _ & Hws & Htimers); [reflexivity|].
  split_and!; [exact Hrej | exact Hout | exact Hws | exact Htimers].
Defined.

(** X13 in the session: the first connection of the process. *)
Lemma connection_timer_bites_only_while_connecting_witness :
  let s1 := Client.connectToFigma reconnectInterval defaultPort (Normal tt) Client.initial in
  Client.armed 0 s1 = Some (Client.mkTimeout 10000 Client.ConnectionTimeout) ∧
  Client.ws (snd (Client.fire reconnectInterval defaultPort 0 "u0" 5 (Normal tt) s1))
    = Some CLOSING ∧
  (let s2 := Client.on_open 0 (Client.set_ws (Some OPEN) s1) in
   Client.fire reconnectInterval defaultPort 0 "u0" 5 (Normal tt) s2
     = (Client.Returned tt, s2)).
Proof.
  destruct (connection_timer_bites_only_while_connecting reconnectInterval defaultPort
              defaultPort "u0" 5 2 (Normal tt) Client.initial)
    as (_ & Harmed & (_ & Hfire & _) & Hopened & _); [discriminate | discriminate |].
  split_and!; [exact Harmed | exact Hfire | exact Hopened].
Defined.

(** X14 in the session: one channel is listed, the client has joined
    nothing and its socket is open. *)
Lemma tryAutoConnect_never_throws_witness :
  let r := Client.tryAutoConnect reconnectInterval defaultPort "u1" 10 (Normal tt)
             connected in
  (∀ e, fst r ≠ Client.Failed e) ∧
  fst r = Client.Suspended 0 ∧
  ∃ only, Server.getActiveChannels (Client.relay connected) = [only].
Proof.
  destruct (tryAutoConnect_never_throws reconnectInterval defaultPort "u1" "design" 10
              (Normal tt) 0 connected) as (Hnever & _ & Hacts & _).
  destruct Hacts as (only & Hlisted & _ & _ & Hr); [vm_compute; discriminate|].
  split_and!.
  - exact Hnever.
  - rewrite Hr. reflexivity.
  - exists only. exact Hlisted.
Defined.

(** X15 in the session: the client leaves [design]. *)
Lemma disconnect_only_forgets_the_channel_witness :
  let s' := snd (Client.disconnect joined_design) in
  Client.getCurrentChannel s' = None ∧
  Server.getCurrentChannel (Client.relay s') = None ∧
  Server.channels (Client.relay s') = [("design", [2; 1])] ∧
  Client.outbox s' = Client.outbox joined_design ∧
  Tools.disconnect_figma joined_design = ("Disconnected from channel: design", s') ∧
  (let sent := Client.sendCommandToFigma reconnectInterval defaultPort
                 "get_document_info" [] 60000 "r1" 100 (Normal tt) s' in
   Client.promise_state (fst sent) (snd sent) =
     Client.Rejected (new_Error
       "Must join a channel before sending commands. Use auto_connect or join_channel.")).
Proof.
  destruct (disconnect_only_forgets_the_channel reconnectInterval defaultPort
              "get_document_info" [] 60000 "r1" 100 (Normal tt) joined_design)
    as (_ & _ & Hcur & Hsrv & Hch & _ & Hout & _ & _ & _ & _ & Htool & _ & Hrefused);
    [reflexivity|].
  destruct Hrefused as (Hrej & _); [reflexivity | discriminate |].
  split_and!; [exact Hcur | exact Hsrv | exact Hch | exact Hout | exact Htool | exact Hrej].
Defined.

(** X16 in the session: the client, connection 1 of the relay, joins
    [design]. *)
Lemma join_round_trip_witness :
  let called := Client.joinChannel reconnectInterval defaultPort "design" "u1" 10
                  (Normal tt) connected in
  ∃ (p : Client.promise) (request reply : value) (others : list (Server.conn * value)),
    fst called = Client.Suspended p ∧
    let served := Server.message all_open no_send_error 1 (Parsed request)
                    (Client.relay (snd called)) in
    Server.wire (snd served) =
      Server.wire (Client.relay connected) ++ (1, reply) :: others ∧
    let s2 := Client.on_message 20 (Parsed reply)
                (Client.set_relay (fun _ => snd served) (snd called)) in
    let resumed := Client.joinChannel_resume "design" p s2 in
    fst resumed = Client.Returned tt ∧
    Client.getCurrentChannel (snd resumed) = Some "design".
Proof.
  destruct (join_round_trip reconnectInterval defaultPort all_open no_send_error 1
              "design" "u1" 10 20 (Normal tt) connected)
    as (p & request & reply & others & Hp & _ & _ & Hwire & _ & _ & _ & _ & _ & Hret & Hcur & _);
    [reflexivity | reflexivity | discriminate | discriminate | reflexivity |].
  exists p, request, reply, others. cbv zeta.
  split_and!; [exact Hp | exact Hwire | exact Hret | exact Hcur].
Defined.

(** X17 in the session: the client sends a command to [design], where it
    is a member. *)
Lemma echo_of_own_command_is_ignored_witness :
  let sent := Client.sendCommandToFigma reconnectInterval defaultPort
                "get_document_info" [] 100 "r1" 100 (Normal tt) joined_design in
  ∃ request : value,
    Client.outbox (snd sent) = Client.outbox joined_design ++ [request] ∧
    let served := Server.message all_open no_send_error 1 (Parsed request)
                    (Client.relay (snd sent)) in
    let written := drop (length (Server.wire (Client.relay joined_design)))
                     (Server.wire (snd served)) in
    let s2 := Client.set_relay (fun _ => snd served) (snd sent) in
    (∃ echo, (1, echo) ∈ written) ∧
    (∀ v, (1, v) ∈ written → Client.on_message 120 (Parsed v) s2 = s2).
Proof.
  destruct (echo_of_own_command_is_ignored reconnectInterval defaultPort
              all_open no_send_error 1 "get_document_info" [] 100 "r1" "design" 100 120
              (Normal tt) joined_design)
    as (request & Hout & Hecho & Hignored & _);
    [reflexivity | reflexivity | discriminate | discriminate | reflexivity | reflexivity |].
  exists request. cbv zeta.
  split_and!; [exact Hout | exact Hecho | exact Hignored].
Defined.

(** X19 in the session: the socket closes while [r1] is pending. *)
Lemma close_schedules_one_reconnection_witness :
  let s' := Client.on_close reconnectInterval 0 defaultPort 2 command_sent in
  Client.ws s' = None ∧
  Client.armed 4 s' = Some (Client.mkTimeout 4500 (Client.Reconnect defaultPort)) ∧
  (Z.min 30000 reconnectInterval ≤ Client.backoff reconnectInterval 2 ≤ 30000)%Z ∧
  Client.ws (snd (Client.fire reconnectInterval defaultPort 4 "u9" 300 (Normal tt) s'))
    = Some CONNECTING.
Proof.
  destruct (close_schedules_one_reconnection reconnectInterval defaultPort
              0 defaultPort 2 "u9" 300 (Normal tt) command_sent)
    as (Hws & _ & Harmed & _ & Hmax & Hmin & _ & _ & Hconn & _).
  split_and!; [exact Hws | exact Harmed | apply Hmin; vm_compute; discriminate
              | exact Hmax | exact Hconn].
Defined.

(** X20 in the session: the relay never answers the client's [join]. *)
Lemma unconfirmed_join_times_out_witness :
  let called := Client.joinChannel reconnectInterval defaultPort "design" "u1" 10
                  (Normal tt) connected in
  let s2 := snd (Client.fire reconnectInterval defaultPort 2 "u9" 60010 (Normal tt)
                   (snd called)) in
  fst called = Client.Suspended 0 ∧
  Client.joinChannel_resume "design" 0 s2 =
    (Client.Failed (new_Error "Request to Figma timed out"), s2) ∧
  Client.currentChannel s2 = None ∧
  Tools.auto_connect_resume "design" 0 s2 =
    (Client.Returned "Failed to connect: Request to Figma timed out", s2).
Proof.
  destruct (unconfirmed_join_times_out reconnectInterval defaultPort "design" "u1" "u9"
              10 60010 (Normal tt) (Normal tt) connected)
    as (p & Hp & _ & _ & _ & Hfail & Hcur & _ & Htool); [reflexivity | reflexivity |].
  assert (Heq : p = 0%nat) by (injection Hp as <-; reflexivity).
  subst p.
  split_and!; [exact Hp | exact Hfail | exact Hcur | exact Htool].
Defined.

(** X21 in the session: the process starts. *)
Lemma initializeWebSocket_starts_once_witness :
  Client.initializeWebSocket reconnectInterval defaultPort
    (Abrupt (new_Error "port in use")) (Normal tt) Client.initial = Client.initial ∧
  Client.ws started = Some CONNECTING ∧
  Client.initializeWebSocket reconnectInterval 4000 (Normal tt) (Normal tt) started
    = started.
Proof.
  destruct (initializeWebSocket_starts_once reconnectInterval defaultPort 4000
              (Normal tt) (Normal tt) (new_Error "port in use") Client.initial)
    as (Hfail & Hstart & _).
  destruct Hstart as (_ & Hws & _ & Hagain); [reflexivity | reflexivity |].
  split_and!; [apply Hfail; reflexivity | exact Hws | exact Hagain].
Defined.


(** X23 in the session: the first socket opens, with auto-connect switched
    off and on. *)
Lemma open_auto_connects_only_when_enabled_witness :
  Client.timers (Client.on_open 0 (Client.setAutoConnect false started)) = [None] ∧
  Client.timers (Client.on_open 0 (Client.setAutoConnect true started)) =
    [None; Some (Client.mkTimeout 1000 Client.TryAutoConnect)].
Proof.
  destruct (open_auto_connects_only_when_enabled reconnectInterval defaultPort
              false 0 "u1" 10 (Normal tt) started) as (_ & _ & Hoff & _).
  destruct (open_auto_connects_only_when_enabled reconnectInterval defaultPort
              true 0 "u1" 10 (Normal tt) started) as (_ & _ & _ & Hon).
  destruct Hon as (Hon & _); [reflexivity|].
  split; [apply Hoff; reflexivity | exact Hon].
Defined.

(** X24 in the session: the tool is asked for [design], after the join
    and before it. *)
Lemma join_channel_tool_answers_witness :
  Tools.join_channel reconnectInterval defaultPort "design" "u2" 200 (Normal tt)
      joined_design
    = (Client.Returned "Already connected to channel: design", joined_design) ∧
  fst (Tools.join_channel reconnectInterval defaultPort "design" "u1" 10 (Normal tt)
         connected) = Client.Suspended 0 ∧
  fst (Tools.join_channel_resume "design" 0 confirmed)
    = Client.Returned "Successfully joined channel: design".
Proof.
  destruct (join_channel_tool_answers reconnectInterval defaultPort "design" "u2" 200
              (Normal tt) 0 joined_design) as (Halready & _).
  destruct (join_channel_tool_answers reconnectInterval defaultPort "design" "u1" 10
              (Normal tt) 0 connected) as (_ & _ & Hsend & _).
  destruct (join_channel_tool_answers reconnectInterval defaultPort "design" "u1" 10
              (Normal tt) 0 confirmed) as (_ & _ & _ & Hdone & _).
  destruct Hsend as (request & Hr & _); [discriminate | reflexivity |].
  destruct (Hdone (VStr "Connected to channel: design")) as (Htext & _); [reflexivity|].
  split_and!; [apply Halready; reflexivity | rewrite Hr; reflexivity | exact Htext].
Defined.

(** X25 in the session: the tool is called before any plugin has
    connected. *)
Lemma auto_connect_tool_answers_witness :
  Tools.auto_connect reconnectInterval defaultPort "u1" 10 (Normal tt) opened
    = (Client.Returned "No Figma plugins connected. Please run the Figma plugin first.",
       opened) ∧
  ∀ text e,
    fst (Tools.auto_connect_resume "design" 0 confirmed) = Client.Returned text →
    text ≠ "Error during auto-connect: " +:+ Js.message e.
Proof.
  destruct (auto_connect_tool_answers reconnectInterval defaultPort "u1" "design" 10
              (Normal tt) 0 opened) as (Hnone & _).
  destruct (auto_connect_tool_answers reconnectInterval defaultPort "u1" "design" 10
              (Normal tt) 0 confirmed) as (_ & _ & _ & _ & Hnever).
  split; [apply Hnone; reflexivity|].
  intros text e H. apply Hnever. right. exact H.
Defined.



(** X18 in the session: the client (connection
    1) asks the plugin (connection 2) for the document. *)
Lemma command_round_trip_witness :
  let sent := Client.sendCommandToFigma reconnectInterval defaultPort
                "get_document_info" [("commandId", VStr "mine")] 100 "r1" 100
                (Normal tt) joined_design in
  let result := VObj [("name", VStr "Document")] in
  ∃ request : value,
    Client.outbox (snd sent) = Client.outbox joined_design ++ [request] ∧
    let served := Server.message all_open no_send_error 1 (Parsed request)
                    (Client.relay (snd sent)) in
    (2, VObj [("type", VStr "broadcast");
              ("message", VObj [("id", VStr "r1"); ("command", VStr "get_document_info");
                                ("params", VObj [("commandId", VStr "r1")])]);
              ("channel", VStr "design")])
      ∈ drop (length (Server.wire (Client.relay joined_design)))
             (Server.wire (snd served)) ∧
    let answer := VObj [("type", VStr "message"); ("channel", VStr "design");
                        ("message", VObj [("id", VStr "r1"); ("result", result)])] in
    let answered := Server.message all_open no_send_error 2 (Parsed answer) (snd served) in
    let back := VObj [("type", VStr "broadcast");
                      ("message", VObj [("id", VStr "r1"); ("result", result)]);
                      ("channel", VStr "design")] in
    let s3 := Client.on_message 150 (Parsed back)
                (Client.set_relay (fun _ => snd answered) (snd sent)) in
    Client.promise_state (fst sent) s3 = Client.Fulfilled result ∧
    Client.pendingRequests s3 = Client.pendingRequests joined_design.
Proof.
  destruct (command_round_trip reconnectInterval defaultPort all_open no_send_error 1 2
              "get_document_info" [("commandId", VStr "mine")] 100 "r1" "design" 100 150
              (Normal tt) (VObj [("name", VStr "Document")]) joined_design)
    as (_ & _ & request & Hout & Hdelivered & _ & Hresolved & Htable & _);
    [reflexivity | reflexivity | discriminate | discriminate | discriminate
    | reflexivity | reflexivity | reflexivity | reflexivity | reflexivity | reflexivity |].
  exists request. cbv zeta.
  split_and!; [exact Hout | exact Hdelivered | exact Hresolved | exact Htable].
Defined.

(** X26 in the session: the socket closes after the join of
    [design]. *)
Lemma status_tool_cannot_see_the_socket_witness :
  let s' := Client.on_close reconnectInterval 0 defaultPort 2 joined_design in
  Client.ws s' = None ∧
  Tools.get_connection_status s' =
    "Server Running: Yes" +:+ Tools.newline +:+
    "Connected: Yes" +:+ Tools.newline +:+
    "Current Channel: design" +:+ Tools.newline +:+
    "Available Channels: design" +:+ Tools.newline +:+
    "Active Connections: 2".
Proof.
  destruct (status_tool_cannot_see_the_socket reconnectInterval 0 defaultPort 2 "design"
              joined_design) as (Hws & Htext & _).
  split; [exact Hws|]. rewrite Htext. reflexivity.
Defined.

(** X27 in the session: after the join of [design] both
    transports close, and the client's socket opens again. *)
Lemma relay_keeps_reporting_the_channel_witness :
  let closed := Client.relay_run [at_rest (Server.Closed 2); at_rest (Server.Closed 1)]
                  (Client.on_close reconnectInterval 0 defaultPort 2 joined_design) in
  let reopened := Client.relay_run [at_rest (Server.Opened 3)]
                    (Client.on_open 5 (Client.set_ws (Some OPEN) closed)) in
  Client.getCurrentChannel reopened = None ∧
  Server.getCurrentChannel (Client.relay reopened) = Some "design" ∧
  Server.getActiveChannels (Client.relay reopened) = [].
Proof.
  destruct (relay_keeps_reporting_the_channel reconnectInterval
              [at_rest (Server.Closed 2); at_rest (Server.Closed 1)]
              [at_rest (Server.Opened 3)] 0 5 defaultPort 2 "design"
              (Http.mkRequest "GET" "/channels") (VNum 1) Http.Declined joined_design)
    as (Hclient & Hrelay & _); [reflexivity | discriminate | reflexivity |].
  split_and!; [exact Hclient | exact Hrelay | reflexivity].
Defined.

End Session2.
